(** * FreshService knowledge-base extractor: a shallow embedding

    This development embeds the class [FreshServiceKBExtractor] of
    [FSKB_ArticlesDownload_Code.py] and states the properties of its
    specification over that embedding.

    Conventions.
    - A Python [str] is a list of Unicode code points ([pystr]); its length
      and its slices count code points, as Python's do.
    - JSON payloads and the objects built from them are values of [PyVal];
      floating-point numbers are left out of the fragment.
    - Effects (HTTP requests, the file system, the PDF renderer, the clock)
      go through a state-and-exception monad [M]; the answers of the outside
      world come from an environment [Env] that sees the whole history of
      operations, so that any pattern of failures can be expressed. *)

From Stdlib Require Import ZArith NArith Lia Ascii String DecimalString.
From Stdlib Require Import DecimalPos DecimalZ.
From stdpp Require Import base option list gmap sets sorting.

Local Set Warnings "-register-all".
Local Open Scope N_scope.
Local Open Scope list_scope.

(** ** Python strings *)

Abbreviation pychar := N (only parsing).
Abbreviation pystr := (list N) (only parsing).

(** [lit] turns an ASCII literal of this file into a Python string. *)
Definition lit (s : string) : pystr :=
  map N_of_ascii (list_ascii_of_string s).

(** Template text contains many double quotes; in a literal passed to [tpl]
    every caret stands for a double quote (the source has no caret in any
    text it formats). *)
Definition dquote : N := 34.
Definition newline : N := 10.
Definition tpl (s : string) : pystr :=
  map (fun c => if c =? 94 then dquote else c) (lit s).

Arguments lit : simpl never.
Arguments tpl : simpl never.

(** [str.isspace] on one character, as [str.strip] and the regular
    expression class [\s] use it (CPython's whitespace table). *)
Definition is_space (c : N) : bool :=
  ((9 <=? c) && (c <=? 13)) || ((28 <=? c) && (c <=? 32))
  || (c =? 133) || (c =? 160) || (c =? 5760)
  || ((8192 <=? c) && (c <=? 8202))
  || (c =? 8232) || (c =? 8233) || (c =? 8239) || (c =? 8287) || (c =? 12288).

Fixpoint drop_while (p : N -> bool) (s : pystr) : pystr :=
  match s with
  | [] => []
  | c :: s' => if p c then drop_while p s' else s
  end.

Definition lstrip (s : pystr) : pystr := drop_while is_space s.
Definition rstrip (s : pystr) : pystr :=
  reverse (drop_while is_space (reverse s)).

(** [s.strip()] *)
Definition strip (s : pystr) : pystr := rstrip (lstrip s).

(** [s.replace(old, new)] for a one-character [old]. *)
Definition replace_chr (old : N) (new : pystr) (s : pystr) : pystr :=
  flat_map (fun c => if c =? old then new else [c]) s.

(** [s.startswith(prefix)] *)
Fixpoint startswith (prefix s : pystr) : bool :=
  match prefix, s with
  | [], _ => true
  | p :: prefix', c :: s' => (p =? c) && startswith prefix' s'
  | _ :: _, [] => false
  end.

(** ** Filename Sanitizer *)

(** [invalid_chars]: less-than, greater-than, colon, double quote, slash,
    backslash, newline, question mark, asterisk, in that order. *)
Definition invalid_chars : pystr :=
  lit "<>:" ++ [dquote] ++ lit "/\" ++ [newline] ++ lit "?*".

(** [sanitize_filename]: strip, replace each invalid character by an
    underscore (the [for] loop is the left fold), keep the first 250. *)
Definition sanitize_filename (filename : pystr) : pystr :=
  let filename := strip filename in
  let filename :=
    fold_left (fun fn char => replace_chr char (lit "_") fn) invalid_chars filename in
  take 250 filename.

(** ** Regular expressions of the plain-text converter

    [html_to_text] only uses patterns that are a sequence of single
    characters (literal, class, negated class), each possibly under a greedy
    [*], [+] or [?].  [match_here] is the backtracking matcher of Python's
    [re] on that fragment: it returns the rest of the text after the first
    match in priority order (greedy, longest repetition first). *)

Inductive atom :=
| Chr (p : N -> bool)
| Star (p : N -> bool)
| Plus (p : N -> bool)
| Opt (p : N -> bool).

Definition regex := list atom.

Fixpoint greedy (p : N -> bool) (k : pystr -> option pystr) (s : pystr)
  : option pystr :=
  match s with
  | c :: s' =>
      if p c then
        match greedy p k s' with
        | Some rest => Some rest
        | None => k s
        end
      else k s
  | [] => k s
  end.

Fixpoint match_here (r : regex) (s : pystr) : option pystr :=
  match r with
  | [] => Some s
  | Chr p :: r' =>
      match s with
      | c :: s' => if p c then match_here r' s' else None
      | [] => None
      end
  | Star p :: r' => greedy p (match_here r') s
  | Plus p :: r' =>
      match s with
      | c :: s' => if p c then greedy p (match_here r') s' else None
      | [] => None
      end
  | Opt p :: r' =>
      match s with
      | c :: s' =>
          if p c then
            match match_here r' s' with
            | Some rest => Some rest
            | None => match_here r' s
            end
          else match_here r' s
      | [] => match_here r' s
      end
  end.

(** [re.sub(pattern, repl, text)]: leftmost, non-overlapping matches are
    replaced.  [skip] counts the characters of the current match that are
    still to be dropped.  Every pattern below starts with a mandatory
    character, so a match is never empty; a match that consumed nothing
    would be treated here as no match. *)
Fixpoint re_sub_from (r : regex) (repl : pystr) (skip : nat) (s : pystr)
  : pystr :=
  match s with
  | [] => []
  | c :: s' =>
      match skip with
      | S k => re_sub_from r repl k s'
      | O =>
          match match_here r s with
          | Some rest =>
              match (length s - length rest)%nat with
              | O => c :: re_sub_from r repl O s'
              | S k => repl ++ re_sub_from r repl k s'
              end
          | None => c :: re_sub_from r repl O s'
          end
      end
  end.

Definition re_sub (r : regex) (repl : pystr) (s : pystr) : pystr :=
  re_sub_from r repl O s.

(** A literal lower-case letter [c] of a pattern compiled with
    [re.IGNORECASE]: the text character matches when its lower-case form is
    [c]; besides the ASCII capital this covers the dotted capital I and the
    Kelvin sign, and the two equivalences that [re] adds for [i] and [s]. *)
Definition ci (c : N) (x : N) : bool :=
  (x =? c)
  || ((97 <=? c) && (c <=? 122) && (x =? c - 32))
  || ((c =? 105) && ((x =? 304) || (x =? 305)))
  || ((c =? 115) && (x =? 383))
  || ((c =? 107) && (x =? 8490)).

Definition chr_is (c : N) : atom := Chr (fun x => x =? c).
Definition ci_lit (s : string) : regex := map (fun c => Chr (ci c)) (lit s).
Definition in_range (lo hi : N) (x : N) : bool := (lo <=? x) && (x <=? hi).

(** The bullet of list items as the source file spells it (three code
    points) followed by a space. *)
Definition bullet : pystr := [226; 8364; 162].

Definition replacements : list (regex * pystr) :=
  [ (ci_lit "<br" ++ [Star is_space; Opt (fun x => x =? 47); chr_is 62], [newline]);
    (ci_lit "<p>", [newline]);
    (ci_lit "</p>", [newline; newline]);
    (ci_lit "<h" ++ [Chr (in_range 49 54); chr_is 62], [newline; newline] ++ lit "** ");
    (ci_lit "</h" ++ [Chr (in_range 49 54); chr_is 62], lit " **" ++ [newline; newline]);
    (ci_lit "<li>", bullet ++ lit " ");
    (ci_lit "</li>", [newline]);
    (ci_lit "<ul>", [newline]);
    (ci_lit "</ul>", [newline]);
    (ci_lit "<ol>", [newline]);
    (ci_lit "</ol>", [newline]);
    (ci_lit "<strong>", lit "**");
    (ci_lit "</strong>", lit "**");
    (ci_lit "<em>", lit "*");
    (ci_lit "</em>", lit "*");
    (ci_lit "<code>", lit "`");
    (ci_lit "</code>", lit "`");
    (ci_lit "<pre>", [newline] ++ lit "```" ++ [newline]);
    (ci_lit "</pre>", [newline] ++ lit "```" ++ [newline]);
    (ci_lit "<blockquote>", [newline] ++ lit "> ");
    (ci_lit "</blockquote>", [newline]) ].

(** [html.unescape]: a text without ampersand is returned as it is;
    otherwise the character references are replaced.  That replacement works
    from the HTML5 entity table of the Python library, which is not part of
    this program: it is the parameter [charrefs]. *)
Definition html_unescape (charrefs : pystr -> pystr) (s : pystr) : pystr :=
  if existsb (fun c => c =? 38) s then charrefs s else s.

(** [html_to_text] on a non-empty string. *)
Definition html_to_text_str (charrefs : pystr -> pystr) (html_content : pystr)
  : pystr :=
  let text := html_content in
  let text :=
    fold_left (fun text pr => re_sub (fst pr) (snd pr) text) replacements text in
  let text := re_sub [chr_is 60; Plus (fun x => negb (x =? 62)); chr_is 62] [] text in
  let text := html_unescape charrefs text in
  let text :=
    re_sub [chr_is newline; Star is_space; chr_is newline] [newline; newline] text in
  let text :=
    re_sub [Plus (fun x => (x =? 32) || (x =? 9))] (lit " ") text in
  strip text.

(** ** Python values *)

Inductive PyVal :=
| VNone
| VBool (b : bool)
| VInt (z : Z)
| VStr (s : pystr)
| VList (l : list PyVal)
| VDict (d : list (pystr * PyVal)).

(** A [dict] is kept as the list of its items in insertion order. *)
Abbreviation Dict := (list (pystr * PyVal)) (only parsing).

Fixpoint dict_get (d : Dict) (k : pystr) : option PyVal :=
  match d with
  | [] => None
  | (k', v) :: d' => if bool_decide (k' = k) then Some v else dict_get d' k
  end.

(** [d[k] = v] *)
Fixpoint dict_set (d : Dict) (k : pystr) (v : PyVal) : Dict :=
  match d with
  | [] => [(k, v)]
  | (k', v') :: d' =>
      if bool_decide (k' = k) then (k', v) :: d' else (k', v') :: dict_set d' k v
  end.

Definition dict_keys (d : Dict) : list pystr := map fst d.

(** Truth value of an object, as [if x:] and [not x] take it. *)
Definition truthy (v : PyVal) : bool :=
  match v with
  | VNone => false
  | VBool b => b
  | VInt z => negb (z =? 0)%Z
  | VStr s => negb (bool_decide (s = []))
  | VList l => match l with [] => false | _ => true end
  | VDict d => match d with [] => false | _ => true end
  end.

Definition str_of_Z (z : Z) : pystr :=
  lit (NilZero.string_of_int (Z.to_int z)).

(** [str(v)], which is also what an f-string field without format
    specification inserts.  The [repr] of a list or of a dict is the
    parameter [repr_container]. *)
Definition py_str (repr_container : PyVal -> pystr) (v : PyVal) : pystr :=
  match v with
  | VNone => lit "None"
  | VBool true => lit "True"
  | VBool false => lit "False"
  | VInt z => str_of_Z z
  | VStr s => s
  | VList _ | VDict _ => repr_container v
  end.

(** [v == n] for an integer literal [n]; [True] equals 1 and [False]
    equals 0 in Python. *)
Definition py_eq_int (v : PyVal) (n : Z) : bool :=
  match v with
  | VInt z => (z =? n)%Z
  | VBool b => ((if b then 1 else 0) =? n)%Z
  | _ => false
  end.

(** ** Exceptions, the outside world and the monad *)

Inductive Exc :=
| KeyError
| TypeError
| AttributeError
| ValueError
| OSError
| RequestException     (* connection errors and [raise_for_status] *)
| JSONDecodeError      (* [response.json()] on a body that is not JSON *)
| RenderError.         (* anything the PDF library raises *)

Inductive Op :=
| Get (url : pystr) (headers : list (pystr * pystr)) (params : Dict)
| Makedirs (path : pystr)
| OpenW (path : pystr)
| WriteFile (path : pystr) (data : pystr)
| RenderPdf (path : pystr) (html : pystr).

Record Response := {
  status_code : Z;
  json_body : option PyVal;   (* [None]: the body is not JSON *)
  content : pystr
}.

(** The environment answers every operation from the history of the
    operations made so far. *)
Record Env := {
  http : list Op -> Op -> option Response;   (* [None]: transport failure *)
  fs_fault : list Op -> Op -> bool;           (* the operation raises [OSError] *)
  pdf_render : list Op -> pystr -> option pystr; (* [None]: rendering raises *)
  weasyprint_available : bool;
  now_strftime : list Op -> pystr -> pystr;   (* history, format *)
  now_isoformat : list Op -> pystr;
  charrefs : pystr -> pystr;
  repr_container : PyVal -> pystr;
  json_dumps : PyVal -> pystr;
  (* the text [csv.writer] produces for rows of cells *)
  csv_text : list (list PyVal) -> pystr;
  urljoin : pystr -> pystr -> pystr;
  (* whether the installed [requests] derives its [JSONDecodeError] from
     [RequestException] (it does from version 2.27 on) *)
  json_error_is_request_exception : bool
}.

Record State := {
  trace : list Op;
  dirs : gset pystr;
  files : gmap pystr pystr
}.

Definition Res (A : Type) : Type := (Exc + A)%type.

(** State-and-exception monad over a store [S].  The store survives a
    raised exception, as Python's heap and local variables do. *)
Definition M (S A : Type) : Type := S -> Res A * S.

Definition ret {S A} (a : A) : M S A := fun st => (inr a, st).
Definition raise {S A} (e : Exc) : M S A := fun st => (inl e, st).
Definition bind {S A B} (m : M S A) (k : A -> M S B) : M S B :=
  fun st =>
    match m st with
    | (inr a, st') => k a st'
    | (inl e, st') => (inl e, st')
    end.

(** [try: body except <class>: handler], the class given by [catches]. *)
Definition try_except {S A} (body : M S A) (catches : Exc -> bool)
    (handler : Exc -> M S A) : M S A :=
  fun st =>
    match body st with
    | (inr a, st') => (inr a, st')
    | (inl e, st') => if catches e then handler e st' else (inl e, st')
    end.

Declare Scope py_scope.
Delimit Scope py_scope with py.
Notation "x <- m ;; k" := (bind m (fun x => k))
  (at level 90, m at level 89, right associativity) : py_scope.
Notation "m ;;; k" := (bind m (fun _ => k))
  (at level 90, right associativity) : py_scope.
Local Open Scope py_scope.

(** Run a computation on the world inside a computation that also has
    local variables [L]. *)
Definition zoom {L A} (m : M State A) : M (L * State) A :=
  fun ls => let '(r, st') := m (snd ls) in (r, (fst ls, st')).

Definition get_local {L W} : M (L * W) L := fun ls => (inr (fst ls), ls).
Definition set_local {L W} (l : L) : M (L * W) unit :=
  fun ls => (inr tt, (l, snd ls)).

(** [except Exception]: every exception of the model. *)
Definition any_exception (e : Exc) : bool := true.

(** A loop or a list comprehension that builds a list and stops at the
    first exception. *)
Fixpoint map_m {S A B} (f : A -> M S B) (xs : list A) : M S (list B) :=
  match xs with
  | [] => ret []
  | x :: xs' => y <- f x ;; ys <- map_m f xs' ;; ret (y :: ys)
  end.

(** ** Dynamic operations on values *)

(** [v.get(k, default)]: only a dict has the method. *)
Definition py_get {S} (v : PyVal) (k : pystr) (default : PyVal) : M S PyVal :=
  match v with
  | VDict d => ret (match dict_get d k with Some x => x | None => default end)
  | _ => raise AttributeError
  end.

(** [v[k]] for a string key. *)
Definition py_getitem {S} (v : PyVal) (k : pystr) : M S PyVal :=
  match v with
  | VDict d =>
      match dict_get d k with
      | Some x => ret x
      | None => raise KeyError
      end
  | _ => raise TypeError
  end.

(** [len(v)] *)
Definition py_len {S} (v : PyVal) : M S Z :=
  match v with
  | VStr s => ret (Z.of_nat (length s))
  | VList l => ret (Z.of_nat (length l))
  | VDict d => ret (Z.of_nat (length d))
  | _ => raise TypeError
  end.

(** The items a [for] loop or [list.extend] takes from [v]. *)
Definition py_iter {S} (v : PyVal) : M S (list PyVal) :=
  match v with
  | VList l => ret l
  | VStr s => ret (map (fun c => VStr [c]) s)
  | VDict d => ret (map (fun kv => VStr (fst kv)) d)
  | _ => raise TypeError
  end.

(** A method of [str] called on [v]. *)
Definition as_str {S} (v : PyVal) : M S pystr :=
  match v with
  | VStr s => ret s
  | _ => raise AttributeError
  end.

(** ** Paths *)

Definition slash : N := 47.

(** [os.path.join(a, b)] (POSIX) *)
Definition path_join (a b : pystr) : pystr :=
  if startswith [slash] b then b
  else match last a with
       | None => b
       | Some c => if c =? slash then a ++ b else a ++ [slash] ++ b
       end.

(** [os.path.dirname(p)] (POSIX): up to the last slash, trailing slashes
    removed unless nothing else is left. *)
Definition dirname (p : pystr) : pystr :=
  let head := reverse (drop_while (fun c => negb (c =? slash)) (reverse p)) in
  let stripped := reverse (drop_while (fun c => c =? slash) (reverse head)) in
  match stripped with
  | [] => head
  | _ => stripped
  end.

(** The directories [os.makedirs(p)] makes sure exist: every non-empty
    prefix of [p] that ends before a slash, and [p] itself. *)
Fixpoint ancestors_from (acc p : pystr) : list pystr :=
  match p with
  | [] => [acc]
  | c :: p' =>
      if c =? slash then acc :: ancestors_from (acc ++ [c]) p'
      else ancestors_from (acc ++ [c]) p'
  end.

Definition ancestors (p : pystr) : list pystr :=
  filter (fun a => a <> []) (ancestors_from [] p).

(** ** Order of strings

    [sorted] on strings compares them code point by code point. *)

Fixpoint pystr_leb (a b : pystr) : bool :=
  match a, b with
  | [], _ => true
  | _ :: _, [] => false
  | x :: a', y :: b' => (x <? y) || ((x =? y) && pystr_leb a' b')
  end.

Definition pystr_le (a b : pystr) : Prop := Is_true (pystr_leb a b).

#[global] Instance pystr_le_dec : RelDecision pystr_le.
Proof. intros a b. unfold pystr_le. apply _. Defined.

(** [sorted(list(s))] for a set of strings. *)
Definition sorted_elements (s : gset pystr) : list pystr :=
  merge_sort pystr_le (elements s).

(** ** The extractor object *)

Record Extractor := {
  domain : pystr;
  base_url : pystr;
  headers : list (pystr * pystr)
}.

Record RunSummary := {
  total_articles : Z;
  successful_articles : Z;
  total_attachments : Z;
  successful_attachments : Z;
  download_directory : pystr
}.

(** Local counters of the bulk download. *)
Record Counters := {
  c_successful_articles : Z;
  c_total_attachments : Z;
  c_successful_attachments : Z
}.

Section Program.

Variable E : Env.
Variable self : Extractor.

(** *** Primitives of the outside world *)

Definition record (op : Op) (st : State) : State :=
  {| trace := trace st ++ [op]; dirs := dirs st; files := files st |}.

(** [requests.get(url, headers=..., params=..., verify=False)] *)
Definition requests_get (url : pystr) (hdrs : list (pystr * pystr)) (params : Dict)
  : M State Response :=
  fun st =>
    let op := Get url hdrs params in
    match http E (trace st) op with
    | Some r => (inr r, record op st)
    | None => (inl RequestException, record op st)
    end.

(** [response.json()] *)
Definition response_json {S} (r : Response) : M S PyVal :=
  match json_body r with
  | Some j => ret j
  | None => raise JSONDecodeError
  end.

(** [response.raise_for_status()] *)
Definition raise_for_status {S} (r : Response) : M S unit :=
  if ((400 <=? status_code r) && (status_code r <? 600))%Z
  then raise RequestException else ret tt.

(** [except requests.RequestException] *)
Definition is_request_exception (e : Exc) : bool :=
  match e with
  | RequestException => true
  | JSONDecodeError => json_error_is_request_exception E
  | _ => false
  end.

(** [os.makedirs(path, exist_ok=True)] *)
Definition makedirs (path : pystr) : M State unit :=
  fun st =>
    let op := Makedirs path in
    let anc := ancestors path in
    if fs_fault E (trace st) op
       || bool_decide (path = [])
       || existsb (fun a => bool_decide (is_Some (files st !! a))) anc
    then (inl OSError, record op st)
    else (inr tt, {| trace := trace st ++ [op];
                     dirs := dirs st ∪ list_to_set anc;
                     files := files st |}).

(** Whether a file can be created at [path]: its directory exists (the
    working directory always does) and [path] is not a directory. *)
Definition can_create (st : State) (path : pystr) : bool :=
  (bool_decide (dirname path = []) || bool_decide (dirname path ∈ dirs st))
  && negb (bool_decide (path ∈ dirs st)) && negb (bool_decide (path = [])).

(** [open(path, 'w')]: the file is created or emptied. *)
Definition open_w (path : pystr) : M State unit :=
  fun st =>
    let op := OpenW path in
    if fs_fault E (trace st) op || negb (can_create st path)
    then (inl OSError, record op st)
    else (inr tt, {| trace := trace st ++ [op];
                     dirs := dirs st;
                     files := <[path := []]> (files st) |}).

(** [f.write(data)] on a file opened by [open_w]. *)
Definition write (path data : pystr) : M State unit :=
  fun st =>
    let op := WriteFile path data in
    if fs_fault E (trace st) op
    then (inl OSError, record op st)
    else (inr tt, {| trace := trace st ++ [op];
                     dirs := dirs st;
                     files := <[path := data]> (files st) |}).

(** [HTML(string=html).write_pdf(path, ...)] *)
Definition write_pdf (path html : pystr) : M State unit :=
  fun st =>
    let op := RenderPdf path html in
    match pdf_render E (trace st) html with
    | None => (inl RenderError, record op st)
    | Some bytes =>
        if fs_fault E (trace st) op || negb (can_create st path)
        then (inl OSError, record op st)
        else (inr tt, {| trace := trace st ++ [op];
                         dirs := dirs st;
                         files := <[path := bytes]> (files st) |})
    end.

Definition clock_strftime (format : pystr) : M State pystr :=
  fun st => (inr (now_strftime E (trace st) format), st).
Definition clock_isoformat : M State pystr := fun st => (inr (now_isoformat E (trace st)), st).

Definition str (v : PyVal) : pystr := py_str (repr_container E) v.

(** *** API client *)

Definition get_categories : M State PyVal :=
  let url := base_url self ++ lit "/solutions/categories" in
  response <- requests_get url (headers self) [] ;;
  if (status_code response =? 200)%Z then
    j <- response_json response ;;
    py_get j (lit "categories") (VList [])
  else if (status_code response =? 403)%Z then
    ret (VList [])
  else
    ret VNone.

Definition get_folders (category_id : PyVal) : M State PyVal :=
  let url := base_url self ++ lit "/solutions/folders" in
  let params := [(lit "category_id", category_id)] in
  response <- requests_get url (headers self) params ;;
  if (status_code response =? 200)%Z then
    j <- response_json response ;;
    py_get j (lit "folders") (VList [])
  else if (status_code response =? 403)%Z then
    ret (VList [])
  else
    ret VNone.

(** The query of one page of [get_articles]. *)
Definition articles_params (folder_id category_id : PyVal) (page : Z) : Dict :=
  let params := [(lit "page", VInt page); (lit "per_page", VInt 100)] in
  if truthy folder_id then params ++ [(lit "folder_id", folder_id)]
  else if truthy category_id then params ++ [(lit "category_id", category_id)]
  else params.

(** The [while True] loop of [get_articles]; [fuel] bounds the number of
    iterations and [None] is returned when it runs out. *)
Fixpoint get_articles_loop (fuel : nat) (folder_id category_id : PyVal)
    (articles : list PyVal) (page : Z) : M State (option (list PyVal)) :=
  match fuel with
  | O => ret None
  | S fuel' =>
      let url := base_url self ++ lit "/solutions/articles" in
      let params := articles_params folder_id category_id page in
      response <- requests_get url (headers self) params ;;
      if (status_code response =? 200)%Z then
        j <- response_json response ;;
        batch <- py_get j (lit "articles") (VList []) ;;
        items <- py_iter batch ;;
        let articles := articles ++ items in
        n <- py_len batch ;;
        if (n <? 100)%Z then ret (Some articles)
        else get_articles_loop fuel' folder_id category_id articles (page + 1)
      else if (status_code response =? 403)%Z then
        ret (Some articles)
      else
        ret (Some articles)
  end.

Definition get_articles (fuel : nat) (folder_id category_id : PyVal)
  : M State (option (list PyVal)) :=
  get_articles_loop fuel folder_id category_id [] 1.

Definition get_article_details (article_id : PyVal) : M State PyVal :=
  let url := base_url self ++ lit "/solutions/articles/" ++ str article_id in
  try_except
    (response <- requests_get url (headers self) [] ;;
     if (status_code response =? 200)%Z then
       j <- response_json response ;;
       py_get j (lit "article") VNone
     else ret VNone)
    is_request_exception
    (fun _ => ret VNone).

(** *** Filename sanitizer on an arbitrary object *)

Definition sanitize_filename_val {S} (filename : PyVal) : M S pystr :=
  s <- as_str filename ;; ret (sanitize_filename s).

(** *** Attachment downloader

    The body of a response is taken as received with the response: a
    transfer that breaks off while the chunks are being written has no
    counterpart here. *)

Definition download_attachment (attachment : PyVal) (download_path : pystr)
  : M State bool :=
  try_except
    (download_url <- py_get attachment (lit "attachment_url") VNone ;;
     if negb (truthy download_url) then ret false
     else
       u <- as_str download_url ;;
       let download_url :=
         if negb (startswith (lit "http") u) then urljoin E (base_url self) u else u in
       let file_headers :=
         filter (fun h => fst h <> lit "Content-Type") (headers self) in
       response <- requests_get download_url file_headers [] ;;
       raise_for_status response ;;;
       makedirs (dirname download_path) ;;;
       open_w download_path ;;;
       write download_path (content response) ;;;
       ret true)
    is_request_exception
    (fun _ => ret false).

(** *** Per-article folder *)

Definition create_article_folder (article : PyVal) (base_directory : pystr)
  : M State pystr :=
  article_id <- py_getitem article (lit "id") ;;
  title <- py_get article (lit "title") (VStr (lit "article_" ++ str article_id)) ;;
  article_title <- sanitize_filename_val title ;;
  let folder_name := str article_id ++ lit "_" ++ article_title in
  let folder_path := path_join base_directory folder_name in
  makedirs folder_path ;;;
  makedirs (path_join folder_path (lit "attachments")) ;;;
  ret folder_path.

(** *** Rich-text converter *)

Definition html_to_text {S} (html_content : PyVal) : M S pystr :=
  if negb (truthy html_content) then ret []
  else
    match html_content with
    | VStr s => ret (html_to_text_str (charrefs E) s)
    | _ => raise TypeError
    end.

(** [html.escape(s)] with its default [quote=True]. *)
Definition html_escape {S} (v : PyVal) : M S pystr :=
  s <- as_str v ;;
  let s := replace_chr 38 (lit "&amp;") s in
  let s := replace_chr 60 (lit "&lt;") s in
  let s := replace_chr 62 (lit "&gt;") s in
  let s := replace_chr 34 (lit "&quot;") s in
  let s := replace_chr 39 (lit "&#x27;") s in
  ret s.

(** [status_map.get(v, default)] for [status_map = {1: Published, 2: Draft}]:
    the key is looked up by hash and equality, so [True] finds the entry of
    1, and an unhashable key raises. *)
Definition status_map_get {S} (v : PyVal) (default : pystr) : M S pystr :=
  match v with
  | VList _ | VDict _ => raise TypeError
  | _ =>
      if py_eq_int v 1 then ret (lit "Published")
      else if py_eq_int v 2 then ret (lit "Draft")
      else ret default
  end.

Definition unlines (ls : list pystr) : pystr :=
  match ls with
  | [] => []
  | l :: ls' => l ++ flat_map (fun x => newline :: x) ls'
  end.

Definition paperclip : pystr := [240; 376; 8220; 381].

(** The style sheet of the document shell, a constant of the template. *)
Definition style_lines : list pystr :=
  [ tpl "            body { font-family: Arial, sans-serif; line-height: 1.6; color: #333; margin: 0; padding: 24px; }";
    tpl "            .header { border-bottom: 3px solid #007cba; padding-bottom: 12px; margin-bottom: 24px; }";
    tpl "            h1 { color: #007cba; font-size: 24pt; margin-bottom: 10px; }";
    tpl "            .metadata { background-color: #f8f9fa; border: 1px solid #e9ecef; border-radius: 5px; padding: 12px; margin-bottom: 20px; font-size: 10pt; }";
    tpl "            .metadata-grid { display: grid; grid-template-columns: 1fr 1fr; gap: 8px; }";
    tpl "            .metadata-label { font-weight: bold; color: #555; }";
    tpl "            .content { margin-top: 10px; font-size: 11pt; }";
    tpl "            .content h2 { color: #007cba; font-size: 14pt; margin-top: 22px; margin-bottom: 10px; border-bottom: 1px solid #eee; padding-bottom: 5px; }";
    tpl "            .content h3 { color: #555; font-size: 12pt; margin-top: 18px; margin-bottom: 8px; }";
    tpl "            .content p { margin-bottom: 12px; text-align: justify; }";
    tpl "            .content ul, .content ol { margin-bottom: 12px; margin-left: 20px; }";
    tpl "            .content table { width: 100%; border-collapse: collapse; margin-bottom: 15px; font-size: 9pt; }";
    tpl "            .content th, .content td { border: 1px solid #ddd; padding: 8px; text-align: left; }";
    tpl "            .content th { background-color: #f8f9fa; font-weight: bold; }";
    tpl "            .content img { max-width: 100%; height: auto; margin: 10px 0; }";
    tpl "            .attachments-section { margin-top: 20px; padding: 12px; background-color: #f8f9fa; border-radius: 5px; border-left: 4px solid #007cba; }";
    tpl "            .attachments-title { font-weight: bold; margin-bottom: 8px; color: #007cba; }";
    tpl "            .footer { margin-top: 24px; padding-top: 12px; border-top: 1px solid #eee; font-size: 9pt; color: #666; text-align: center; }";
    tpl "            code { background-color: #f4f4f4; padding: 2px 4px; border-radius: 3px; font-family: 'Courier New', monospace; font-size: 9pt; }";
    tpl "            pre { background-color: #f8f9fa; padding: 10px; border-radius: 5px; overflow-x: auto; font-family: 'Courier New', monospace; font-size: 9pt; border: 1px solid #e9ecef; }" ].

Definition metadata_row (label value : pystr) : pystr :=
  tpl "              <div><span class=^metadata-label^>" ++ label ++ tpl ":</span> "
  ++ value ++ tpl "</div>".

(** [create_html_document]: the fields of the template are evaluated from
    left to right, so the first one that raises decides the exception. *)
Definition create_html_document (article : PyVal) (content : PyVal) (for_pdf : bool)
  : M State pystr :=
  attachments <- py_get article (lit "attachments") (VList []) ;;
  attachments_html <-
    (if truthy attachments && for_pdf then
       atts <- py_iter attachments ;;
       items <- map_m (fun att =>
                  name <- py_get att (lit "name") (VStr (lit "Unnamed")) ;;
                  esc <- html_escape name ;;
                  ret (tpl "<div class=^attachment-item^>" ++ bullet ++ lit " "
                       ++ esc ++ tpl "</div>")) atts ;;
       n <- py_len attachments ;;
       ret (unlines
              [ [];
                tpl "            <div class=^attachments-section^>";
                tpl "              <div class=^attachments-title^>" ++ paperclip
                  ++ tpl " Article Attachments (" ++ str_of_Z n ++ tpl "):</div>";
                tpl "              " ++ concat items;
                tpl "            </div>";
                tpl "            " ])
     else ret []) ;;
  status_key <- py_get article (lit "status") VNone ;;
  status <- status_map_get status_key (lit "Unknown") ;;
  title <- py_get article (lit "title") (VStr (lit "Untitled")) ;;
  title1 <- html_escape title ;;
  title2 <- html_escape title ;;
  id <- py_get article (lit "id") (VStr (lit "N/A")) ;;
  created_at <- py_get article (lit "created_at") (VStr (lit "N/A")) ;;
  updated_at <- py_get article (lit "updated_at") (VStr (lit "N/A")) ;;
  view_count <- py_get article (lit "view_count") (VInt 0) ;;
  thumbs_up <- py_get article (lit "thumbs_up") (VInt 0) ;;
  thumbs_down <- py_get article (lit "thumbs_down") (VInt 0) ;;
  n <- py_len attachments ;;
  now <- clock_strftime (lit "%Y-%m-%d %H:%M:%S") ;;
  url <- py_get article (lit "url") (VStr (lit "N/A")) ;;
  ret (unlines
         ([ [];
            tpl "        <!DOCTYPE html>";
            tpl "        <html lang=^en^>";
            tpl "        <head>";
            tpl "          <meta charset=^UTF-8^>";
            tpl "          <meta name=^viewport^ content=^width=device-width, initial-scale=1.0^>";
            tpl "          <title>" ++ title1 ++ tpl "</title>";
            tpl "          <style>" ]
          ++ style_lines ++
          [ tpl "          </style>";
            tpl "        </head>";
            tpl "        <body>";
            tpl "          <div class=^header^><h1>" ++ title2 ++ tpl "</h1></div>";
            tpl "          <div class=^metadata^>";
            tpl "            <div class=^metadata-grid^>";
            metadata_row (lit "Article ID") (str id);
            metadata_row (lit "Status") status;
            metadata_row (lit "Created") (str created_at);
            metadata_row (lit "Updated") (str updated_at);
            metadata_row (lit "Views") (str view_count);
            metadata_row (lit "Helpful Votes") (str thumbs_up);
            metadata_row (lit "Not Helpful") (str thumbs_down);
            metadata_row (lit "Attachments") (str_of_Z n);
            tpl "            </div>";
            tpl "          </div>";
            tpl "          <div class=^content^>" ++ str content ++ tpl "</div>";
            tpl "          " ++ attachments_html;
            tpl "          <div class=^footer^>";
            tpl "            <p>Knowledge Base Article " ++ bullet ++ lit " "
              ++ domain self ++ tpl ".freshservice.com</p>";
            tpl "            <p>Downloaded on " ++ now ++ lit " " ++ bullet
              ++ tpl " Article URL: " ++ str url ++ tpl "</p>";
            tpl "          </div>";
            tpl "        </body>";
            tpl "        </html>";
            tpl "        " ])).

(** [create_pdf_document]: nothing escapes its [except Exception].  The
    handler reads [article.get('id')] for the log, which needs a record; the
    method is only reached with a detail that is one. *)
Definition create_pdf_document (article : PyVal) (content : PyVal) (output_path : pystr)
  : M State bool :=
  if negb (weasyprint_available E) then ret false
  else
    try_except
      (html_content <- create_html_document article content true ;;
       write_pdf output_path html_content ;;;
       ret true)
      any_exception
      (fun _ => ret false).

(** *** Article materializer *)

Definition extract_article_metadata (article : PyVal) : M State PyVal :=
  id <- py_get article (lit "id") VNone ;;
  title <- py_get article (lit "title") VNone ;;
  status <- py_get article (lit "status") VNone ;;
  let status_label := if py_eq_int status 1 then lit "Published" else lit "Draft" in
  folder_id <- py_get article (lit "folder_id") VNone ;;
  category_id <- py_get article (lit "category_id") VNone ;;
  created_at <- py_get article (lit "created_at") VNone ;;
  updated_at <- py_get article (lit "updated_at") VNone ;;
  view_count <- py_get article (lit "view_count") VNone ;;
  thumbs_up <- py_get article (lit "thumbs_up") VNone ;;
  thumbs_down <- py_get article (lit "thumbs_down") VNone ;;
  url <- py_get article (lit "url") VNone ;;
  tags <- py_get article (lit "tags") (VList []) ;;
  attachments <- py_get article (lit "attachments") (VList []) ;;
  attachments_count <- py_len attachments ;;
  download_timestamp <- clock_isoformat ;;
  ret (VDict
         [ (lit "id", id);
           (lit "title", title);
           (lit "status", VStr status_label);
           (lit "folder_id", folder_id);
           (lit "category_id", category_id);
           (lit "created_at", created_at);
           (lit "updated_at", updated_at);
           (lit "view_count", view_count);
           (lit "thumbs_up", thumbs_up);
           (lit "thumbs_down", thumbs_down);
           (lit "url", url);
           (lit "tags", tags);
           (lit "attachments_count", VInt attachments_count);
           (lit "download_timestamp", VStr download_timestamp) ]).

Definition article_file (folder_path : pystr) (article_id : PyVal) (suffix : string)
  : pystr :=
  path_join folder_path (str article_id ++ lit suffix).

(** The four blocks of [download_article_content] that follow the fetch of
    the detail, in the order of the source. *)

(** Save PDF *)
Definition save_pdf_block (detailed_article html_content article_id : PyVal)
    (folder_path : pystr) (save_pdf : bool) : M State unit :=
  if save_pdf && truthy html_content then
    let pdf_file := article_file folder_path article_id "_article.pdf" in
    create_pdf_document detailed_article html_content pdf_file ;;; ret tt
  else ret tt.

(** Save HTML: the file is opened before the document is built. *)
Definition save_html_block (detailed_article html_content article_id : PyVal)
    (folder_path : pystr) (save_html : bool) : M State unit :=
  if save_html && truthy html_content then
    let html_file := article_file folder_path article_id "_article.html" in
    open_w html_file ;;;
    doc <- create_html_document detailed_article html_content false ;;
    write html_file doc
  else ret tt.

(** Save Text *)
Definition save_text_block (html_content article_id : PyVal)
    (folder_path : pystr) (save_text : bool) : M State unit :=
  if save_text then
    text_content <- html_to_text html_content ;;
    let text_file := article_file folder_path article_id "_article.txt" in
    open_w text_file ;;;
    write text_file text_content
  else ret tt.

(** Save Metadata JSON: the file is opened before the record is built. *)
Definition save_metadata_block (detailed_article article_id : PyVal)
    (folder_path : pystr) : M State unit :=
  let metadata_file := article_file folder_path article_id "_metadata.json" in
  open_w metadata_file ;;;
  metadata <- extract_article_metadata detailed_article ;;
  write metadata_file (json_dumps E metadata).

(** [download_article_content] returns the pair (success, detail).  The
    handler reads [article.get('id')] for the log, which needs a record: the
    model is that of a stub that is a record. *)
Definition download_article_content (article : PyVal) (folder_path : pystr)
    (save_pdf save_html save_text : bool) : M State (bool * PyVal) :=
  try_except
    (article_id <- py_getitem article (lit "id") ;;
     detailed_article <- get_article_details article_id ;;
     if negb (truthy detailed_article) then ret (false, VNone)
     else
       html_content <- py_get detailed_article (lit "description") (VStr []) ;;
       save_pdf_block detailed_article html_content article_id folder_path save_pdf ;;;
       save_html_block detailed_article html_content article_id folder_path save_html ;;;
       save_text_block html_content article_id folder_path save_text ;;;
       save_metadata_block detailed_article article_id folder_path ;;;
       ret (true, detailed_article))
    any_exception
    (fun _ => ret (false, VNone)).

(** *** Bulk download *)

Definition bump_successful_articles : M (Counters * State) unit :=
  c <- get_local ;;
  set_local {| c_successful_articles := c_successful_articles c + 1;
               c_total_attachments := c_total_attachments c;
               c_successful_attachments := c_successful_attachments c |}.

Definition bump_total_attachments : M (Counters * State) unit :=
  c <- get_local ;;
  set_local {| c_successful_articles := c_successful_articles c;
               c_total_attachments := c_total_attachments c + 1;
               c_successful_attachments := c_successful_attachments c |}.

Definition bump_successful_attachments : M (Counters * State) unit :=
  c <- get_local ;;
  set_local {| c_successful_articles := c_successful_articles c;
               c_total_attachments := c_total_attachments c;
               c_successful_attachments := c_successful_attachments c + 1 |}.

(** The loop over the attachments of one article; the value is
    [attachment_success_count]. *)
Fixpoint attachments_loop (folder_path : pystr) (attachments : list PyVal)
    (attachment_success_count : Z) : M (Counters * State) Z :=
  match attachments with
  | [] => ret attachment_success_count
  | att :: rest =>
      att_id <- py_get att (lit "id") VNone ;;
      name <- py_get att (lit "name") (VStr (lit "unknown")) ;;
      att_name <- sanitize_filename_val name ;;
      let filename := str att_id ++ lit "_" ++ att_name in
      let download_path :=
        path_join (path_join folder_path (lit "attachments")) filename in
      bump_total_attachments ;;;
      ok <- zoom (download_attachment att download_path) ;;
      if ok then
        bump_successful_attachments ;;;
        attachments_loop folder_path rest (attachment_success_count + 1)
      else
        attachments_loop folder_path rest attachment_success_count
  end.

(** [article[k] = v] *)
Definition py_setitem {S} (article : PyVal) (k : pystr) (v : PyVal) : M S PyVal :=
  match article with
  | VDict d => ret (VDict (dict_set d k v))
  | _ => raise TypeError
  end.

(** One iteration of the loop of [download_articles_and_attachments].  The
    stub is a shared object that the loop annotates in place: the value
    returned is the stub as it is after the iteration. *)
Definition process_article (base_download_dir : pystr)
    (download_attachments save_pdf save_html save_text : bool) (article : PyVal)
  : M (Counters * State) PyVal :=
  article_id <- py_getitem article (lit "id") ;;
  article_title <- py_get article (lit "title") (VStr (lit "article_" ++ str article_id)) ;;
  try_except
    (folder_path <- zoom (create_article_folder article base_download_dir) ;;
     r <- zoom (download_article_content article folder_path save_pdf save_html save_text) ;;
     let '(ok, detailed_article) := r in
     if ok then
       bump_successful_articles ;;;
       if download_attachments && truthy detailed_article then
         attachments <- py_get detailed_article (lit "attachments") (VList []) ;;
         attachment_success_count <-
           (if truthy attachments then
              py_len attachments ;;;
              atts <- py_iter attachments ;;
              count <- attachments_loop folder_path atts 0 ;;
              py_len attachments ;;;
              ret count
            else ret 0%Z) ;;
         n <- py_len attachments ;;
         article <- py_setitem article (lit "has_attachments") (VBool (0 <? n)%Z) ;;
         article <- py_setitem article (lit "attachment_count") (VInt n) ;;
         article <- py_setitem article (lit "attachments_downloaded")
                      (VInt attachment_success_count) ;;
         py_setitem article (lit "local_folder") (VStr folder_path)
       else ret article
     else ret article)
    any_exception
    (fun _ => ret article).

Definition download_articles_and_attachments (articles : list PyVal)
    (base_download_dir : pystr)
    (download_attachments save_pdf save_html save_text : bool)
  : M State (RunSummary * list PyVal) :=
  fun st =>
    let total := Z.of_nat (length articles) in
    let init := {| c_successful_articles := 0;
                   c_total_attachments := 0;
                   c_successful_attachments := 0 |} in
    match map_m (process_article base_download_dir download_attachments
                   save_pdf save_html save_text) articles (init, st) with
    | (inr articles', (c, st')) =>
        (inr ({| total_articles := total;
                 successful_articles := c_successful_articles c;
                 total_attachments := c_total_attachments c;
                 successful_attachments := c_successful_attachments c;
                 download_directory := base_download_dir |},
              articles'), st')
    | (inl e, (_, st')) => (inl e, st')
    end.

(** *** CSV export *)

Definition py_keys {S} (v : PyVal) : M S (list pystr) :=
  match v with
  | VDict d => ret (dict_keys d)
  | _ => raise AttributeError
  end.

(** The first loop of [export_to_csv]: the union of the keys. *)
Fixpoint collect_fieldnames {S : Type} (articles : list PyVal) (fieldnames : gset pystr)
  : M S (gset pystr) :=
  match articles with
  | [] => ret fieldnames
  | article :: rest =>
      ks <- py_keys article ;;
      collect_fieldnames rest (fieldnames ∪ list_to_set ks)
  end.

(** [DictWriter._dict_to_list] with the defaults [restval=''] and
    [extrasaction='raise']. *)
Definition dict_to_list {S} (fieldnames : list pystr) (rowdict : PyVal)
  : M S (list PyVal) :=
  ks <- py_keys rowdict ;;
  if existsb (fun k => negb (bool_decide (k ∈ fieldnames))) ks
  then raise ValueError
  else map_m (fun key => py_get rowdict key (VStr [])) fieldnames.

Definition export_to_csv (articles : list PyVal) (filename : option pystr)
  : M State pystr :=
  filename <-
    (match filename with
     | Some f => if bool_decide (f = []) then
                   timestamp <- clock_strftime (lit "%Y%m%d_%H%M%S") ;;
                   ret (lit "freshservice_kb_export_" ++ timestamp ++ lit ".csv")
                 else ret f
     | None =>
         timestamp <- clock_strftime (lit "%Y%m%d_%H%M%S") ;;
         ret (lit "freshservice_kb_export_" ++ timestamp ++ lit ".csv")
     end) ;;
  match articles with
  | [] => ret filename
  | _ =>
      fieldnames <- collect_fieldnames articles ∅ ;;
      let fieldnames := sorted_elements fieldnames in
      open_w filename ;;;
      (* writeheader *)
      let header := map VStr fieldnames in
      write filename (csv_text E [header]) ;;;
      (* writerows *)
      rows <- map_m (dict_to_list fieldnames) articles ;;
      write filename (csv_text E (header :: rows)) ;;;
      ret filename
  end.

End Program.

(** ** The rest of the extractor

    The methods below complete the class.  The log that the [logging] module
    keeps (on the console and in its own file) and what [print] writes are
    outside the model, here as above. *)

(** [__init__]: the address of the API and the headers of every request.
    [b64] gives the Base64 text of the UTF-8 bytes of a string (the library
    function is a parameter). *)
Definition init (b64 : pystr -> pystr) (domain_name api_key : pystr) : Extractor :=
  {| domain := domain_name;
     base_url := lit "https://" ++ domain_name ++ lit ".freshservice.com/api/v2";
     headers := [(lit "Authorization", lit "Basic " ++ b64 (api_key ++ lit ":X"));
                 (lit "Content-Type", lit "application/json")] |}.

(** The file name that an export uses when it is given none:
    [freshservice_kb_export_<timestamp><extension>]. *)
Definition export_filename (E : Env) (filename : option pystr) (extension : string)
  : M State pystr :=
  match filename with
  | Some f => if bool_decide (f = []) then
                timestamp <- clock_strftime E (lit "%Y%m%d_%H%M%S") ;;
                ret (lit "freshservice_kb_export_" ++ timestamp ++ lit extension)
              else ret f
  | None =>
      timestamp <- clock_strftime E (lit "%Y%m%d_%H%M%S") ;;
      ret (lit "freshservice_kb_export_" ++ timestamp ++ lit extension)
  end.

Section Rest.

Variable E : Env.
Variable self : Extractor.

(** *** Connection check *)

Definition validate_connection : M State bool :=
  let url := base_url self ++ lit "/agents/me" in
  try_except
    (response <- requests_get E url (headers self) [] ;;
     if (status_code response =? 200)%Z then ret true
     else if (status_code response =? 403)%Z then ret false
     else ret false)
    (is_request_exception E)
    (fun _ => ret false).

(** *** Attachments of all articles (the layout without article content)

    The two counters are local variables, kept in the store: the pair
    (total_attachments, successful_downloads). *)

Fixpoint download_all_attachments_files (article_dir : pystr)
    (attachments : list PyVal) : M ((Z * Z) * State) unit :=
  match attachments with
  | [] => ret tt
  | attachment :: rest =>
      attachment_id <- py_get attachment (lit "id") VNone ;;
      name <- py_get attachment (lit "name") (VStr (lit "unknown")) ;;
      attachment_name <- sanitize_filename_val name ;;
      let filename := str E attachment_id ++ lit "_" ++ attachment_name in
      let download_path := path_join article_dir filename in
      c <- get_local ;;
      set_local (fst c + 1, snd c)%Z ;;;
      ok <- zoom (download_attachment E self attachment download_path) ;;
      (if ok then c <- get_local ;; set_local (fst c, snd c + 1)%Z else ret tt) ;;;
      download_all_attachments_files article_dir rest
  end.

(** [normpath] is [os.path.normpath], a parameter. *)
Fixpoint download_all_attachments_loop (normpath : pystr -> pystr)
    (base_download_dir : pystr) (articles : list PyVal)
  : M ((Z * Z) * State) unit :=
  match articles with
  | [] => ret tt
  | article :: rest =>
      article_id <- py_getitem article (lit "id") ;;
      title <- py_get article (lit "title")
                 (VStr (lit "article_" ++ str E article_id)) ;;
      article_title <- sanitize_filename_val title ;;
      detailed_article <- zoom (get_article_details E self article_id) ;;
      (if negb (truthy detailed_article) then ret tt
       else
         attachments <- py_get detailed_article (lit "attachments") (VList []) ;;
         if truthy attachments then
           py_len attachments ;;;
           let article_dir :=
             normpath (path_join base_download_dir
                         (str E article_id ++ lit "_" ++ article_title)) in
           zoom (makedirs E article_dir) ;;;
           atts <- py_iter attachments ;;
           download_all_attachments_files article_dir atts
         else ret tt) ;;;
      download_all_attachments_loop normpath base_download_dir rest
  end.

Definition download_all_attachments (normpath : pystr -> pystr)
    (articles : list PyVal) (base_download_dir : pystr) : M State unit :=
  fun st =>
    let '(r, (_, st')) :=
      download_all_attachments_loop normpath base_download_dir articles
        ((0, 0)%Z, st) in
    (r, st').

(** *** JSON and spreadsheet exports, summary report *)

Definition export_to_json (articles : list PyVal) (filename : option pystr)
  : M State pystr :=
  filename <- export_filename E filename ".json" ;;
  open_w E filename ;;;
  write E filename (json_dumps E (VList articles)) ;;;
  ret filename.

(** [to_excel] is the spreadsheet writer of the data-frame library: the
    bytes of the workbook, or [None] when it raises. *)
Definition export_to_excel (to_excel : list PyVal -> option pystr)
    (articles : list PyVal) (filename : option pystr) : M State pystr :=
  filename <- export_filename E filename ".xlsx" ;;
  match to_excel articles with
  | None => raise ValueError
  | Some workbook =>
      open_w E filename ;;;
      write E filename workbook ;;;
      ret filename
  end.

(** [[a for a in articles if a.get('status') == n]] *)
Fixpoint articles_with_status {S : Type} (n : Z) (articles : list PyVal)
  : M S (list PyVal) :=
  match articles with
  | [] => ret []
  | a :: rest =>
      status <- py_get a (lit "status") VNone ;;
      selected <- articles_with_status n rest ;;
      ret (if py_eq_int status n then a :: selected else selected)
  end.

Definition generate_summary_report (articles : list PyVal) : M State PyVal :=
  let total_articles := Z.of_nat (length articles) in
  published <- articles_with_status 1 articles ;;
  draft <- articles_with_status 2 articles ;;
  timestamp <- clock_isoformat E ;;
  ret (VDict
         [ (lit "timestamp", VStr timestamp);
           (lit "summary",
            VDict [ (lit "total_articles", VInt total_articles);
                    (lit "published_articles", VInt (Z.of_nat (length published)));
                    (lit "draft_articles", VInt (Z.of_nat (length draft))) ]) ]).

(** *** Console table *)

(** [display_table] only prints. *)
Definition display_table {S : Type} (data : list (list PyVal))
    (column_names : list pystr) (title : pystr) : M S unit :=
  ret tt.

(** One row of a table of [main]: two fields that must be there and two
    that may be missing. *)
Definition table_row {S : Type} (k1 k2 k3 k4 : string) (record : PyVal)
  : M S (list PyVal) :=
  a <- py_getitem record (lit k1) ;;
  b <- py_getitem record (lit k2) ;;
  c <- py_get record (lit k3) (VStr []) ;;
  d <- py_get record (lit k4) (VStr []) ;;
  ret [a; b; c; d].

(** *** The traversal of [main]

    [fuel] bounds each pagination loop; the result is [None] when one of
    them runs out of it. *)

Fixpoint main_folders (fuel : nat) (folders : list PyVal)
    (all_articles : list PyVal) : M State (option (list PyVal)) :=
  match folders with
  | [] => ret (Some all_articles)
  | folder :: rest =>
      folder_id <- py_getitem folder (lit "id") ;;
      r <- get_articles E self fuel folder_id VNone ;;
      match r with
      | None => ret None
      | Some articles =>
          data <- map_m (table_row "id" "title" "status" "created_at") articles ;;
          name <- py_getitem folder (lit "name") ;;
          display_table data
            [lit "ID"; lit "Title"; lit "Status"; lit "Created At"]
            (lit "Articles in Folder: " ++ str E name) ;;;
          main_folders fuel rest (all_articles ++ articles)
      end
  end.

Fixpoint main_categories (fuel : nat) (categories : list PyVal)
    (all_articles : list PyVal) : M State (option (list PyVal)) :=
  match categories with
  | [] => ret (Some all_articles)
  | category :: rest =>
      cat_id <- py_getitem category (lit "id") ;;
      folders <- get_folders E self cat_id ;;
      fs <- py_iter folders ;;
      data <- map_m (table_row "id" "name" "description" "created_at") fs ;;
      name <- py_getitem category (lit "name") ;;
      display_table data
        [lit "ID"; lit "Name"; lit "Description"; lit "Created At"]
        (lit "Folders in Category: " ++ str E name) ;;;
      r <- (if truthy folders then
              main_folders fuel fs all_articles
            else
              r <- get_articles E self fuel VNone cat_id ;;
              match r with
              | None => ret None
              | Some articles =>
                  data <- map_m (table_row "id" "title" "status" "created_at")
                            articles ;;
                  name <- py_getitem category (lit "name") ;;
                  display_table data
                    [lit "ID"; lit "Title"; lit "Status"; lit "Created At"]
                    (lit "Articles in Category: " ++ str E name) ;;;
                  ret (Some (all_articles ++ articles))
              end) ;;
      match r with
      | None => ret None
      | Some all_articles => main_categories fuel rest all_articles
      end
  end.

End Rest.

(** [main].  The key that the source writes out is the parameter [api_key];
    [b64] and [to_excel] are the library functions of [init] and of
    [export_to_excel]. *)
Definition main (E : Env) (b64 : pystr -> pystr)
    (to_excel : list PyVal -> option pystr) (api_key : pystr) (fuel : nat)
  : M State (option unit) :=
  let extractor := init b64 (lit "avh") api_key in
  connected <- validate_connection E extractor ;;
  if negb connected then ret (Some tt)
  else
    categories <- get_categories E extractor ;;
    cs <- py_iter categories ;;
    data <- map_m (table_row "id" "name" "description" "created_at") cs ;;
    display_table data
      [lit "ID"; lit "Name"; lit "Description"; lit "Created At"]
      (lit "Solution Categories") ;;;
    r <- main_categories E extractor fuel cs [] ;;
    match r with
    | None => ret None
    | Some all_articles =>
        match all_articles with
        | [] => ret (Some tt)
        | _ =>
            json_file <- export_to_json E all_articles None ;;
            csv_file <- export_to_csv E all_articles None ;;
            excel_file <- export_to_excel E to_excel all_articles None ;;
            summary <- generate_summary_report E all_articles ;;
            enhanced_result <-
              download_articles_and_attachments E extractor all_articles
                (lit "knowledge_base") true true true true ;;
            ret (Some tt)
        end
    end.

(** * Vocabulary of the properties *)

(** ** Filename sanitizer *)

(** What the replacement loop does to one character. *)
Definition clean (c : N) : N :=
  if bool_decide (c ∈ invalid_chars) then 95 else c.

(** Whether the last character of [s] is white space. *)
Definition ends_with_space (s : pystr) : bool :=
  match last s with
  | Some c => is_space c
  | None => false
  end.

(** ** Plain-text conversion *)

(** The class of the first character of a match, when the pattern starts
    with a mandatory character. *)
Definition head_class (r : regex) : option (N -> bool) :=
  match r with
  | Chr p :: _ | Plus p :: _ => Some p
  | _ => None
  end.

(** A block of plain text: no angle bracket, no ampersand, no white space. *)
Definition plain_char (c : N) : bool :=
  negb (c =? 60) && negb (c =? 62) && negb (c =? 38) && negb (is_space c).

Definition plain (s : pystr) : Prop := Forall (fun c => plain_char c = true) s.

(** ** Traces and pagination *)

(** The world after the further operations [ops]. *)
Definition add_trace (ops : list Op) (st : State) : State :=
  {| trace := trace st ++ ops; dirs := dirs st; files := files st |}.

(** The request of page [i]. *)
Definition page_request (self : Extractor) (folder_id category_id : PyVal) (i : nat)
  : Op :=
  Get (base_url self ++ lit "/solutions/articles") (headers self)
      (articles_params folder_id category_id (Z.of_nat i)).

(** The source answers the request of page [i] by the articles [pages i],
    whatever happened before. *)
Definition serves (E : Env) (self : Extractor) (folder_id category_id : PyVal)
    (pages : nat -> list PyVal) (i : nat) : Prop :=
  forall history, exists r d,
    http E history (page_request self folder_id category_id i) = Some r
    /\ status_code r = 200%Z
    /\ json_body r = Some (VDict d)
    /\ dict_get d (lit "articles") = Some (VList (pages i)).

(** ** Relations between the store before and after a computation *)

(** [respects R m]: whatever [m] does, and whether it returns or raises, the
    store it leaves is related by [R] to the store it started from. *)
Definition respects {S A} (R : S -> S -> Prop) (m : M S A) : Prop :=
  forall s, R s (snd (m s)).

(** The file at [p] is as it was. *)
Definition keeps_file (p : pystr) (st st' : State) : Prop :=
  files st' !! p = files st !! p.

(** Files and directories are as they were. *)
Definition keeps_fs (st st' : State) : Prop :=
  files st' = files st /\ dirs st' = dirs st.

(** Files are as they were and no directory has gone. *)
Definition adds_dirs (st st' : State) : Prop :=
  files st' = files st /\ dirs st ⊆ dirs st'.

(** From the counters [c] to [c']: the successful articles grew by at most
    [n], and the successful attachments grew by at most what the total of
    attachments grew by, plus the slack [k] (which is -1 between the count of
    an attachment and the outcome of its download). *)
Definition grows (n k : Z) (c c' : Counters) : Prop :=
  (0 <= c_successful_articles c' - c_successful_articles c <= n)%Z
  /\ (0 <= c_successful_attachments c' - c_successful_attachments c)%Z
  /\ (c_successful_attachments c' - c_successful_attachments c
      <= c_total_attachments c' - c_total_attachments c + k)%Z.

(** [grows] on the counters of a store of the bulk download. *)
Definition counts (n k : Z) (s s' : Counters * State) : Prop :=
  grows n k (fst s) (fst s').

(** ** Article materializer *)

(** The body of a detail: [detail.get('description', '')]. *)
Definition description (dd : Dict) : PyVal :=
  match dict_get dd (lit "description") with
  | Some x => x
  | None => VStr []
  end.

(** The blocks that follow the fetch of the detail [d], whose body is
    [body]. *)
Definition save_blocks (E : Env) (self : Extractor) (folder : pystr) (id : PyVal)
    (d body : PyVal) (save_pdf save_html save_text : bool)
  : M State (bool * PyVal) :=
  save_pdf_block E self d body id folder save_pdf ;;;
  save_html_block E self d body id folder save_html ;;;
  save_text_block E body id folder save_text ;;;
  save_metadata_block E d id folder ;;;
  ret (true, d).

(** ** Bulk download *)

(** An article stub is a record that has an [id]. *)
Definition has_id (article : PyVal) : Prop :=
  exists d v, article = VDict d /\ dict_get d (lit "id") = Some v.

(** The fetch of the detail of [article_id] gives no detail, whenever it is
    made: a false value, or an exception. *)
Definition detail_absent (E : Env) (self : Extractor) (article_id : PyVal) : Prop :=
  forall s d, fst (get_article_details E self article_id s) = inr d -> truthy d = false.

(** The summary of a run that returned. *)
Definition summary_of (r : Res (RunSummary * list PyVal)) : option RunSummary :=
  match r with
  | inr (summary, _) => Some summary
  | inl _ => None
  end.

(** ** CSV export *)

(** The cell of the record [d] in the column [k]: the value of the field,
    and the empty string when the record has no such field. *)
Definition cell (d : Dict) (k : pystr) : PyVal :=
  match dict_get d k with
  | Some v => v
  | None => VStr []
  end.

(** The name of the file that [export_to_csv] writes. *)
Definition csv_filename (E : Env) (st : State) (filename : option pystr) : pystr :=
  let default :=
    lit "freshservice_kb_export_" ++ now_strftime E (trace st) (lit "%Y%m%d_%H%M%S")
    ++ lit ".csv" in
  match filename with
  | Some f => if bool_decide (f = []) then default else f
  | None => default
  end.

(** ** Vocabulary of the further properties *)

(** The name under which an attachment is stored:
    [f"{attachment_id}_{attachment_name}"], the name being sanitized. *)
Definition attachment_filename (E : Env) (att_id : PyVal) (att_name : pystr) : pystr :=
  str E att_id ++ lit "_" ++ att_name.

(** Directories and files are only ever added: what was a directory is one,
    what was a file is one (its content may have changed). *)
Definition fs_grows (st st' : State) : Prop :=
  dirs st ⊆ dirs st'
  /\ forall p, is_Some (files st !! p) -> is_Some (files st' !! p).

(** A relation on worlds, on stores that pair local variables with the
    world. *)
Definition on_world {L : Type} (R : State -> State -> Prop) (s s' : L * State) : Prop :=
  R (snd s) (snd s').

(** The request of [get_article_details]. *)
Definition detail_request (E : Env) (self : Extractor) (article_id : PyVal) : Op :=
  Get (base_url self ++ lit "/solutions/articles/" ++ str E article_id) (headers self) [].

(** The server has no article detail to give: every request fails in
    transport or is answered by a status other than 200. *)
Definition no_details (E : Env) : Prop :=
  forall history op, match http E history op with
                     | Some r => status_code r <> 200%Z
                     | None => True
                     end.

(** The address that an attachment is fetched from: a relative address is
    resolved against the API. *)
Definition attachment_target (E : Env) (self : Extractor) (u : pystr) : pystr :=
  if negb (startswith (lit "http") u) then urljoin E (base_url self) u else u.

(** The headers of a download: those of the extractor, [Content-Type]
    removed. *)
Definition file_headers (self : Extractor) : list (pystr * pystr) :=
  filter (fun h => fst h <> lit "Content-Type") (headers self).

Definition attachment_request (E : Env) (self : Extractor) (u : pystr) : Op :=
  Get (attachment_target E self u) (file_headers self) [].

(** The part of [download_attachment] that stores the response. *)
Definition store_response (E : Env) (download_path : pystr) (response : Response)
  : M State bool :=
  makedirs E (dirname download_path) ;;;
  open_w E download_path ;;;
  write E download_path (content response) ;;;
  ret true.

(** The name of the file an export writes: the one it is given, or
    [freshservice_kb_export_<timestamp><extension>]. *)
Definition export_name (E : Env) (st : State) (filename : option pystr)
    (extension : string) : pystr :=
  let default :=
    lit "freshservice_kb_export_" ++ now_strftime E (trace st) (lit "%Y%m%d_%H%M%S")
    ++ lit extension in
  match filename with
  | Some f => if bool_decide (f = []) then default else f
  | None => default
  end.

(** The first two requests of [main]: the connection check and the list of
    categories. *)
Definition probe (b64 : pystr -> pystr) (api_key : pystr) : Op :=
  Get (base_url (init b64 (lit "avh") api_key) ++ lit "/agents/me")
      (headers (init b64 (lit "avh") api_key)) [].

Definition categories_request (b64 : pystr -> pystr) (api_key : pystr) : Op :=
  Get (base_url (init b64 (lit "avh") api_key) ++ lit "/solutions/categories")
      (headers (init b64 (lit "avh") api_key)) [].

(** The four fields that the bulk download adds to a stub. *)
Definition annotation_keys : list pystr :=
  [lit "has_attachments"; lit "attachment_count"; lit "attachments_downloaded";
   lit "local_folder"].

(** A stub after the bulk download: the record [d] it was, apart from the
    four fields of the annotation. *)
Definition annotated (d : Dict) (article : PyVal) : Prop :=
  exists d', article = VDict d'
    /\ forall k, k ∉ annotation_keys -> dict_get d' k = dict_get d k.

(** A field of the summary report. *)
Definition report_count (report : PyVal) (field : string) : option PyVal :=
  match report with
  | VDict r =>
      match dict_get r (lit "summary") with
      | Some (VDict summary) => dict_get summary (lit field)
      | _ => None
      end
  | _ => None
  end.

(** The number of articles whose status equals [n]. *)
Definition count_status (n : Z) (records : list Dict) : nat :=
  length (filter (fun d => py_eq_int (match dict_get d (lit "status") with
                                      | Some v => v
                                      | None => VNone
                                      end) n = true) records).

(** * Scenarios *)

(** A world in which nothing fails apart from what the HTTP server [server]
    answers, and an extractor to run in it. *)
Definition plain_env (server : list Op -> Op -> option Response) : Env :=
  {| http := server;
     fs_fault := fun _ _ => false;
     pdf_render := fun _ html => Some html;
     weasyprint_available := true;
     now_strftime := fun _ _ => lit "2024-01-01 00:00:00";
     now_isoformat := fun _ => lit "2024-01-01T00:00:00";
     charrefs := fun s => s;
     repr_container := fun _ => lit "[...]";
     json_dumps := fun _ => lit "{...}";
     csv_text := fun _ => lit "...";
     urljoin := fun base u => base ++ u;
     json_error_is_request_exception := true |}.

Definition kb : Extractor :=
  {| domain := lit "acme";
     base_url := lit "https://acme.freshservice.com/api/v2";
     headers := [(lit "Authorization", lit "Basic a2V5Olg=");
                 (lit "Content-Type", lit "application/json")] |}.

Definition empty_world : State := {| trace := []; dirs := ∅; files := ∅ |}.

Definition server_error : Response :=
  {| status_code := 500; json_body := None; content := [] |}.

(** A title of 251 characters: 249 letters, a space, one more letter.  The
    cut at 250 leaves the space at the end. *)
Definition title_cut_at_space : pystr := replicate 249 97 ++ [32; 98].

(** A source with two pages: a full one and a page of three articles. *)
Definition stub (n : Z) : PyVal := VDict [(lit "id", VInt n)].

Definition two_pages (i : nat) : list PyVal :=
  match i with
  | 1%nat => replicate 100 (stub 1)
  | _ => [stub 2; stub 3; stub 4]
  end.

Definition paged_server (pages : nat -> list PyVal) (history : list Op) (op : Op)
  : option Response :=
  match op with
  | Get _ _ params =>
      match dict_get params (lit "page") with
      | Some (VInt z) =>
          Some {| status_code := 200;
                  json_body :=
                    Some (VDict [(lit "articles", VList (pages (Z.to_nat z)))]);
                  content := [] |}
      | _ => None
      end
  | _ => None
  end.

(** The end-to-end scenario: two stubs A and B.  The detail of A has a body
    and one attachment, whose download succeeds; the detail request of B is
    answered by 404.  A third article C has a detail without body. *)
Definition stub_A : PyVal := VDict [(lit "id", VInt 1); (lit "title", VStr (lit "A"))].
Definition stub_B : PyVal := VDict [(lit "id", VInt 2); (lit "title", VStr (lit "B"))].
Definition stub_C : Dict := [(lit "id", VInt 3); (lit "title", VStr (lit "C"))].

Definition attachment_f : PyVal :=
  VDict [(lit "id", VInt 7); (lit "name", VStr (lit "f.txt"));
         (lit "attachment_url", VStr (lit "https://files.example/f.txt"))].

Definition detail_A : Dict :=
  [(lit "id", VInt 1); (lit "title", VStr (lit "A")); (lit "status", VInt 1);
   (lit "description", VStr (lit "<p>Hello</p>"));
   (lit "attachments", VList [attachment_f])].

Definition detail_C : Dict :=
  [(lit "id", VInt 3); (lit "title", VStr (lit "C")); (lit "status", VInt 2)].

Definition json_response (j : PyVal) : Response :=
  {| status_code := 200; json_body := Some j; content := [] |}.

(** A source whose first page is full and whose later pages have the
    outcome [outcome]. *)
Definition page_then (outcome : option Response) (history : list Op) (op : Op)
  : option Response :=
  match op with
  | Get _ _ params =>
      match dict_get params (lit "page") with
      | Some (VInt 1) =>
          Some (json_response (VDict [(lit "articles", VList (replicate 100 (stub 1)))]))
      | _ => outcome
      end
  | _ => None
  end.

(** A server that accepts the first request and gives [answer] to every
    later one. *)
Definition probe_ok_then (answer : Response) (history : list Op) (op : Op)
  : option Response :=
  match history with
  | [] => Some (json_response (VDict []))
  | _ => Some answer
  end.

(** The world of [plain_env] with a [requests] older than 2.27. *)
Definition old_requests (server : list Op -> Op -> option Response) : Env :=
  let E := plain_env server in
  {| http := http E;
     fs_fault := fs_fault E;
     pdf_render := pdf_render E;
     weasyprint_available := weasyprint_available E;
     now_strftime := now_strftime E;
     now_isoformat := now_isoformat E;
     charrefs := charrefs E;
     repr_container := repr_container E;
     json_dumps := json_dumps E;
     csv_text := csv_text E;
     urljoin := urljoin E;
     json_error_is_request_exception := false |}.

Definition scenario_server (history : list Op) (op : Op) : option Response :=
  match op with
  | Get url _ _ =>
      if bool_decide (url = base_url kb ++ lit "/solutions/articles/1") then
        Some (json_response (VDict [(lit "article", VDict detail_A)]))
      else if bool_decide (url = base_url kb ++ lit "/solutions/articles/3") then
        Some (json_response (VDict [(lit "article", VDict detail_C)]))
      else if bool_decide (url = lit "https://files.example/f.txt") then
        Some {| status_code := 200; json_body := None; content := lit "data" |}
      else
        Some {| status_code := 404; json_body := None; content := [] |}
  | _ => None
  end.

Definition scenario_env : Env := plain_env scenario_server.

Definition scenario_run : Res (RunSummary * list PyVal) * State :=
  download_articles_and_attachments scenario_env kb [stub_A; stub_B]
    (lit "knowledge_base") true true true true empty_world.

Definition A_and_B_folders : list pystr :=
  [ lit "knowledge_base";
    lit "knowledge_base/1_A"; lit "knowledge_base/1_A/attachments";
    lit "knowledge_base/2_B"; lit "knowledge_base/2_B/attachments" ].

Definition A_files : list pystr :=
  [ lit "knowledge_base/1_A/1_article.pdf";
    lit "knowledge_base/1_A/1_article.html";
    lit "knowledge_base/1_A/1_article.txt";
    lit "knowledge_base/1_A/1_metadata.json";
    lit "knowledge_base/1_A/attachments/7_f.txt" ].

(** Article C in a world where its folder exists. *)
Definition folder_C : pystr := lit "knowledge_base/3_C".

Definition world_with_folder_C : State :=
  {| trace := [];
     dirs := list_to_set [lit "knowledge_base"; folder_C];
     files := ∅ |}.

(** The bulk export scenario: three records with different fields. *)
Definition three_records : list Dict :=
  [ [(lit "id", VInt 1); (lit "title", VStr (lit "a"))];
    [(lit "id", VInt 2); (lit "title", VStr (lit "b")); (lit "tags", VStr (lit "x"))];
    [(lit "title", VStr (lit "c")); (lit "id", VInt 3)] ].

(** * Properties *)

(** ** Filename sanitizer *)

Lemma replace_chr_single old new s :
  replace_chr old [new] s = map (fun c => if c =? old then new else c) s.
Proof.
  unfold replace_chr. induction s as [|c s IH]; simpl; [done|].
  rewrite IH. by destruct (c =? old).
Qed.

Lemma fold_replace_map (olds : list N) (s : pystr) :
  fold_left (fun fn char => replace_chr char (lit "_") fn) olds s
  = map (fun c => fold_left (fun x old => if x =? old then 95 else x) olds c) s.
Proof.
  revert s. induction olds as [|o olds IH]; intros s; simpl.
  - by rewrite map_id.
  - rewrite IH. change (lit "_") with [95]. rewrite replace_chr_single.
    by rewrite map_map.
Qed.

Lemma invalid_chars_eq : invalid_chars = [60; 62; 58; 34; 47; 92; 10; 63; 42].
Proof. reflexivity. Qed.

Lemma clean_fold c :
  fold_left (fun x old => if x =? old then 95 else x) invalid_chars c = clean c.
Proof.
  unfold clean. rewrite invalid_chars_eq.
  case_bool_decide as Hin.
  - set_unfold in Hin. simpl.
    repeat (destruct Hin as [-> | Hin]; [reflexivity|]). done.
  - set_unfold in Hin. simpl.
    repeat match goal with
           | |- context [?a =? ?b] =>
               destruct (N.eqb_spec a b); [exfalso; apply Hin; subst; tauto|]
           end.
    reflexivity.
Qed.

Lemma sanitize_filename_spec s :
  sanitize_filename s = take 250 (map clean (strip s)).
Proof.
  unfold sanitize_filename. rewrite fold_replace_map. f_equal.
  apply map_ext. intros c. apply clean_fold.
Qed.

Lemma clean_valid c : clean c ∉ invalid_chars.
Proof.
  unfold clean. case_bool_decide; [|done].
  rewrite invalid_chars_eq. set_unfold. intros Hin.
  repeat (destruct Hin as [Hin | Hin]; [discriminate Hin|]). done.
Qed.

Lemma clean_id c : c ∉ invalid_chars -> clean c = c.
Proof. intros H. unfold clean. by rewrite bool_decide_eq_false_2. Qed.

Lemma clean_not_space c : is_space c = false -> is_space (clean c) = false.
Proof. unfold clean. case_bool_decide; [reflexivity | done]. Qed.

Lemma sanitize_filename_valid s c :
  c ∈ sanitize_filename s -> c ∉ invalid_chars.
Proof.
  rewrite sanitize_filename_spec. intros Hc.
  apply (subseteq_take 250) in Hc.
  apply list_elem_of_fmap in Hc as (x & -> & _). apply clean_valid.
Qed.

Lemma sanitize_filename_length s : (length (sanitize_filename s) <= 250)%nat.
Proof. rewrite sanitize_filename_spec, length_take. lia. Qed.

(** Stripping: what is dropped is white space, what stays starts and ends
    with something else. *)

Lemma drop_while_split p s :
  exists t, s = t ++ drop_while p s /\ forallb p t = true.
Proof.
  induction s as [|c s (t & Ht & Hp)]; simpl.
  - by exists [].
  - destruct (p c) eqn:Hc.
    + exists (c :: t). simpl. rewrite Hc, Hp. by rewrite <- Ht.
    + by exists [].
Qed.

Lemma drop_while_head p s c r : drop_while p s = c :: r -> p c = false.
Proof.
  induction s as [|x s IH]; simpl; [done|].
  destruct (p x) eqn:Hx; [done|]. by intros [= <- _].
Qed.

Lemma drop_while_fixed p s :
  match s with [] => True | c :: _ => p c = false end -> drop_while p s = s.
Proof. destruct s as [|c s]; simpl; [done|]. by intros ->. Qed.

Lemma rstrip_split s :
  exists t, s = rstrip s ++ t /\ forallb is_space t = true.
Proof.
  unfold rstrip.
  destruct (drop_while_split is_space (reverse s)) as (t & Ht & Hp).
  exists (reverse t). split.
  - rewrite <- reverse_app, <- Ht. by rewrite reverse_involutive.
  - rewrite forallb_forall in *. intros x Hx. apply Hp.
    apply list_elem_of_In. apply list_elem_of_In in Hx.
    by rewrite elem_of_reverse in Hx.
Qed.

Lemma rstrip_last s c : last (rstrip s) = Some c -> is_space c = false.
Proof.
  unfold rstrip. rewrite last_reverse.
  destruct (drop_while is_space (reverse s)) as [|x r] eqn:Hd; simpl; [done|].
  intros [= <-]. by apply drop_while_head in Hd.
Qed.

Lemma rstrip_fixed s : rstrip s = s <-> ends_with_space s = false.
Proof.
  unfold ends_with_space. split.
  - intros H. destruct (last s) as [c|] eqn:Hl; [|done].
    apply (rstrip_last s). by rewrite H.
  - intros H. unfold rstrip. rewrite <- (reverse_involutive s) at 2. f_equal.
    apply drop_while_fixed. rewrite <- head_reverse in H.
    by destruct (reverse s).
Qed.

Lemma strip_head s c r : strip s = c :: r -> is_space c = false.
Proof.
  unfold strip. intros H.
  destruct (rstrip_split (lstrip s)) as (t & Ht & _).
  rewrite H in Ht. simpl in Ht. by apply drop_while_head in Ht.
Qed.

Lemma strip_last s c : last (strip s) = Some c -> is_space c = false.
Proof. apply rstrip_last. Qed.

Lemma last_map {A B} (f : A -> B) (l : list A) :
  last (map f l) = option_map f (last l).
Proof.
  induction l as [|a [|b l] IH]; simpl in *; [done..|]. apply IH.
Qed.

Lemma sanitize_filename_again s :
  sanitize_filename (sanitize_filename s) = rstrip (sanitize_filename s).
Proof.
  set (y := sanitize_filename s).
  assert (Hl : lstrip y = y).
  { apply drop_while_fixed. subst y. rewrite sanitize_filename_spec.
    destruct (strip s) as [|c r] eqn:Hs; simpl; [done|].
    apply clean_not_space. by apply (strip_head s c r). }
  destruct (rstrip_split y) as (t & Ht & _).
  rewrite sanitize_filename_spec. unfold strip. rewrite Hl.
  assert (Hm : map clean (rstrip y) = rstrip y).
  { rewrite <- (map_id (rstrip y)) at 2. apply map_ext_in.
    intros c Hc. apply clean_id, (sanitize_filename_valid s). fold y.
    rewrite Ht. apply elem_of_app. left. by apply list_elem_of_In. }
  rewrite Hm. apply take_ge.
  pose proof (sanitize_filename_length s) as Hlen. fold y in Hlen.
  rewrite Ht, length_app in Hlen. lia.
Qed.

(** C4. For every input string, the sanitized filename contains none of the
    reserved characters (less-than, greater-than, colon, double quote, slash,
    backslash, newline, question mark, asterisk) and is at most 250
    characters long. *)
Theorem sanitize_filename_safe (s : pystr) :
  (forall c, c ∈ [60; 62; 58; 34; 47; 92; 10; 63; 42] -> c ∉ sanitize_filename s)
  /\ (length (sanitize_filename s) <= 250)%nat.
Proof.
  split.
  - intros c Hc Hin. apply sanitize_filename_valid in Hin.
    by rewrite invalid_chars_eq in Hin.
  - apply sanitize_filename_length.
Qed.

(** C5, as stated, fails: sanitizing twice is not always sanitizing once. *)
Lemma sanitize_filename_not_idempotent :
  ~ (forall x, sanitize_filename (sanitize_filename x) = sanitize_filename x).
Proof.
  intros H. specialize (H title_cut_at_space).
  apply (f_equal length) in H. vm_compute in H. discriminate H.
Qed.

(** C5, amended. Sanitizing a sanitized name only strips the white space
    that the cut at 250 may have left at its end: for every [x],
    [sanitize_filename (sanitize_filename x)] is [sanitize_filename x] with
    its trailing white space removed.  So the sanitizer is idempotent on [x]
    exactly when [sanitize_filename x] does not end in white space, which is
    the case whenever the stripped input has at most 250 characters. *)
Theorem sanitize_filename_idempotent_iff (x : pystr) :
  sanitize_filename (sanitize_filename x) = rstrip (sanitize_filename x)
  /\ (sanitize_filename (sanitize_filename x) = sanitize_filename x
      <-> ends_with_space (sanitize_filename x) = false)
  /\ ((length (strip x) <= 250)%nat ->
      sanitize_filename (sanitize_filename x) = sanitize_filename x).
Proof.
  split; [apply sanitize_filename_again|].
  rewrite sanitize_filename_again. split; [apply rstrip_fixed|].
  intros Hlen. apply rstrip_fixed. unfold ends_with_space.
  rewrite sanitize_filename_spec, take_ge by (by rewrite length_map).
  rewrite last_map.
  destruct (last (strip x)) as [c|] eqn:Hl; simpl; [|done].
  apply clean_not_space. by apply (strip_last x).
Qed.

(** The theorem on a name that the cut does not reach. *)
Lemma sanitize_filename_idempotent_iff_witness :
  (length (strip (lit "  Q3 report: draft?  ")) <= 250)%nat
  /\ sanitize_filename (sanitize_filename (lit "  Q3 report: draft?  "))
     = sanitize_filename (lit "  Q3 report: draft?  ").
Proof.
  assert (H : (length (strip (lit "  Q3 report: draft?  ")) <= 250)%nat)
    by (vm_compute; lia).
  split; [exact H|].
  exact (proj2 (proj2 (sanitize_filename_idempotent_iff (lit "  Q3 report: draft?  "))) H).
Defined.

(** ** Plain-text conversion *)

Lemma re_sub_from_nil r repl k : re_sub_from r repl k [] = [].
Proof. reflexivity. Qed.

Lemma re_sub_from_skip r repl m rest :
  re_sub_from r repl (length m) (m ++ rest) = re_sub_from r repl O rest.
Proof. induction m as [|c m IH]; [done|]. exact IH. Qed.

Lemma greedy_suffix p (k : pystr -> option pystr) :
  (forall s rest, k s = Some rest -> exists m, s = m ++ rest) ->
  forall s rest, greedy p k s = Some rest -> exists m, s = m ++ rest.
Proof.
  intros Hk s. induction s as [|c s IH]; intros rest; simpl; [apply Hk|].
  destruct (p c); [|apply Hk].
  destruct (greedy p k s) as [rest'|] eqn:Hg; [|apply Hk].
  intros [= <-]. destruct (IH rest' eq_refl) as (m & ->). by exists (c :: m).
Qed.

Lemma match_here_suffix r :
  forall s rest, match_here r s = Some rest -> exists m, s = m ++ rest.
Proof.
  induction r as [|a r IH]; intros s rest; simpl.
  - intros [= <-]. by exists [].
  - destruct a as [p|p|p|p].
    + destruct s as [|c s]; [done|]. destruct (p c); [|done].
      intros H. destruct (IH _ _ H) as (m & ->). by exists (c :: m).
    + by apply greedy_suffix.
    + destruct s as [|c s]; [done|]. destruct (p c); [|done].
      intros H. destruct (greedy_suffix p _ IH _ _ H) as (m & ->).
      by exists (c :: m).
    + destruct s as [|c s]; [apply IH|]. destruct (p c); [|apply IH].
      destruct (match_here r s) as [rest'|] eqn:Hm; [|apply IH].
      intros [= <-]. destruct (IH _ _ Hm) as (m & ->). by exists (c :: m).
Qed.

(** At a match that consumes something, the replacement is inserted and the
    substitution goes on after the match. *)
Lemma re_sub_match r repl s rest :
  match_here r s = Some rest -> (length rest < length s)%nat ->
  re_sub_from r repl O s = repl ++ re_sub_from r repl O rest.
Proof.
  intros Hm Hlen. destruct (match_here_suffix r s rest Hm) as (m & ->).
  destruct m as [|c m]; [simpl in Hlen; lia|].
  change ((c :: m) ++ rest) with (c :: (m ++ rest)) in *.
  cbn [re_sub_from]. rewrite Hm.
  replace (length (c :: m ++ rest) - length rest)%nat with (S (length m))
    by (simpl; rewrite length_app; lia).
  by rewrite re_sub_from_skip.
Qed.

Lemma re_sub_nomatch r repl c s :
  match_here r (c :: s) = None ->
  re_sub_from r repl O (c :: s) = c :: re_sub_from r repl O s.
Proof. intros Hm. cbn [re_sub_from]. by rewrite Hm. Qed.

Lemma head_class_nomatch r p c s :
  head_class r = Some p -> p c = false -> match_here r (c :: s) = None.
Proof.
  destruct r as [|[q|q|q|q] r]; simpl; try done; intros [= ->] ->; done.
Qed.

Lemma re_sub_skip r repl p pre rest :
  head_class r = Some p -> Forall (fun c => p c = false) pre ->
  re_sub_from r repl O (pre ++ rest) = pre ++ re_sub_from r repl O rest.
Proof.
  intros Hr Hpre. induction Hpre as [|c pre Hc _ IH]; [done|].
  change ((c :: pre) ++ rest) with (c :: (pre ++ rest)).
  rewrite re_sub_nomatch by (by apply (head_class_nomatch r p)).
  by rewrite IH.
Qed.

Lemma re_sub_unchanged r repl p s :
  head_class r = Some p -> Forall (fun c => p c = false) s -> re_sub r repl s = s.
Proof.
  intros Hr Hs. unfold re_sub. rewrite <- (app_nil_r s) at 1.
  rewrite (re_sub_skip r repl p s []) by done. by rewrite app_nil_r.
Qed.

Lemma plain_char_inv c :
  plain_char c = true -> c <> 60 /\ c <> 38 /\ is_space c = false.
Proof.
  unfold plain_char. rewrite !andb_true_iff, !negb_true_iff.
  intros [[[H60 _] H38] Hsp]. by apply N.eqb_neq in H60; apply N.eqb_neq in H38.
Qed.

Lemma plain_char_no_markup c :
  plain_char c = true -> c <> 60 /\ c <> 62 /\ c <> 38.
Proof.
  unfold plain_char. rewrite !andb_true_iff, !negb_true_iff.
  intros [[[H60 H62] H38] _]. apply N.eqb_neq in H60, H62, H38. done.
Qed.

Lemma not_space_inv c : is_space c = false -> c <> 10 /\ c <> 32 /\ c <> 9.
Proof. intros H. repeat split; intros ->; discriminate H. Qed.

Lemma ci_60 c : c <> 60 -> ci 60 c = false.
Proof. intros H. unfold ci. apply N.eqb_neq in H. by rewrite H. Qed.

Lemma plain_Forall (P : N -> Prop) s :
  (forall c, plain_char c = true -> P c) -> plain s -> Forall P s.
Proof. intros HP H. eapply Forall_impl; [exact H | exact HP]. Qed.

Lemma fold_replacements_unchanged (rs : list (regex * pystr)) (s : pystr) :
  Forall (fun pr => head_class (fst pr) = Some (ci 60)) rs ->
  Forall (fun c => c <> 60) s ->
  fold_left (fun text pr => re_sub (fst pr) (snd pr) text) rs s = s.
Proof.
  intros Hrs Hs. induction Hrs as [|pr rs Hpr _ IH]; simpl; [done|].
  rewrite (re_sub_unchanged (fst pr) (snd pr) (ci 60) s Hpr); [exact IH|].
  eapply Forall_impl; [exact Hs|]. intros c. apply ci_60.
Qed.

Lemma drop_while_app_all p (l r : pystr) :
  forallb p l = true -> drop_while p (l ++ r) = drop_while p r.
Proof.
  induction l as [|c l IH]; simpl; [done|].
  intros H. apply andb_true_iff in H as [-> H]. by apply IH.
Qed.

Lemma rstrip_app_spaces s ws :
  forallb is_space ws = true -> rstrip (s ++ ws) = rstrip s.
Proof.
  intros H. unfold rstrip. rewrite reverse_app. rewrite drop_while_app_all; [done|].
  rewrite forallb_forall in *. intros x Hx. apply H.
  apply list_elem_of_In. apply list_elem_of_In in Hx. by rewrite elem_of_reverse in Hx.
Qed.

Lemma blank_nomatch (A X : pystr) :
  A <> [] -> plain A ->
  match_here [chr_is newline; Star is_space; chr_is newline] (newline :: A ++ X) = None.
Proof.
  intros HA HpA. destruct A as [|a A]; [done|].
  apply Forall_cons in HpA as [Ha _].
  apply plain_char_inv in Ha as (_ & _ & Ha).
  destruct (not_space_inv a Ha) as (Hnl & _). apply N.eqb_neq in Hnl.
  cbn [match_here chr_is greedy app]. unfold newline.
  change (10 =? 10) with true. cbv iota. by rewrite Ha, Hnl.
Qed.

Lemma blank_match (B X : pystr) :
  B <> [] -> plain B ->
  match_here [chr_is newline; Star is_space; chr_is newline]
    (newline :: newline :: newline :: B ++ X) = Some (B ++ X).
Proof.
  intros HB HpB. destruct B as [|b B]; [done|].
  apply Forall_cons in HpB as [Hb _].
  apply plain_char_inv in Hb as (_ & _ & Hb).
  destruct (not_space_inv b Hb) as (Hnl & _). apply N.eqb_neq in Hnl.
  cbn [match_here chr_is greedy app]. unfold newline.
  change (10 =? 10) with true. change (is_space 10) with true.
  cbv iota. by rewrite Hb, Hnl.
Qed.

(** Substitution along a text made of known characters and of blocks [A]
    and [B] that the first character of the pattern does not match. *)
Ltac resub p A B :=
  repeat first
    [ rewrite re_sub_from_nil
    | erewrite re_sub_match by first [reflexivity | (simpl; lia)]
    | rewrite re_sub_nomatch by reflexivity
    | rewrite (re_sub_skip _ _ p A) by (first [reflexivity | assumption])
    | rewrite (re_sub_skip _ _ p B) by (first [reflexivity | assumption]) ].

Lemma html_to_text_two_blocks (charrefs : pystr -> pystr) (A B : pystr) :
  A <> [] -> B <> [] -> plain A -> plain B ->
  html_to_text_str charrefs (lit "<p>" ++ A ++ lit "</p><p>" ++ B ++ lit "</p>")
  = A ++ [newline; newline] ++ B.
Proof.
  intros HA HB HpA HpB.
  assert (HA60 : Forall (fun c => ci 60 c = false) A).
  { apply (plain_Forall _ A); [|done]. intros c Hc.
    apply ci_60. by apply plain_char_inv in Hc as (? & _). }
  assert (HB60 : Forall (fun c => ci 60 c = false) B).
  { apply (plain_Forall _ B); [|done]. intros c Hc.
    apply ci_60. by apply plain_char_inv in Hc as (? & _). }
  unfold html_to_text_str.
  change replacements with
    ([ (ci_lit "<br" ++ [Star is_space; Opt (fun x => x =? 47); chr_is 62], [newline]);
       (ci_lit "<p>", [newline]);
       (ci_lit "</p>", [newline; newline]) ] ++ drop 3 replacements).
  rewrite fold_left_app. cbn [fold_left fst snd].
  change (lit "<p>") with [60; 112; 62].
  change (lit "</p><p>") with [60; 47; 112; 62; 60; 112; 62].
  change (lit "</p>") with [60; 47; 112; 62].
  cbn [app].
  (* line breaks: nothing to replace *)
  match goal with
  | |- context [re_sub ?r ?repl (?c :: ?t)] =>
      assert (E : re_sub r repl (c :: t) = c :: t)
        by (unfold re_sub; resub (ci 60) A B; reflexivity);
      rewrite E; clear E
  end.
  (* opening tags *)
  match goal with
  | |- context [re_sub ?r ?repl (?c :: ?t)] =>
      assert (E : re_sub r repl (c :: t)
                  = [10] ++ A ++ [60; 47; 112; 62] ++ [10] ++ B ++ [60; 47; 112; 62])
        by (unfold re_sub; resub (ci 60) A B; reflexivity);
      rewrite E; clear E
  end.
  cbn [app].
  (* closing tags *)
  match goal with
  | |- context [re_sub ?r ?repl (?c :: ?t)] =>
      assert (E : re_sub r repl (c :: t)
                  = [10] ++ A ++ [10; 10] ++ [10] ++ B ++ [10; 10])
        by (unfold re_sub; resub (ci 60) A B; reflexivity);
      rewrite E; clear E
  end.
  cbn [app].
  (* what is left is made of newlines and plain characters *)
  assert (Hmild : forall out, out = 10 :: A ++ 10 :: 10 :: 10 :: B ++ [10; 10]
                              \/ out = 10 :: A ++ 10 :: 10 :: B ++ [10; 10] ->
            Forall (fun c => c = 10 \/ plain_char c = true) out).
  { assert (HA' : Forall (fun c => c = 10 \/ plain_char c = true) A)
      by (eapply Forall_impl; [exact HpA | auto]).
    assert (HB' : Forall (fun c => c = 10 \/ plain_char c = true) B)
      by (eapply Forall_impl; [exact HpB | auto]).
    intros out [-> | ->];
      repeat first [ apply Forall_cons; split; [by left|]
                   | apply Forall_app; split; [assumption|]
                   | apply Forall_nil ]; done. }
  assert (Hclass : forall (p : N -> bool) out,
             p 10 = false ->
             (forall c, plain_char c = true -> p c = false) ->
             out = 10 :: A ++ 10 :: 10 :: 10 :: B ++ [10; 10]
             \/ out = 10 :: A ++ 10 :: 10 :: B ++ [10; 10] ->
             Forall (fun c => p c = false) out).
  { intros p out H10 Hp Hout. eapply Forall_impl; [exact (Hmild out Hout)|].
    intros c [-> | Hc]; auto. }
  rewrite fold_replacements_unchanged.
  2: { unfold replacements. cbn [drop]. repeat constructor. }
  2: { eapply Forall_impl; [exact (Hmild _ (or_introl eq_refl))|].
       intros c [-> | Hc]; [done|]. by apply plain_char_inv in Hc as (? & _). }
  (* other tags: none *)
  rewrite (re_sub_unchanged [chr_is 60; Plus (fun x => negb (x =? 62)); chr_is 62] []
             (fun x => x =? 60)); [|reflexivity|].
  2: { apply Hclass; [reflexivity | | by left].
       intros c Hc. apply plain_char_inv in Hc as (? & _). by apply N.eqb_neq. }
  (* entities: none *)
  unfold html_unescape.
  replace (existsb (fun c => c =? 38) (10 :: A ++ 10 :: 10 :: 10 :: B ++ [10; 10]))
    with false.
  2: { symmetry. apply not_true_is_false. intros H.
       apply existsb_exists in H as (c & Hin & Hc).
       pose proof (Hclass (fun c => c =? 38) _ eq_refl
                     (fun c Hc => proj2 (N.eqb_neq c 38)
                                    (proj1 (proj2 (plain_char_inv c Hc))))
                     (or_introl eq_refl)) as HF.
       rewrite Forall_forall in HF. apply list_elem_of_In in Hin.
       specialize (HF c Hin). simpl in HF. congruence. }
  (* blank lines *)
  assert (HAnl : Forall (fun c => (c =? newline) = false) A).
  { apply (plain_Forall _ A); [|done]. intros c Hc.
    apply plain_char_inv in Hc as (_ & _ & Hc).
    destruct (not_space_inv c Hc) as (? & _). by apply N.eqb_neq. }
  assert (HBnl : Forall (fun c => (c =? newline) = false) B).
  { apply (plain_Forall _ B); [|done]. intros c Hc.
    apply plain_char_inv in Hc as (_ & _ & Hc).
    destruct (not_space_inv c Hc) as (? & _). by apply N.eqb_neq. }
  assert (E : re_sub [chr_is newline; Star is_space; chr_is newline]
                [newline; newline] (10 :: A ++ 10 :: 10 :: 10 :: B ++ [10; 10])
              = 10 :: A ++ 10 :: 10 :: B ++ [10; 10]).
  { unfold re_sub.
    rewrite re_sub_nomatch by (by apply blank_nomatch).
    rewrite (re_sub_skip _ _ (fun x => x =? newline) A) by (first [reflexivity | assumption]).
    rewrite (re_sub_match _ _ _ (B ++ [10; 10]))
      by (first [by apply blank_match | simpl; lia]).
    rewrite (re_sub_skip _ _ (fun x => x =? newline) B) by (first [reflexivity | assumption]).
    rewrite (re_sub_match _ _ [10; 10] []) by (first [reflexivity | simpl; lia]).
    reflexivity. }
  rewrite E. clear E.
  (* runs of spaces: none *)
  rewrite (re_sub_unchanged _ _ (fun x => (x =? 32) || (x =? 9))); [|reflexivity|].
  2: { apply Hclass; [reflexivity | | by right].
       intros c Hc. apply plain_char_inv in Hc as (_ & _ & Hc).
       destruct (not_space_inv c Hc) as (_ & H32 & H9).
       apply N.eqb_neq in H32, H9. by rewrite H32, H9. }
  (* strip *)
  unfold strip, lstrip. cbn [drop_while]. change (is_space 10) with true. cbv iota.
  rewrite (drop_while_fixed is_space).
  2: { destruct A as [|a A']; [done|]. apply Forall_cons in HpA as [Ha _].
       by apply plain_char_inv in Ha as (_ & _ & Ha). }
  change (A ++ 10 :: 10 :: B ++ [10; 10]) with (A ++ [10; 10] ++ B ++ [10; 10]).
  rewrite !app_assoc. rewrite rstrip_app_spaces by reflexivity.
  rewrite <- !app_assoc. apply rstrip_fixed. unfold ends_with_space.
  rewrite last_app.
  change (newline :: newline :: B) with ([newline; newline] ++ B).
  rewrite last_app.
  destruct (last B) as [b|] eqn:Hl; [|by apply last_None in Hl].
  apply last_Some_elem_of in Hl. unfold plain in HpB. rewrite Forall_forall in HpB.
  by apply HpB, plain_char_inv in Hl as (_ & _ & Hl).
Qed.

(** C8. The plain-text conversion of the markup of two paragraphs A and B
    (any two non-empty blocks of plain text) is A, one blank line, B: no
    angle bracket and no ampersand is left. *)
Theorem html_to_text_two_paragraphs (E : Env) (st : State) (A B : pystr) :
  A <> [] -> B <> [] -> plain A -> plain B ->
  let out := A ++ [newline; newline] ++ B in
  html_to_text E (VStr (lit "<p>" ++ A ++ lit "</p><p>" ++ B ++ lit "</p>")) st
  = (inr out, st)
  /\ (forall c, c ∈ out -> c <> 60 /\ c <> 62 /\ c <> 38).
Proof.
  intros HA HB HpA HpB out. split.
  - unfold html_to_text. change (lit "<p>") with [60; 112; 62]. cbn [app truthy].
    rewrite bool_decide_eq_false_2 by discriminate. cbn [negb].
    change (60 :: 112 :: 62 :: A ++ lit "</p><p>" ++ B ++ lit "</p>")
      with (lit "<p>" ++ A ++ lit "</p><p>" ++ B ++ lit "</p>").
    by rewrite html_to_text_two_blocks.
  - subst out. intros c Hc. unfold plain in HpA, HpB.
    rewrite Forall_forall in HpA, HpB.
    apply elem_of_app in Hc as [Hc | Hc]; [by apply plain_char_no_markup, HpA|].
    apply elem_of_cons in Hc as [-> | Hc]; [done|].
    apply elem_of_cons in Hc as [-> | Hc]; [done|].
    by apply plain_char_no_markup, HpB.
Qed.

(** The theorem on the paragraphs "A" and "B". *)
Lemma html_to_text_two_paragraphs_witness :
  html_to_text scenario_env (VStr (lit "<p>A</p><p>B</p>")) empty_world
  = (inr (lit "A" ++ [newline; newline] ++ lit "B"), empty_world).
Proof.
  apply (html_to_text_two_paragraphs scenario_env empty_world (lit "A") (lit "B")).
  - discriminate.
  - discriminate.
  - by repeat constructor.
  - by repeat constructor.
Defined.

(** ** API client *)

Lemma get_categories_other_status E self st r :
  http E (trace st) (Get (base_url self ++ lit "/solutions/categories") (headers self) [])
    = Some r ->
  status_code r <> 200%Z -> status_code r <> 403%Z ->
  fst (get_categories E self st) = inr VNone.
Proof.
  intros Hr H200 H403. unfold get_categories, bind, requests_get.
  rewrite Hr. simpl.
  destruct (Z.eqb_spec (status_code r) 200); [done|].
  destruct (Z.eqb_spec (status_code r) 403); [done|]. reflexivity.
Qed.

(** C1 (the code departs from it). On a response 500 [get_categories] and
    [get_folders] return [None], which is not a list, where [get_articles]
    returns the empty list and [get_article_details] the absent detail; and
    a transport failure is raised to the caller by the first two. *)
Theorem get_categories_server_error_returns_None :
  let E := plain_env (fun _ _ => Some server_error) in
  let E_down := plain_env (fun _ _ => None) in
  fst (get_categories E kb empty_world) = inr VNone
  /\ fst (get_folders E kb (VInt 1) empty_world) = inr VNone
  /\ fst (get_articles E kb 1 (VInt 1) VNone empty_world) = inr (Some [])
  /\ fst (get_article_details E kb (VInt 1) empty_world) = inr VNone
  /\ fst (get_categories E_down kb empty_world) = inl RequestException
  /\ fst (get_folders E_down kb (VInt 1) empty_world) = inl RequestException.
Proof. repeat split; vm_compute; reflexivity. Qed.

(** ** Status label *)

Lemma status_map_get_spec {S} (v : PyVal) (st : S) :
  status_map_get (VInt 1) (lit "Unknown") st = (inr (lit "Published"), st)
  /\ status_map_get (VInt 2) (lit "Unknown") st = (inr (lit "Draft"), st)
  /\ status_map_get VNone (lit "Unknown") st = (inr (lit "Unknown"), st)
  /\ (forall z, z <> 1%Z -> z <> 2%Z ->
      status_map_get (VInt z) (lit "Unknown") st = (inr (lit "Unknown"), st)).
Proof.
  repeat split. intros z H1 H2. unfold status_map_get, py_eq_int.
  destruct (Z.eqb_spec z 1); [done|]. destruct (Z.eqb_spec z 2); [done|].
  reflexivity.
Qed.

(** C2 (the code departs from it). For the status 3, and for an absent
    status, the label of the document shell is Unknown but the label in the
    metadata record is Draft. *)
Theorem metadata_status_label_is_Draft_for_unknown_status (E : Env) (st : State) :
  let article := VDict [(lit "id", VInt 7); (lit "status", VInt 3)] in
  let no_status := VDict [(lit "id", VInt 7)] in
  status_map_get (VInt 3) (lit "Unknown") st = (inr (lit "Unknown"), st)
  /\ status_map_get VNone (lit "Unknown") st = (inr (lit "Unknown"), st)
  /\ (exists md, fst (extract_article_metadata E article st) = inr (VDict md)
                 /\ dict_get md (lit "status") = Some (VStr (lit "Draft")))
  /\ (exists md, fst (extract_article_metadata E no_status st) = inr (VDict md)
                 /\ dict_get md (lit "status") = Some (VStr (lit "Draft"))).
Proof.
  repeat split.
  - eexists. split; [reflexivity|]. vm_compute. reflexivity.
  - eexists. split; [reflexivity|]. vm_compute. reflexivity.
Qed.

(** ** Pagination *)

Lemma add_trace_nil st : add_trace [] st = st.
Proof. destruct st. unfold add_trace. simpl. by rewrite app_nil_r. Qed.

Lemma add_trace_app ops1 ops2 st :
  add_trace ops2 (add_trace ops1 st) = add_trace (ops1 ++ ops2) st.
Proof. unfold add_trace. simpl. by rewrite app_assoc. Qed.

Section Pagination.

Variable E : Env.
Variable self : Extractor.
Variables folder_id category_id : PyVal.

(** One turn of the loop on a page that the source serves. *)
Lemma get_articles_loop_step (pages : nat -> list PyVal) (p : nat)
    (acc : list PyVal) (st : State) (fuel : nat) :
  serves E self folder_id category_id pages p ->
  get_articles_loop E self (S fuel) folder_id category_id acc (Z.of_nat p) st
  = if (Z.of_nat (length (pages p)) <? 100)%Z
    then (inr (Some (acc ++ pages p)), add_trace [page_request self folder_id category_id p] st)
    else get_articles_loop E self fuel folder_id category_id (acc ++ pages p)
           (Z.of_nat p + 1) (add_trace [page_request self folder_id category_id p] st).
Proof.
  intros Hserve.
  destruct (Hserve (trace st)) as (r & d & Hr & Hs & Hj & Hd).
  cbn [get_articles_loop]. unfold bind, requests_get.
  fold (page_request self folder_id category_id p). rewrite Hr, Hs.
  change (200 =? 200)%Z with true. cbv iota.
  unfold response_json. rewrite Hj. unfold ret at 1. cbv iota beta.
  unfold py_get, ret at 1. cbv iota beta. rewrite Hd.
  unfold py_iter, ret at 1. cbv iota beta.
  unfold py_len, ret at 1. cbv iota beta.
  by destruct (Z.of_nat (length (pages p)) <? 100)%Z.
Qed.

Lemma get_articles_loop_pages (pages : nat -> list PyVal) (m : nat) :
  forall (p : nat) (acc : list PyVal) (st : State) (fuel : nat),
    (forall i, (p <= i <= p + m)%nat -> serves E self folder_id category_id pages i) ->
    (forall i, (p <= i < p + m)%nat -> length (pages i) = 100%nat) ->
    (length (pages (p + m)%nat) < 100)%nat ->
    (m < fuel)%nat ->
    get_articles_loop E self fuel folder_id category_id acc (Z.of_nat p) st
    = (inr (Some (acc ++ concat (map pages (seq p (S m))))),
       add_trace (map (page_request self folder_id category_id) (seq p (S m))) st).
Proof.
  induction m as [|m IH]; intros p acc st fuel Hserve Hfull Hshort Hfuel;
    (destruct fuel as [|fuel]; [lia|]);
    rewrite (get_articles_loop_step pages) by (apply Hserve; lia).
  - replace (p + 0)%nat with p in Hshort by lia.
    destruct (Z.ltb_spec (Z.of_nat (length (pages p))) 100); [|lia].
    simpl. by rewrite app_nil_r.
  - rewrite (Hfull p) by lia. change (Z.of_nat 100 <? 100)%Z with false.
    cbv iota.
    replace (Z.of_nat p + 1)%Z with (Z.of_nat (S p)) by lia.
    rewrite (IH (S p)); try lia.
    + rewrite add_trace_app, <- app_assoc. reflexivity.
    + intros i Hi. apply Hserve. lia.
    + intros i Hi. apply Hfull. lia.
    + by replace (S p + m)%nat with (p + S m)%nat by lia.
Qed.

End Pagination.

(** C6. When the source returns full pages of 100 articles up to page
    [k - 1] and fewer than 100 on page [k], [get_articles] returns the
    concatenation of the pages 1 to [k] and its requests are exactly those
    of the pages 1 to [k]: none is made for page [k + 1]. *)
Theorem get_articles_stops_at_short_page (E : Env) (self : Extractor)
    (folder_id category_id : PyVal) (pages : nat -> list PyVal) (k fuel : nat)
    (st : State) :
  (1 <= k)%nat ->
  (forall i, (1 <= i <= k)%nat -> serves E self folder_id category_id pages i) ->
  (forall i, (1 <= i < k)%nat -> length (pages i) = 100%nat) ->
  (length (pages k) < 100)%nat ->
  (k <= fuel)%nat ->
  get_articles E self fuel folder_id category_id st
  = (inr (Some (concat (map pages (seq 1 k)))),
     add_trace (map (page_request self folder_id category_id) (seq 1 k)) st).
Proof.
  intros Hk Hserve Hfull Hshort Hfuel. unfold get_articles.
  destruct k as [|m]; [lia|].
  exact (get_articles_loop_pages E self folder_id category_id pages m 1 [] st fuel
           (fun i Hi => Hserve i ltac:(lia)) (fun i Hi => Hfull i ltac:(lia))
           Hshort ltac:(lia)).
Qed.

(** The theorem on the source with two pages, a full one and a short one. *)
Lemma get_articles_stops_at_short_page_witness :
  get_articles (plain_env (paged_server two_pages)) kb 2 (VInt 5) VNone empty_world
  = (inr (Some (concat (map two_pages (seq 1 2)))),
     add_trace (map (page_request kb (VInt 5) VNone) (seq 1 2)) empty_world).
Proof.
  apply (get_articles_stops_at_short_page
           (plain_env (paged_server two_pages)) kb (VInt 5) VNone two_pages 2 2).
  - lia.
  - intros i Hi history.
    assert (i = 1 \/ i = 2)%nat as [-> | ->] by lia;
      eexists; eexists; repeat split; reflexivity.
  - intros i Hi. assert (i = 1)%nat as -> by lia. reflexivity.
  - simpl. lia.
  - lia.
Defined.

(** ** Reasoning about computations *)

Lemma bind_inr {S A B} (m : M S A) (k : A -> M S B) s b s' :
  bind m k s = (inr b, s') ->
  exists a s1, m s = (inr a, s1) /\ k a s1 = (inr b, s').
Proof.
  unfold bind. destruct (m s) as [[e|a] s1]; [done|]. intros H. by exists a, s1.
Qed.

Lemma bind_run {S A B} (m : M S A) (k : A -> M S B) s a s1 :
  m s = (inr a, s1) -> bind m k s = k a s1.
Proof. unfold bind. by intros ->. Qed.

Lemma try_except_state {S A} (body : M S A) catches (a : A) s :
  snd (try_except body catches (fun _ => ret a) s) = snd (body s).
Proof.
  unfold try_except. destruct (body s) as [[e|x] s1]; [|done].
  by destruct (catches e).
Qed.

Section Respects.

Context {S : Type} (R : S -> S -> Prop) `{!PreOrder R}.

Lemma respects_ret {A} (a : A) : respects R (ret a).
Proof. intros s. simpl. reflexivity. Qed.

Lemma respects_raise {A} e : respects R (@raise S A e).
Proof. intros s. simpl. reflexivity. Qed.

Lemma respects_bind {A B} (m : M S A) (k : A -> M S B) :
  respects R m -> (forall a, respects R (k a)) -> respects R (bind m k).
Proof.
  intros Hm Hk s. unfold bind. specialize (Hm s).
  destruct (m s) as [[e|a] s1]; simpl in *; [done|].
  etrans; [exact Hm | apply Hk].
Qed.

Lemma respects_try {A} (body : M S A) catches handler :
  respects R body -> (forall e, respects R (handler e)) ->
  respects R (try_except body catches handler).
Proof.
  intros Hb Hh s. unfold try_except. specialize (Hb s).
  destruct (body s) as [[e|a] s1]; simpl in *; [|done].
  destruct (catches e); [|done]. etrans; [exact Hb | apply Hh].
Qed.

Lemma respects_map_m {A B} (f : A -> M S B) xs :
  (forall x, respects R (f x)) -> respects R (map_m f xs).
Proof.
  intros Hf. induction xs as [|x xs IH]; simpl.
  - apply respects_ret.
  - apply respects_bind; [apply Hf|]. intros y.
    apply respects_bind; [apply IH|]. intros ys. apply respects_ret.
Qed.

(** The dynamic operations on values do not touch the store. *)

Lemma respects_py_get v k d : respects R (py_get v k d).
Proof. destruct v; first [apply respects_ret | apply respects_raise]. Qed.

Lemma respects_py_getitem v k : respects R (py_getitem v k).
Proof.
  destruct v; simpl; try apply respects_raise.
  destruct (dict_get d k); [apply respects_ret | apply respects_raise].
Qed.

Lemma respects_py_len v : respects R (py_len v).
Proof. destruct v; first [apply respects_ret | apply respects_raise]. Qed.

Lemma respects_py_iter v : respects R (py_iter v).
Proof. destruct v; first [apply respects_ret | apply respects_raise]. Qed.

Lemma respects_as_str v : respects R (as_str v).
Proof. destruct v; first [apply respects_ret | apply respects_raise]. Qed.

Lemma respects_py_setitem v k x : respects R (py_setitem v k x).
Proof. destruct v; first [apply respects_ret | apply respects_raise]. Qed.

Lemma respects_py_keys v : respects R (py_keys v).
Proof. destruct v; first [apply respects_ret | apply respects_raise]. Qed.

Lemma respects_sanitize_filename_val v : respects R (sanitize_filename_val v).
Proof.
  apply respects_bind; [apply respects_as_str | intros; apply respects_ret].
Qed.

Lemma respects_html_escape v : respects R (html_escape v).
Proof.
  apply respects_bind; [apply respects_as_str | intros; apply respects_ret].
Qed.

Lemma respects_status_map_get v d : respects R (status_map_get v d).
Proof.
  destruct v; simpl; try apply respects_raise;
    repeat match goal with
           | |- respects _ (if ?b then _ else _) => destruct b
           end; apply respects_ret.
Qed.

Lemma respects_html_to_text E v : respects R (html_to_text E v).
Proof.
  unfold html_to_text. destruct (negb (truthy v)); [apply respects_ret|].
  destruct v; first [apply respects_ret | apply respects_raise].
Qed.

Lemma respects_response_json r : respects R (response_json r).
Proof.
  unfold response_json.
  destruct (json_body r); [apply respects_ret | apply respects_raise].
Qed.

Lemma respects_raise_for_status r : respects R (raise_for_status r).
Proof.
  unfold raise_for_status.
  match goal with |- respects _ (if ?b then _ else _) => destruct b end;
    [apply respects_raise | apply respects_ret].
Qed.

End Respects.

Create HintDb respects.

#[global] Hint Resolve respects_ret respects_raise respects_py_get
  respects_py_getitem respects_py_len respects_py_iter respects_as_str
  respects_py_setitem respects_py_keys respects_sanitize_filename_val
  respects_html_escape respects_status_map_get respects_html_to_text
  respects_response_json respects_raise_for_status : respects.

(** One step of the decomposition of a computation into its parts. *)
Ltac respects_step :=
  match goal with
  | |- respects _ (bind _ _) => refine (respects_bind _ _ _ _ _); [|intros ?]
  | |- respects _ (try_except _ _ _) =>
      refine (respects_try _ _ _ _ _ _); [|intros ?]
  | |- respects _ (map_m _ _) => refine (respects_map_m _ _ _ _); intros ?
  | |- respects _ (if ?b then _ else _) => destruct b
  | |- respects _ _ => solve [auto with respects typeclass_instances]
  end.

Ltac respects_tac := repeat respects_step.

(** ** The file system under the primitives *)

#[global] Instance keeps_file_preorder p : PreOrder (keeps_file p).
Proof.
  split; [by intros st|]. intros a b c Hab Hbc. unfold keeps_file in *. congruence.
Qed.

#[global] Instance keeps_fs_preorder : PreOrder keeps_fs.
Proof.
  split; [by intros st|]. intros a b c [? ?] [? ?]. split; congruence.
Qed.

#[global] Instance eq_state_preorder : PreOrder (@eq State).
Proof. split; [by intros st | intros a b c; congruence]. Qed.

Lemma respects_weaken {S A} (R R' : S -> S -> Prop) (m : M S A) :
  (forall s s', R s s' -> R' s s') -> respects R m -> respects R' m.
Proof. intros HR Hm s. apply HR, Hm. Qed.

Lemma keeps_fs_file p st st' : keeps_fs st st' -> keeps_file p st st'.
Proof. intros [Hf _]. unfold keeps_file. by rewrite Hf. Qed.

Lemma eq_keeps_fs (st st' : State) : st = st' -> keeps_fs st st'.
Proof. by intros ->. Qed.

Section Primitives.

Variable E : Env.
Variable self : Extractor.

Lemma requests_get_fs url hdrs params : respects keeps_fs (requests_get E url hdrs params).
Proof.
  intros st. unfold requests_get. by destruct (http E (trace st) _).
Qed.

Lemma clock_strftime_eq fmt : respects eq (clock_strftime E fmt).
Proof. by intros st. Qed.

Lemma clock_isoformat_eq : respects eq (clock_isoformat E).
Proof. by intros st. Qed.

Lemma makedirs_file p path : respects (keeps_file p) (makedirs E path).
Proof.
  intros st. unfold makedirs.
  by match goal with |- context [if ?b then _ else _] => destruct b end.
Qed.

Lemma open_w_file p path : path <> p -> respects (keeps_file p) (open_w E path).
Proof.
  intros Hne st. unfold open_w, keeps_file.
  match goal with |- context [if ?b then _ else _] => destruct b end; simpl; [done|].
  by rewrite lookup_insert_ne.
Qed.

Lemma write_file p path data : path <> p -> respects (keeps_file p) (write E path data).
Proof.
  intros Hne st. unfold write, keeps_file.
  match goal with |- context [if ?b then _ else _] => destruct b end; simpl; [done|].
  by rewrite lookup_insert_ne.
Qed.

Lemma write_pdf_file p path html :
  path <> p -> respects (keeps_file p) (write_pdf E path html).
Proof.
  intros Hne st. unfold write_pdf, keeps_file.
  destruct (pdf_render E (trace st) html); [|done].
  match goal with |- context [if ?b then _ else _] => destruct b end; simpl; [done|].
  by rewrite lookup_insert_ne.
Qed.

Lemma open_w_inr path st u st' :
  open_w E path st = (inr u, st') ->
  files st' = <[path := []]> (files st) /\ dirs st' = dirs st.
Proof.
  unfold open_w.
  match goal with |- context [if ?b then _ else _] => destruct b end; [done|].
  by intros [= _ <-].
Qed.

Lemma write_inr path data st u st' :
  write E path data st = (inr u, st') ->
  files st' = <[path := data]> (files st) /\ dirs st' = dirs st.
Proof.
  unfold write.
  match goal with |- context [if ?b then _ else _] => destruct b end; [done|].
  by intros [= _ <-].
Qed.

(** Building the document shell or the metadata record changes nothing. *)

Lemma create_html_document_eq article content for_pdf :
  respects eq (create_html_document E self article content for_pdf).
Proof.
  unfold create_html_document. respects_tac; apply clock_strftime_eq.
Qed.

Lemma extract_article_metadata_eq article :
  respects eq (extract_article_metadata E article).
Proof.
  unfold extract_article_metadata. respects_tac; apply clock_isoformat_eq.
Qed.

Lemma get_article_details_fs article_id :
  respects keeps_fs (get_article_details E self article_id).
Proof.
  unfold get_article_details. respects_tac. apply requests_get_fs.
Qed.

Lemma create_pdf_document_file p article content path :
  path <> p -> respects (keeps_file p) (create_pdf_document E self article content path).
Proof.
  intros Hne. unfold create_pdf_document. respects_tac.
  - apply (respects_weaken eq); [by intros ? ? ->|]. apply create_html_document_eq.
  - by apply write_pdf_file.
Qed.

End Primitives.

(** ** Article materializer *)

Lemma path_join_last a b : b <> [] -> last (path_join a b) = last b.
Proof.
  intros Hb. unfold path_join. destruct (startswith [slash] b); [done|].
  destruct (last a) as [c|]; [|done].
  destruct (c =? slash); rewrite ?last_app;
    (destruct (last b) eqn:Hl; [done|]); by apply last_None in Hl.
Qed.

Lemma article_file_last E folder id (suffix : string) :
  lit suffix <> [] -> last (article_file E folder id suffix) = last (lit suffix).
Proof.
  intros Hs. unfold article_file. rewrite path_join_last.
  - rewrite last_app. destruct (last (lit suffix)) eqn:Hl; [done|].
    by apply last_None in Hl.
  - intros H. by apply app_eq_nil in H as [_ ?].
Qed.

Lemma article_file_ne E folder id (suffix1 suffix2 : string) :
  lit suffix1 <> [] -> lit suffix2 <> [] ->
  last (lit suffix1) <> last (lit suffix2) ->
  article_file E folder id suffix1 <> article_file E folder id suffix2.
Proof.
  intros H1 H2 Hne Heq. apply Hne.
  rewrite <- (article_file_last E folder id suffix1 H1).
  rewrite <- (article_file_last E folder id suffix2 H2). by rewrite Heq.
Qed.

(** The four files of an article are different files. *)
Ltac article_files_differ := apply article_file_ne; vm_compute; discriminate.

Section Materializer.

Variable E : Env.
Variable self : Extractor.
Variable folder : pystr.
Variable id : PyVal.

Lemma save_pdf_block_file p d body save_pdf :
  article_file E folder id "_article.pdf" <> p ->
  respects (keeps_file p) (save_pdf_block E self d body id folder save_pdf).
Proof.
  intros Hne. unfold save_pdf_block. respects_tac.
  by apply create_pdf_document_file.
Qed.

Lemma save_pdf_block_skipped d body save_pdf :
  save_pdf && truthy body = false ->
  respects eq (save_pdf_block E self d body id folder save_pdf).
Proof. intros H. unfold save_pdf_block. rewrite H. apply respects_ret, _. Qed.

Lemma save_html_block_file p d body save_html :
  article_file E folder id "_article.html" <> p ->
  respects (keeps_file p) (save_html_block E self d body id folder save_html).
Proof.
  intros Hne. unfold save_html_block. respects_tac.
  - by apply open_w_file.
  - apply (respects_weaken eq); [by intros ? ? ->|]. apply create_html_document_eq.
  - by apply write_file.
Qed.

Lemma save_html_block_skipped d body save_html :
  save_html && truthy body = false ->
  respects eq (save_html_block E self d body id folder save_html).
Proof. intros H. unfold save_html_block. rewrite H. apply respects_ret, _. Qed.

Lemma save_text_block_file p body save_text :
  article_file E folder id "_article.txt" <> p ->
  respects (keeps_file p) (save_text_block E body id folder save_text).
Proof.
  intros Hne. unfold save_text_block. respects_tac.
  - by apply open_w_file.
  - by apply write_file.
Qed.

Lemma save_metadata_block_file p d :
  article_file E folder id "_metadata.json" <> p ->
  respects (keeps_file p) (save_metadata_block E d id folder).
Proof.
  intros Hne. unfold save_metadata_block. respects_tac.
  - by apply open_w_file.
  - apply (respects_weaken eq); [by intros ? ? ->|].
    apply extract_article_metadata_eq.
  - by apply write_file.
Qed.

(** What the text block leaves when it returns. *)
Lemma save_text_block_inr body st u st' :
  save_text_block E body id folder true st = (inr u, st') ->
  exists text, html_to_text E body st = (inr text, st)
    /\ files st' !! article_file E folder id "_article.txt" = Some text.
Proof.
  unfold save_text_block. intros H.
  apply bind_inr in H as (text & s1 & Ht & H).
  apply bind_inr in H as (u1 & s2 & Ho & H).
  apply write_inr in H as [Hf _].
  assert (s1 = st) as ->.
  { pose proof (respects_html_to_text eq E body st) as Hr. by rewrite Ht in Hr. }
  exists text. split; [done|]. rewrite Hf. apply lookup_insert_eq.
Qed.

Lemma download_article_content_fetched a dd st st1 save_pdf save_html save_text :
  dict_get a (lit "id") = Some id ->
  get_article_details E self id st = (inr (VDict dd), st1) ->
  dd <> [] ->
  download_article_content E self (VDict a) folder save_pdf save_html save_text st
  = try_except
      (save_blocks E self folder id (VDict dd) (description dd)
         save_pdf save_html save_text)
      any_exception (fun _ => ret (false, VNone)) st1.
Proof.
  intros Hid Hdet Hdd. unfold download_article_content, try_except.
  rewrite (bind_run _ _ st id st) by (simpl; by rewrite Hid).
  rewrite (bind_run _ _ st (VDict dd) st1 Hdet).
  destruct dd as [|kv dd]; [done|]. cbn [truthy negb].
  rewrite (bind_run _ _ st1 (description (kv :: dd)) st1) by reflexivity.
  reflexivity.
Qed.

End Materializer.

Lemma html_to_text_fst {S S'} E v (s : S) (s' : S') :
  fst (html_to_text E v s) = fst (html_to_text E v s').
Proof.
  unfold html_to_text. destruct (negb (truthy v)); [done|]. by destruct v.
Qed.


(** ** End-to-end scenario *)

(** What the run of the scenario returns and leaves. *)
Lemma scenario_summary :
  summary_of (fst scenario_run)
  = Some {| total_articles := 2; successful_articles := 1;
            total_attachments := 1; successful_attachments := 1;
            download_directory := lit "knowledge_base" |}.
Proof. vm_compute. reflexivity. Qed.

Lemma scenario_dirs : dirs (snd scenario_run) = list_to_set A_and_B_folders.
Proof. refine (bool_decide_eq_true_1 _ _). vm_compute. reflexivity. Qed.

Lemma scenario_files : dom (files (snd scenario_run)) = list_to_set A_files.
Proof. refine (bool_decide_eq_true_1 _ _). vm_compute. reflexivity. Qed.


(** ** Absent detail *)

(** C3, as stated, fails: in the scenario the detail of B is absent, yet the
    folder of B is one of the directories created, so that the directories
    are not those of A alone. *)
Lemma scenario_creates_folder_of_B :
  fst (get_article_details scenario_env kb (VInt 2) empty_world) = inr VNone
  /\ lit "knowledge_base/2_B" ∈ dirs (snd scenario_run)
  /\ dirs (snd scenario_run)
     <> list_to_set [ lit "knowledge_base"; lit "knowledge_base/1_A";
                      lit "knowledge_base/1_A/attachments" ].
Proof.
  split; [vm_compute; reflexivity|].
  assert (HB : lit "knowledge_base/2_B" ∈ dirs (snd scenario_run)).
  { rewrite scenario_dirs. refine (bool_decide_eq_true_1 _ _).
    vm_compute. reflexivity. }
  split; [exact HB|].
  intros Heq. rewrite Heq in HB. revert HB.
  refine (bool_decide_eq_false_1 _ _). vm_compute. reflexivity.
Qed.

(** What the folder of an article needs from the file system. *)

Lemma ancestors_from_last acc p : acc ++ p ∈ ancestors_from acc p.
Proof.
  revert acc. induction p as [|c p IH]; intros acc; simpl.
  - rewrite app_nil_r. left.
  - replace (acc ++ c :: p) with ((acc ++ [c]) ++ p) by (by rewrite <- app_assoc).
    destruct (c =? slash); [right|]; apply IH.
Qed.

Lemma ancestors_self p : p <> [] -> p ∈ ancestors p.
Proof.
  intros Hp. unfold ancestors. apply list_elem_of_filter. split; [done|].
  apply (ancestors_from_last [] p).
Qed.

Lemma makedirs_inr E path st u st' :
  makedirs E path st = (inr u, st') ->
  path <> []
  /\ st' = {| trace := trace st ++ [Makedirs path];
              dirs := dirs st ∪ list_to_set (ancestors path);
              files := files st |}.
Proof.
  unfold makedirs.
  destruct (fs_fault E (trace st) (Makedirs path)); [done|].
  case_bool_decide as Hp; [done|]. simpl.
  match goal with |- context [if ?b then _ else _] => destruct b end; [done|].
  by intros [= _ <-].
Qed.

Lemma path_join_nonempty a b : b <> [] -> path_join a b <> [].
Proof.
  intros Hb H. pose proof (path_join_last a b Hb) as Hl. rewrite H in Hl.
  simpl in Hl. symmetry in Hl. by apply last_None in Hl.
Qed.

Lemma create_article_folder_inr E article base st folder st' :
  create_article_folder E article base st = (inr folder, st') ->
  exists article_id title article_title,
    py_getitem article (lit "id") st = (inr article_id, st)
    /\ py_get article (lit "title") (VStr (lit "article_" ++ str E article_id)) st
       = (inr title, st)
    /\ sanitize_filename_val title st = (inr article_title, st)
    /\ folder = path_join base (str E article_id ++ lit "_" ++ article_title)
    /\ folder <> []
    /\ st' = {| trace := trace st ++ [Makedirs folder;
                                      Makedirs (path_join folder (lit "attachments"))];
                dirs := dirs st ∪ list_to_set (ancestors folder)
                          ∪ list_to_set (ancestors (path_join folder (lit "attachments")));
                files := files st |}.
Proof.
  unfold create_article_folder. intros H.
  apply bind_inr in H as (article_id & s1 & H1 & H).
  assert (s1 = st) as ->.
  { pose proof (respects_py_getitem eq article (lit "id") st) as Hr.
    by rewrite H1 in Hr. }
  apply bind_inr in H as (title & s2 & H2 & H).
  assert (s2 = st) as ->.
  { pose proof (respects_py_get eq article (lit "title")
                  (VStr (lit "article_" ++ str E article_id)) st) as Hr.
    by rewrite H2 in Hr. }
  apply bind_inr in H as (article_title & s3 & H3 & H).
  assert (s3 = st) as ->.
  { pose proof (respects_sanitize_filename_val eq title st) as Hr.
    by rewrite H3 in Hr. }
  apply bind_inr in H as ([] & s4 & H4 & H).
  apply bind_inr in H as ([] & s5 & H5 & H).
  injection H as <- <-.
  apply makedirs_inr in H4 as [Hne ->].
  apply makedirs_inr in H5 as [_ ->].
  exists article_id, title, article_title. repeat split; try done.
  cbn [trace dirs files]. by rewrite <- app_assoc.
Qed.

(** Creating the folder of an article touches no file and removes no
    directory, also when it fails half way. *)

#[global] Instance adds_dirs_preorder : PreOrder adds_dirs.
Proof.
  split.
  - by intros st.
  - intros a b c [Hf1 Hd1] [Hf2 Hd2]. split; [congruence | set_solver].
Qed.

Lemma makedirs_adds_dirs E path : respects adds_dirs (makedirs E path).
Proof.
  intros st. unfold makedirs.
  match goal with |- context [if ?b then _ else _] => destruct b end;
    split; simpl; set_solver.
Qed.

Lemma create_article_folder_adds_dirs E article base :
  respects adds_dirs (create_article_folder E article base).
Proof.
  unfold create_article_folder. respects_tac; apply makedirs_adds_dirs.
Qed.

Lemma bind_inl {S A B} (m : M S A) (k : A -> M S B) s e s1 :
  m s = (inl e, s1) -> bind m k s = (inl e, s1).
Proof. unfold bind. by intros ->. Qed.

Lemma zoom_run {L A} (m : M State A) (l : L) st r st' :
  m st = (r, st') -> zoom m (l, st) = (r, (l, st')).
Proof. unfold zoom. simpl. by intros ->. Qed.

(** The early return of [download_article_content]. *)
Lemma download_article_content_absent E self a id folder save_pdf save_html save_text st :
  dict_get a (lit "id") = Some id ->
  (forall d, fst (get_article_details E self id st) = inr d -> truthy d = false) ->
  fst (download_article_content E self (VDict a) folder save_pdf save_html save_text st)
  = inr (false, VNone)
  /\ keeps_fs st (snd (download_article_content E self (VDict a) folder
                         save_pdf save_html save_text st)).
Proof.
  intros Hid Habsent.
  pose proof (get_article_details_fs E self id st) as Hfs.
  unfold download_article_content, try_except.
  rewrite (bind_run _ _ st id st) by (simpl; by rewrite Hid).
  unfold bind.
  destruct (get_article_details E self id st) as [[e|d] s1]; simpl in *.
  - done.
  - rewrite (Habsent d eq_refl). simpl. done.
Qed.

(** One turn of the loop of the bulk download on a stub without detail. *)
Lemma process_article_absent E self base download_attachments save_pdf save_html
    save_text a id c st :
  dict_get a (lit "id") = Some id ->
  (forall s d, fst (get_article_details E self id s) = inr d -> truthy d = false) ->
  let run := process_article E self base download_attachments save_pdf save_html
               save_text (VDict a) (c, st) in
  fst run = inr (VDict a)
  /\ fst (snd run) = c
  /\ files (snd (snd run)) = files st
  /\ dirs st ⊆ dirs (snd (snd run))
  /\ forall folder_path,
       fst (create_article_folder E (VDict a) base st) = inr folder_path ->
       folder_path ∈ dirs (snd (snd run))
       /\ path_join folder_path (lit "attachments") ∈ dirs (snd (snd run)).
Proof.
  intros Hid Habsent run. subst run. unfold process_article.
  rewrite (bind_run _ _ (c, st) id (c, st)) by (simpl; by rewrite Hid).
  rewrite (bind_run _ _ (c, st) _ (c, st)) by reflexivity.
  unfold try_except.
  pose proof (create_article_folder_adds_dirs E (VDict a) base st) as [Hf Hd].
  destruct (create_article_folder E (VDict a) base st) as [[e|folder] st1] eqn:Hc;
    cbn [fst snd] in *.
  - rewrite (bind_inl _ _ (c, st) e (c, st1)) by (by apply zoom_run).
    cbn [any_exception ret fst snd]. repeat split; try done.
  - rewrite (bind_run _ _ (c, st) folder (c, st1)) by (by apply zoom_run).
    destruct (download_article_content_absent E self a id folder save_pdf save_html
                save_text st1 Hid (Habsent st1)) as [Hr [Hf2 Hd2]].
    destruct (download_article_content E self (VDict a) folder save_pdf save_html
                save_text st1) as [r st2] eqn:Hrun. cbn [fst snd] in *. subst r.
    rewrite (bind_run _ _ (c, st1) (false, VNone) (c, st2)) by (by apply zoom_run).
    cbn [ret fst snd].
    apply create_article_folder_inr in Hc as (_ & _ & _ & _ & _ & _ & _ & Hne & Hst1).
    assert (Hfolder : folder ∈ dirs st1).
    { rewrite Hst1. cbn [dirs].
      apply elem_of_union_l, elem_of_union_r, elem_of_list_to_set.
      by apply ancestors_self. }
    assert (Hsub : path_join folder (lit "attachments") ∈ dirs st1).
    { rewrite Hst1. cbn [dirs].
      apply elem_of_union_r, elem_of_list_to_set, ancestors_self.
      by apply path_join_nonempty. }
    repeat split.
    + congruence.
    + by rewrite Hd2.
    + injection H as <-. by rewrite Hd2.
    + injection H as <-. by rewrite Hd2.
Qed.

Lemma map_m_process_absent E self base download_attachments save_pdf save_html
    save_text (records : list (list (pystr * PyVal))) :
  Forall (fun a => exists id, dict_get a (lit "id") = Some id
                              /\ detail_absent E self id) records ->
  forall c st,
    let run := map_m (process_article E self base download_attachments save_pdf
                        save_html save_text) (map VDict records) (c, st) in
    fst run = inr (map VDict records)
    /\ fst (snd run) = c
    /\ files (snd (snd run)) = files st
    /\ dirs st ⊆ dirs (snd (snd run)).
Proof.
  induction 1 as [|a rest (id & Hid & Habsent) _ IH]; intros c st; cbn zeta.
  - simpl. done.
  - cbn [map map_m].
    destruct (process_article_absent E self base download_attachments save_pdf
                save_html save_text a id c st Hid Habsent) as (Hr & Hc & Hf & Hd & _).
    destruct (process_article E self base download_attachments save_pdf save_html
                save_text (VDict a) (c, st)) as [r [c1 st1]] eqn:Hp.
    cbn [fst snd] in *. subst r c1.
    rewrite (bind_run _ _ (c, st) (VDict a) (c, st1) Hp).
    destruct (IH c st1) as (Hr2 & Hc2 & Hf2 & Hd2).
    destruct (map_m _ (map VDict rest) (c, st1)) as [r2 [c2 st2]] eqn:Hm.
    cbn [fst snd] in *. subst r2 c2.
    rewrite (bind_run _ _ (c, st1) (map VDict rest) (c, st2) Hm).
    cbn [ret fst snd]. repeat split; [congruence | by etrans].
Qed.

(** C3, amended. When the fetch of the detail gives no detail (a false
    value or an exception), [download_article_content] reports failure and
    leaves all files and directories as they were.  For every stub with an
    id whose detail is absent, the turn of the loop of the bulk download
    leaves the stub and the counters as they were and writes no file, but it
    has created directories: whenever [create_article_folder] succeeds, the
    folder of the article and its attachments subfolder exist afterwards,
    because the loop creates them before the detail is fetched.  On a list
    of such stubs the bulk download returns a summary with no successful
    article and no attachment, and has written no file.  In the scenario
    the summary counts 2 articles, 1 successful (and 1 attachment,
    downloaded), the directories created are the base directory and the
    folders of both A and B, each with its attachments subfolder, and all
    files are those of A. *)
Theorem absent_detail_writes_no_file (E : Env) (self : Extractor)
    (a : list (list N * PyVal)) (id : PyVal) (folder : pystr)
    (save_pdf save_html save_text : bool) (st : State)
    (base : pystr) (download_attachments : bool) (c : Counters)
    (records : list (list (list N * PyVal))) :
  (dict_get a (lit "id") = Some id ->
   (forall d, fst (get_article_details E self id st) = inr d -> truthy d = false) ->
   let run := download_article_content E self (VDict a) folder
                save_pdf save_html save_text st in
   fst run = inr (false, VNone) /\ keeps_fs st (snd run))
  /\ (dict_get a (lit "id") = Some id ->
      detail_absent E self id ->
      let run := process_article E self base download_attachments
                   save_pdf save_html save_text (VDict a) (c, st) in
      fst run = inr (VDict a)
      /\ fst (snd run) = c
      /\ files (snd (snd run)) = files st
      /\ dirs st ⊆ dirs (snd (snd run))
      /\ forall folder_path,
           fst (create_article_folder E (VDict a) base st) = inr folder_path ->
           folder_path ∈ dirs (snd (snd run))
           /\ path_join folder_path (lit "attachments") ∈ dirs (snd (snd run)))
  /\ (Forall (fun a => exists id, dict_get a (lit "id") = Some id
                                  /\ detail_absent E self id) records ->
      let run := download_articles_and_attachments E self (map VDict records) base
                   download_attachments save_pdf save_html save_text st in
      fst run = inr ({| total_articles := Z.of_nat (length records);
                        successful_articles := 0;
                        total_attachments := 0;
                        successful_attachments := 0;
                        download_directory := base |}, map VDict records)
      /\ files (snd run) = files st
      /\ dirs st ⊆ dirs (snd run))
  /\ summary_of (fst scenario_run)
     = Some {| total_articles := 2; successful_articles := 1;
               total_attachments := 1; successful_attachments := 1;
               download_directory := lit "knowledge_base" |}
  /\ dirs (snd scenario_run) = list_to_set A_and_B_folders
  /\ dom (files (snd scenario_run)) = list_to_set A_files.
Proof.
  split; [intros Hid Habsent; by apply (download_article_content_absent E self a id)|].
  split; [intros Hid Habsent; by apply (process_article_absent E self _ _ _ _ _ a id)|].
  split; [|exact (conj scenario_summary (conj scenario_dirs scenario_files))].
  intros Hrec run. subst run. unfold download_articles_and_attachments.
  destruct (map_m_process_absent E self base download_attachments save_pdf save_html
              save_text records Hrec
              {| c_successful_articles := 0; c_total_attachments := 0;
                 c_successful_attachments := 0 |} st) as (Hr & Hc & Hf & Hd).
  destruct (map_m _ (map VDict records) _) as [r [c1 st1]].
  cbn [fst snd] in *. subst r c1. cbn [fst snd].
  by rewrite length_map.
Qed.

Lemma scenario_detail_B_absent : detail_absent scenario_env kb (VInt 2).
Proof. intros s d Hd. vm_compute in Hd. by injection Hd as <-. Qed.

(** The theorem on stub B of the scenario. *)
Lemma absent_detail_writes_no_file_witness :
  (let run := download_article_content scenario_env kb stub_B
                (lit "knowledge_base/2_B") true true true empty_world in
   fst run = inr (false, VNone) /\ keeps_fs empty_world (snd run))
  /\ (let run := process_article scenario_env kb (lit "knowledge_base")
                   true true true true stub_B
                   ({| c_successful_articles := 0; c_total_attachments := 0;
                       c_successful_attachments := 0 |}, empty_world) in
      fst run = inr stub_B
      /\ files (snd (snd run)) = files empty_world
      /\ lit "knowledge_base/2_B" ∈ dirs (snd (snd run))
      /\ path_join (lit "knowledge_base/2_B") (lit "attachments")
         ∈ dirs (snd (snd run))).
Proof.
  destruct (absent_detail_writes_no_file scenario_env kb
              [(lit "id", VInt 2); (lit "title", VStr (lit "B"))] (VInt 2)
              (lit "knowledge_base/2_B") true true true empty_world
              (lit "knowledge_base") true
              {| c_successful_articles := 0; c_total_attachments := 0;
                 c_successful_attachments := 0 |} [])
    as (H1 & H2 & _).
  split.
  - apply H1; [reflexivity|]. intros d Hd. vm_compute in Hd. by injection Hd as <-.
  - destruct (H2 eq_refl scenario_detail_B_absent) as (Hr & _ & Hf & _ & Hfolder).
    destruct (Hfolder (lit "knowledge_base/2_B")) as [Hd1 Hd2];
      [vm_compute; reflexivity|].
    repeat split; assumption.
Defined.

(** ** Counters of the bulk download *)

#[global] Instance counts_preorder : PreOrder (counts 0 0).
Proof.
  split.
  - intros s. unfold counts, grows. lia.
  - intros a b c. unfold counts, grows. lia.
Qed.

Lemma counts_bind {A B} n1 k1 n2 k2 (m : M (Counters * State) A)
    (f : A -> M (Counters * State) B) :
  (0 <= n2)%Z -> (0 <= k2)%Z ->
  respects (counts n1 k1) m -> (forall a, respects (counts n2 k2) (f a)) ->
  respects (counts (n1 + n2) (k1 + k2)) (bind m f).
Proof.
  intros Hn Hk Hm Hf s. unfold bind. specialize (Hm s).
  destruct (m s) as [[e|a] s1]; simpl in *.
  - revert Hm. unfold counts, grows. lia.
  - specialize (Hf a s1). revert Hm Hf. unfold counts, grows. lia.
Qed.

Lemma counts_weaken {A} n k n' k' (m : M (Counters * State) A) :
  (n <= n')%Z -> (k <= k')%Z -> respects (counts n k) m -> respects (counts n' k') m.
Proof.
  intros Hn Hk. apply respects_weaken. intros s s'. unfold counts, grows. lia.
Qed.

Lemma counts_try {A} n k (body : M (Counters * State) A) catches (a : A) :
  respects (counts n k) body ->
  respects (counts n k) (try_except body catches (fun _ => ret a)).
Proof. intros Hb s. rewrite try_except_state. apply Hb. Qed.

Lemma counts_zoom {A} (m : M State A) : respects (counts 0 0) (zoom m).
Proof.
  intros s. unfold zoom. destruct (m (snd s)) as [r st']. simpl.
  unfold counts, grows. simpl. lia.
Qed.

Lemma counts_bump_successful_articles :
  respects (counts 1 0) bump_successful_articles.
Proof. intros [c st]. unfold counts, grows. simpl. lia. Qed.

Lemma counts_bump_total_attachments :
  respects (counts 0 (-1)) bump_total_attachments.
Proof. intros [c st]. unfold counts, grows. simpl. lia. Qed.

Lemma counts_bump_successful_attachments :
  respects (counts 0 1) bump_successful_attachments.
Proof. intros [c st]. unfold counts, grows. simpl. lia. Qed.

#[global] Hint Resolve counts_zoom : respects.

Section BulkDownload.

Variable E : Env.
Variable self : Extractor.

Lemma counts_attachments_loop folder_path attachments :
  forall count, respects (counts 0 0) (attachments_loop E self folder_path attachments count).
Proof.
  induction attachments as [|att rest IH]; intros count; simpl.
  - apply respects_ret, _.
  - refine (respects_bind _ _ _ _ _); [apply respects_py_get, _ | intros att_id].
    refine (respects_bind _ _ _ _ _); [apply respects_py_get, _ | intros name].
    refine (respects_bind _ _ _ _ _);
      [apply respects_sanitize_filename_val, _ | intros att_name].
    change (counts 0 0) with (counts (0 + 0) (-1 + 1)).
    apply counts_bind; [lia | lia | apply counts_bump_total_attachments |].
    intros _. change (counts 0 1) with (counts (0 + 0) (0 + 1)).
    apply counts_bind; [lia | lia | apply counts_zoom |].
    intros [|].
    + change (counts 0 1) with (counts (0 + 0) (1 + 0)).
      apply counts_bind; [lia | lia | apply counts_bump_successful_attachments |].
      intros _. apply IH.
    + apply (counts_weaken 0 0); [lia | lia | apply IH].
Qed.

Lemma counts_process_article base download_attachments save_pdf save_html save_text
    article :
  respects (counts 1 0)
    (process_article E self base download_attachments save_pdf save_html save_text
       article).
Proof.
  unfold process_article.
  change (counts 1 0) with (counts (0 + 1) (0 + 0)).
  apply counts_bind; [lia | lia | apply respects_py_getitem, _ |]. intros article_id.
  change (counts 1 0) with (counts (0 + 1) (0 + 0)).
  apply counts_bind; [lia | lia | apply respects_py_get, _ |]. intros article_title.
  apply counts_try.
  change (counts 1 0) with (counts (0 + 1) (0 + 0)).
  apply counts_bind; [lia | lia | apply counts_zoom |]. intros folder_path.
  change (counts 1 0) with (counts (0 + 1) (0 + 0)).
  apply counts_bind; [lia | lia | apply counts_zoom |]. intros [ok detailed_article].
  destruct ok.
  - change (counts 1 0) with (counts (1 + 0) (0 + 0)).
    apply counts_bind; [lia | lia | apply counts_bump_successful_articles |].
    intros _. respects_tac. apply counts_attachments_loop.
  - apply (counts_weaken 0 0); [lia | lia | apply respects_ret, _].
Qed.

Lemma counts_map_m_process base download_attachments save_pdf save_html save_text
    articles :
  respects (counts (Z.of_nat (length articles)) 0)
    (map_m (process_article E self base download_attachments save_pdf save_html
              save_text) articles).
Proof.
  induction articles as [|article rest IH].
  - simpl. apply respects_ret, _.
  - cbn [map_m length].
    replace (Z.of_nat (S (length rest))) with (1 + Z.of_nat (length rest))%Z by lia.
    apply (counts_bind 1 0 (Z.of_nat (length rest)) 0);
      [lia | lia | apply counts_process_article |].
    intros article'.
    apply (counts_weaken (Z.of_nat (length rest) + 0) (0 + 0)); [lia | lia |].
    apply counts_bind; [lia | lia | exact IH |].
    intros articles'. apply respects_ret, _.
Qed.

End BulkDownload.

Lemma try_except_any_returns {S A} (body : M S A) (a : A) s :
  exists x s', try_except body any_exception (fun _ => ret a) s = (inr x, s').
Proof.
  unfold try_except. destruct (body s) as [[e|x] s1]; simpl; eauto.
Qed.

Lemma process_article_returns E self base download_attachments save_pdf save_html
    save_text article s :
  has_id article ->
  exists article' s',
    process_article E self base download_attachments save_pdf save_html save_text
      article s = (inr article', s').
Proof.
  intros (d & v & -> & Hid). unfold process_article.
  rewrite (bind_run _ _ s v s) by (simpl; by rewrite Hid).
  rewrite (bind_run _ _ s _ s) by reflexivity.
  apply try_except_any_returns.
Qed.

Lemma map_m_returns {S A B} (f : A -> M S B) (P : A -> Prop) xs :
  (forall x s, P x -> exists y s', f x s = (inr y, s')) ->
  Forall P xs ->
  forall s, exists ys s', map_m f xs s = (inr ys, s').
Proof.
  intros Hf HP. induction HP as [|x xs Hx _ IH]; intros s; simpl.
  - by exists [], s.
  - destruct (Hf x s Hx) as (y & s1 & Hy).
    destruct (IH s1) as (ys & s2 & Hys).
    exists (y :: ys), s2.
    rewrite (bind_run _ _ s y s1 Hy). by rewrite (bind_run _ _ s1 ys s2 Hys).
Qed.

(** C10. For every list of article stubs, in every environment (that is,
    whatever succeeds or fails for each article and each attachment), the
    bulk download returns a summary, in which [total_articles] is the length
    of the list, [successful_articles] lies between 0 and [total_articles],
    and [successful_attachments] between 0 and [total_attachments]. *)
Theorem run_summary_invariants (E : Env) (self : Extractor) (articles : list PyVal)
    (base_download_dir : pystr)
    (download_attachments save_pdf save_html save_text : bool) (st : State) :
  Forall has_id articles ->
  exists summary articles' st',
    download_articles_and_attachments E self articles base_download_dir
      download_attachments save_pdf save_html save_text st
    = (inr (summary, articles'), st')
    /\ total_articles summary = Z.of_nat (length articles)
    /\ (0 <= successful_articles summary <= total_articles summary)%Z
    /\ (0 <= successful_attachments summary <= total_attachments summary)%Z.
Proof.
  intros Hids. unfold download_articles_and_attachments.
  set (init := {| c_successful_articles := 0; c_total_attachments := 0;
                  c_successful_attachments := 0 |}).
  set (loop := map_m (process_article E self base_download_dir download_attachments
                        save_pdf save_html save_text) articles).
  destruct (map_m_returns
              (process_article E self base_download_dir download_attachments
                 save_pdf save_html save_text) has_id articles
              (fun x s => process_article_returns E self base_download_dir
                            download_attachments save_pdf save_html save_text x s)
              Hids (init, st)) as (articles' & [c st'] & Hrun).
  pose proof (counts_map_m_process E self base_download_dir download_attachments
                save_pdf save_html save_text articles (init, st)) as Hc.
  fold loop in Hrun, Hc. rewrite Hrun in Hc. rewrite Hrun.
  eexists _, articles', st'. split; [reflexivity|].
  unfold counts, grows in Hc. simpl in *. lia.
Qed.

(** The theorem on the two stubs of the scenario. *)
Lemma run_summary_invariants_witness :
  exists summary articles' st',
    download_articles_and_attachments scenario_env kb [stub_A; stub_B]
      (lit "knowledge_base") true true true true empty_world
    = (inr (summary, articles'), st')
    /\ total_articles summary = Z.of_nat (length [stub_A; stub_B])
    /\ (0 <= successful_articles summary <= total_articles summary)%Z
    /\ (0 <= successful_attachments summary <= total_attachments summary)%Z.
Proof.
  apply run_summary_invariants.
  repeat constructor; eexists _, _; (split; [reflexivity|]); reflexivity.
Defined.

(** ** CSV export *)

Lemma pystr_leb_total a b : pystr_leb a b = true \/ pystr_leb b a = true.
Proof.
  revert b. induction a as [|x a IH]; intros [|y b]; simpl; auto.
  destruct (IH b) as [H | H]; rewrite H;
    destruct (N.ltb_spec x y), (N.ltb_spec y x), (N.eqb_spec x y), (N.eqb_spec y x);
    simpl; auto; lia.
Qed.

Lemma pystr_leb_trans a b c :
  pystr_leb a b = true -> pystr_leb b c = true -> pystr_leb a c = true.
Proof.
  revert b c. induction a as [|x a IH]; intros [|y b] [|z c]; simpl; auto; try done.
  destruct (N.ltb_spec x y), (N.ltb_spec y z), (N.ltb_spec x z),
    (N.eqb_spec x y), (N.eqb_spec y z), (N.eqb_spec x z);
    simpl; auto; try lia; try done.
  apply IH.
Qed.

Lemma pystr_leb_antisym a b :
  pystr_leb a b = true -> pystr_leb b a = true -> a = b.
Proof.
  revert b. induction a as [|x a IH]; intros [|y b]; simpl; auto; try done.
  destruct (N.ltb_spec x y), (N.ltb_spec y x), (N.eqb_spec x y), (N.eqb_spec y x);
    simpl; try lia; try done.
  intros Hab Hba. subst. f_equal. by apply IH.
Qed.

#[global] Instance pystr_le_total : Total pystr_le.
Proof.
  intros a b. unfold pystr_le.
  destruct (pystr_leb_total a b) as [H | H]; rewrite H; simpl; auto.
Qed.

#[global] Instance pystr_le_trans : Transitive pystr_le.
Proof.
  intros a b c Hab Hbc. unfold pystr_le in *.
  apply Is_true_true in Hab, Hbc. apply Is_true_true.
  by apply (pystr_leb_trans a b c).
Qed.

#[global] Instance pystr_le_antisym : AntiSymm (=) pystr_le.
Proof.
  intros a b Hab Hba. unfold pystr_le in *.
  apply Is_true_true in Hab, Hba. by apply pystr_leb_antisym.
Qed.

Lemma sorted_elements_spec (X : gset (list N)) :
  StronglySorted pystr_le (sorted_elements X)
  /\ NoDup (sorted_elements X)
  /\ (forall k, k ∈ sorted_elements X <-> k ∈ X).
Proof.
  unfold sorted_elements. split; [apply StronglySorted_merge_sort; apply _|].
  split.
  - rewrite merge_sort_Permutation. apply NoDup_elements.
  - intros k. rewrite merge_sort_Permutation. apply elem_of_elements.
Qed.

Lemma dict_get_None (d : list (list N * PyVal)) k :
  dict_get d k = None <-> k ∉ dict_keys d.
Proof.
  unfold dict_keys. induction d as [|[k' v] d IH]; simpl.
  - split; [intros _; apply not_elem_of_nil | done].
  - case_bool_decide as Hk; subst.
    + split; [done|]. intros H. exfalso. apply H. left.
    + rewrite IH, not_elem_of_cons. split; [intros H; split; [congruence | done]|].
      by intros [_ H].
Qed.

Lemma collect_fieldnames_run {S : Type} (records : list (list (list N * PyVal)))
    (acc : gset (list N)) (s : S) :
  exists X, collect_fieldnames (map VDict records) acc s = (inr X, s)
    /\ forall k, k ∈ X <-> k ∈ acc \/ exists d, d ∈ records /\ k ∈ dict_keys d.
Proof.
  revert acc. induction records as [|d records IH]; intros acc; simpl.
  - exists acc. split; [done|]. intros k. split; [auto|].
    intros [H | (d & Hd & _)]; [done|]. by apply elem_of_nil in Hd.
  - destruct (IH (acc ∪ list_to_set (dict_keys d))) as (X & Hrun & HX).
    exists X. split; [exact Hrun|]. intros k. rewrite HX.
    rewrite elem_of_union, elem_of_list_to_set. split.
    + intros [[H | H] | (d' & Hd' & H)]; [by left | right | right].
      * exists d. split; [left | done].
      * exists d'. split; [by right | done].
    + intros [H | (d' & Hd' & H)]; [by left; left|].
      apply elem_of_cons in Hd' as [-> | Hd']; [by left; right|].
      right. by exists d'.
Qed.

Lemma map_m_py_get {S : Type} (d : list (list N * PyVal)) (ks : list (list N)) (s : S) :
  map_m (fun key => py_get (VDict d) key (VStr [])) ks s = (inr (map (cell d) ks), s).
Proof.
  induction ks as [|k ks IH]; [done|]. cbn [map_m map].
  rewrite (bind_run _ _ s (cell d k) s) by reflexivity.
  by rewrite (bind_run _ _ s _ s IH).
Qed.

Lemma dict_to_list_run {S : Type} fieldnames (d : list (list N * PyVal)) (s : S) :
  (forall k, k ∈ dict_keys d -> k ∈ fieldnames) ->
  dict_to_list fieldnames (VDict d) s = (inr (map (cell d) fieldnames), s).
Proof.
  intros Hk. unfold dict_to_list. unfold bind. simpl.
  replace (existsb _ (dict_keys d)) with false; [apply map_m_py_get|].
  symmetry. apply not_true_is_false. intros H.
  apply existsb_exists in H as (k & Hin & Hb).
  apply negb_true_iff, bool_decide_eq_false in Hb. apply Hb, Hk.
  by apply list_elem_of_In.
Qed.

Lemma map_m_dict_to_list {S : Type} fieldnames (records : list (list (list N * PyVal)))
    (s : S) :
  (forall d k, d ∈ records -> k ∈ dict_keys d -> k ∈ fieldnames) ->
  map_m (dict_to_list fieldnames) (map VDict records) s
  = (inr (map (fun d => map (cell d) fieldnames) records), s).
Proof.
  intros Hk. induction records as [|d records IH]; simpl; [done|].
  rewrite (bind_run _ _ s (map (cell d) fieldnames) s).
  - erewrite (bind_run _ _ s _ s); [done|]. apply IH.
    intros d' k Hd'. apply Hk. by right.
  - apply dict_to_list_run. intros k. apply Hk. left.
Qed.

Lemma open_w_run E path st :
  fs_fault E (trace st) (OpenW path) = false ->
  can_create st path = true ->
  open_w E path st
  = (inr tt, {| trace := trace st ++ [OpenW path];
                dirs := dirs st;
                files := <[path := []]> (files st) |}).
Proof. intros Hf Hc. unfold open_w. by rewrite Hf, Hc. Qed.

Lemma write_run E path data st :
  fs_fault E (trace st) (WriteFile path data) = false ->
  write E path data st
  = (inr tt, {| trace := trace st ++ [WriteFile path data];
                dirs := dirs st;
                files := <[path := data]> (files st) |}).
Proof. intros Hf. unfold write. by rewrite Hf. Qed.

Lemma csv_filename_run E filename st :
  (match filename with
   | Some f => if bool_decide (f = []) then
                 timestamp <- clock_strftime E (lit "%Y%m%d_%H%M%S") ;;
                 ret (lit "freshservice_kb_export_" ++ timestamp ++ lit ".csv")
               else ret f
   | None =>
       timestamp <- clock_strftime E (lit "%Y%m%d_%H%M%S") ;;
       ret (lit "freshservice_kb_export_" ++ timestamp ++ lit ".csv")
   end) st = (inr (csv_filename E st filename), st).
Proof.
  unfold csv_filename. destruct filename as [f|]; [case_bool_decide|]; reflexivity.
Qed.

(** C9. For every non-empty list of records, whatever their key sets, the
    CSV export hands to the CSV writer a header row that is the sorted,
    duplicate-free list of exactly the field names that occur in some
    record, followed by one row per record that has, in each column, the
    value of the field, and the empty string where the record has no such
    field. *)
Theorem export_to_csv_header_and_rows (E : Env)
    (records : list (list (list N * PyVal))) (filename : option (list N))
    (st : State) :
  records <> [] ->
  (forall history op, fs_fault E history op = false) ->
  can_create st (csv_filename E st filename) = true ->
  exists fieldnames st',
    export_to_csv E (map VDict records) filename st
    = (inr (csv_filename E st filename), st')
    /\ StronglySorted pystr_le fieldnames
    /\ NoDup fieldnames
    /\ (forall k, k ∈ fieldnames <-> exists d, d ∈ records /\ k ∈ dict_keys d)
    /\ files st' !! csv_filename E st filename
       = Some (csv_text E (map VStr fieldnames
                           :: map (fun d => map (cell d) fieldnames) records))
    /\ (forall d k, k ∉ dict_keys d -> cell d k = VStr []).
Proof.
  intros Hne Hfault Hcreate.
  set (name := csv_filename E st filename) in *.
  destruct records as [|d0 rest]; [done|].
  destruct (collect_fieldnames_run (S := State) (d0 :: rest) ∅ st)
    as (X & HX & HXspec).
  destruct (sorted_elements_spec X) as (Hsorted & Hnodup & Hmem).
  assert (Hfields : forall k, k ∈ sorted_elements X
                              <-> exists d, d ∈ d0 :: rest /\ k ∈ dict_keys d).
  { intros k. rewrite Hmem, HXspec. split; [|auto].
    intros [H | H]; [|done]. by apply not_elem_of_empty in H. }
  exists (sorted_elements X). eexists. split; [|split; [exact Hsorted|]].
  - unfold export_to_csv.
    rewrite (bind_run _ _ st name st (csv_filename_run E filename st)).
    change (map VDict (d0 :: rest)) with (VDict d0 :: map VDict rest).
    cbv iota.
    change (VDict d0 :: map VDict rest) with (map VDict (d0 :: rest)).
    rewrite (bind_run _ _ st X st HX).
    erewrite bind_run by (apply open_w_run; [apply Hfault | exact Hcreate]).
    erewrite bind_run by (apply write_run; apply Hfault).
    erewrite bind_run
      by (apply map_m_dict_to_list; intros d k Hd Hk; apply Hfields; eauto).
    erewrite bind_run by (apply write_run; apply Hfault).
    reflexivity.
  - split; [exact Hnodup|]. split; [exact Hfields|]. split.
    + cbn [files]. apply lookup_insert_eq.
    + intros d k Hk. unfold cell. apply dict_get_None in Hk. by rewrite Hk.
Qed.

(** The header and the rows of the three records. *)
Lemma three_records_header :
  match fst (collect_fieldnames (S := unit) (map VDict three_records) ∅ tt) with
  | inr fieldnames => sorted_elements fieldnames
  | inl _ => []
  end = [lit "id"; lit "tags"; lit "title"].
Proof. vm_compute. reflexivity. Qed.

Lemma three_records_rows :
  map (fun d => map (cell d) [lit "id"; lit "tags"; lit "title"]) three_records
  = [ [VInt 1; VStr []; VStr (lit "a")];
      [VInt 2; VStr (lit "x"); VStr (lit "b")];
      [VInt 3; VStr []; VStr (lit "c")] ].
Proof. vm_compute. reflexivity. Qed.

(** The theorem on the three records. *)
Lemma export_to_csv_header_and_rows_witness :
  exists fieldnames st',
    export_to_csv scenario_env (map VDict three_records) (Some (lit "export.csv"))
      empty_world
    = (inr (csv_filename scenario_env empty_world (Some (lit "export.csv"))), st')
    /\ StronglySorted pystr_le fieldnames
    /\ NoDup fieldnames
    /\ (forall k,
          k ∈ fieldnames <-> exists d, d ∈ three_records /\ k ∈ dict_keys d)
    /\ files st' !! csv_filename scenario_env empty_world (Some (lit "export.csv"))
       = Some (csv_text scenario_env
                 (map VStr fieldnames
                  :: map (fun d => map (cell d) fieldnames) three_records))
    /\ (forall d k, k ∉ dict_keys d -> cell d k = VStr []).
Proof.
  apply export_to_csv_header_and_rows.
  - discriminate.
  - intros history op. reflexivity.
  - vm_compute. reflexivity.
Defined.

(** * Further properties *)

(** ** Strings *)

(** X1. The loop of replacements acts on each character by itself: the
    sanitized name is the stripped input, each reserved character replaced by
    an underscore, cut at 250 characters.  Its length is the smaller of 250
    and the length of the stripped input. *)
Theorem sanitize_filename_pointwise (s : pystr) :
  sanitize_filename s
  = take 250 (map (fun c => if bool_decide (c ∈ invalid_chars) then 95 else c)
                (strip s))
  /\ length (sanitize_filename s) = (length (strip s) `min` 250)%nat.
Proof.
  split; [apply sanitize_filename_spec|].
  rewrite sanitize_filename_spec, length_take, length_map. lia.
Qed.

(** X2. A name that is already safe (no reserved character, no white space
    at either end, at most 250 characters) is returned as it is. *)
Theorem sanitize_filename_safe_name_unchanged (s : pystr) :
  (forall c, c ∈ s -> c ∉ invalid_chars) ->
  (forall c, head s = Some c -> is_space c = false) ->
  ends_with_space s = false ->
  (length s <= 250)%nat ->
  sanitize_filename s = s.
Proof.
  intros Hvalid Hhead Hlast Hlen.
  assert (Hstrip : strip s = s).
  { unfold strip, lstrip. rewrite drop_while_fixed; [by apply rstrip_fixed|].
    destruct s as [|c s]; [done|]. by apply Hhead. }
  rewrite sanitize_filename_spec, Hstrip.
  rewrite take_ge by (by rewrite length_map).
  rewrite <- (map_id s) at 2. apply map_ext_in. intros c Hc.
  apply clean_id, Hvalid. by apply list_elem_of_In.
Qed.

Lemma sanitize_filename_safe_name_unchanged_witness :
  sanitize_filename (lit "release notes v2.txt") = lit "release notes v2.txt".
Proof.
  apply sanitize_filename_safe_name_unchanged.
  - intros c Hc. refine (bool_decide_eq_false_1 _ _). revert c Hc.
    refine (proj1 (Forall_forall _ _) _).
    refine (bool_decide_eq_true_1 _ _). vm_compute. reflexivity.
  - intros c [= <-]. reflexivity.
  - reflexivity.
  - vm_compute. lia.
Defined.

Lemma elem_of_replace_chr old new s c :
  c ∈ replace_chr old new s -> c ∈ new \/ (c ∈ s /\ c <> old).
Proof.
  unfold replace_chr. induction s as [|x s IH]; simpl.
  - intros H. by apply elem_of_nil in H.
  - rewrite elem_of_app. intros [H | H].
    + destruct (N.eqb_spec x old) as [-> | Hne]; [by left|].
      apply list_elem_of_singleton in H as ->. right. split; [left | done].
    + destruct (IH H) as [? | [? ?]]; [by left|]. right. split; [by right | done].
Qed.

(** X3. The escaped form of a string has no angle bracket and no quote, and
    escaping anything that is not a string raises [AttributeError]. *)
Theorem html_escape_no_markup {S : Type} (v : PyVal) (st : S) :
  match v with
  | VStr s =>
      exists out, html_escape v st = (inr out, st)
        /\ forall c, c ∈ out -> c <> 60 /\ c <> 62 /\ c <> 34 /\ c <> 39
  | _ => html_escape v st = (inl AttributeError, st)
  end.
Proof.
  destruct v as [| | |s| |]; try reflexivity.
  eexists. split; [reflexivity|]. intros c Hc.
  repeat (apply elem_of_replace_chr in Hc as [Hc | [Hc ?]];
          [vm_compute in Hc; set_unfold in Hc;
           repeat (destruct Hc as [-> | Hc]; [repeat split; discriminate|]); done|]).
  repeat split; assumption.
Qed.

Lemma strip_trimmed (t : pystr) :
  (forall c, head (strip t) = Some c -> is_space c = false)
  /\ ends_with_space (strip t) = false.
Proof.
  split.
  - intros c Hc. destruct (strip t) as [|x r] eqn:Hs; [done|].
    injection Hc as ->. by apply (strip_head t c r).
  - unfold ends_with_space. destruct (last (strip t)) as [c|] eqn:Hl; [|done].
    by apply (strip_last t).
Qed.

(** X4. Whatever the markup, the plain text that [html_to_text] returns has
    no white space at its start nor at its end, and the conversion leaves
    the world as it is. *)
Theorem html_to_text_trimmed (E : Env) (v : PyVal) (st st' : State) (out : pystr) :
  html_to_text E v st = (inr out, st') ->
  st' = st
  /\ (forall c, head out = Some c -> is_space c = false)
  /\ ends_with_space out = false.
Proof.
  unfold html_to_text. destruct (negb (truthy v)).
  - intros [= <- <-]. done.
  - destruct v as [| | |s| |]; try done. intros [= <- <-].
    split; [done|]. apply strip_trimmed.
Qed.

Lemma html_to_text_trimmed_witness :
  ends_with_space (lit "Title" ++ [newline; newline] ++ lit "Body") = false.
Proof.
  refine (proj2 (proj2 (html_to_text_trimmed scenario_env
                          (VStr (lit "  <p>Title</p> <p>Body</p>  "))
                          empty_world empty_world _ _))).
  vm_compute. reflexivity.
Defined.

Lemma plain_not_space s : plain s -> Forall (fun c => is_space c = false) s.
Proof.
  apply plain_Forall. intros c Hc. by apply plain_char_inv in Hc as (_ & _ & ?).
Qed.

Lemma plain_strip s : plain s -> strip s = s.
Proof.
  intros Hp. pose proof (plain_not_space s Hp) as Hs.
  unfold strip, lstrip. rewrite drop_while_fixed.
  - apply rstrip_fixed. unfold ends_with_space.
    destruct (last s) as [c|] eqn:Hl; [|done].
    apply last_Some_elem_of in Hl. rewrite Forall_forall in Hs. by apply Hs.
  - destruct s as [|c s]; [done|]. by apply Forall_cons in Hs as [? _].
Qed.

(** X5. A text without angle bracket, ampersand and white space is its own
    plain text. *)
Theorem html_to_text_plain_unchanged (charrefs : pystr -> pystr) (s : pystr) :
  plain s -> html_to_text_str charrefs s = s.
Proof.
  intros Hp. unfold html_to_text_str.
  assert (Hclass : forall p : N -> bool,
             (forall c, plain_char c = true -> p c = false) ->
             Forall (fun c => p c = false) s)
    by (intros p Hc; by apply plain_Forall).
  rewrite fold_replacements_unchanged.
  2: { unfold replacements. repeat constructor. }
  2: { apply (plain_Forall _ s); [|done]. intros c Hc.
       by apply plain_char_inv in Hc as (? & _). }
  rewrite (re_sub_unchanged [chr_is 60; Plus (fun x => negb (x =? 62)); chr_is 62] []
             (fun x => x =? 60)); [|reflexivity|].
  2: { apply Hclass. intros c Hc. apply plain_char_inv in Hc as (? & _).
       by apply N.eqb_neq. }
  unfold html_unescape.
  replace (existsb (fun c => c =? 38) s) with false.
  2: { symmetry. apply not_true_is_false. intros H.
       apply existsb_exists in H as (c & Hin & Hc).
       unfold plain in Hp. rewrite Forall_forall in Hp.
       apply list_elem_of_In in Hin.
       apply Hp, plain_char_inv in Hin as (_ & H38 & _).
       by apply N.eqb_eq in Hc. }
  rewrite (re_sub_unchanged [chr_is newline; Star is_space; chr_is newline] _
             (fun x => x =? newline)); [|reflexivity|].
  2: { apply Hclass. intros c Hc. apply plain_char_inv in Hc as (_ & _ & Hc).
       destruct (not_space_inv c Hc) as (? & _). by apply N.eqb_neq. }
  rewrite (re_sub_unchanged _ _ (fun x => (x =? 32) || (x =? 9))); [|reflexivity|].
  2: { apply Hclass. intros c Hc. apply plain_char_inv in Hc as (_ & _ & Hc).
       destruct (not_space_inv c Hc) as (_ & H32 & H9).
       apply N.eqb_neq in H32, H9. by rewrite H32, H9. }
  by apply plain_strip.
Qed.

Lemma html_to_text_plain_unchanged_witness :
  html_to_text_str (fun s => s) (lit "Troubleshooting") = lit "Troubleshooting".
Proof.
  apply html_to_text_plain_unchanged.
  refine (bool_decide_eq_true_1 _ _). vm_compute. reflexivity.
Defined.

(** ** Names and paths *)

Lemma lit_inj (s1 s2 : string) : lit s1 = lit s2 -> s1 = s2.
Proof.
  unfold lit. intros H.
  rewrite <- (string_of_list_ascii_of_string s1), <- (string_of_list_ascii_of_string s2).
  f_equal. revert H.
  generalize (list_ascii_of_string s1) (list_ascii_of_string s2).
  intros l1. induction l1 as [|a l1 IH]; intros [|b l2]; simpl; try done.
  intros [= Hab Hl]. f_equal; [|by apply IH].
  rewrite <- (ascii_N_embedding a), <- (ascii_N_embedding b). by rewrite Hab.
Qed.

Lemma str_of_Z_inj (z1 z2 : Z) : str_of_Z z1 = str_of_Z z2 -> z1 = z2.
Proof.
  unfold str_of_Z. intros H. apply lit_inj in H.
  assert (Hnn : forall z, Z.to_int z <> Decimal.Pos Decimal.Nil
                          /\ Z.to_int z <> Decimal.Neg Decimal.Nil).
  { intros [|p|p]; simpl; split; try discriminate;
      intros [= Hp]; by apply DecimalPos.Unsigned.to_uint_nonnil in Hp. }
  apply DecimalZ.to_int_inj.
  assert (Some (Z.to_int z1) = Some (Z.to_int z2)) as [= ->]; [|done].
  rewrite <- (NilZero.isi (Z.to_int z1)), <- (NilZero.isi (Z.to_int z2));
    try apply Hnn. by rewrite H.
Qed.

(** The decimal form of an integer is made of digits and a minus sign. *)
Lemma str_of_Z_chars (z : Z) (c : N) :
  c ∈ str_of_Z z -> (48 <= c <= 57) \/ c = 45.
Proof.
  unfold str_of_Z.
  assert (Hu : forall d, c ∈ lit (NilEmpty.string_of_uint d) -> 48 <= c <= 57).
  { induction d; unfold lit; simpl; intros H;
      try (by apply elem_of_nil in H);
      (apply elem_of_cons in H as [-> | H]; [vm_compute; split; discriminate|]);
      by apply IHd. }
  assert (Hz : forall d, c ∈ lit (NilZero.string_of_uint d) -> 48 <= c <= 57).
  { intros d. destruct d; try apply Hu.
    unfold lit. simpl. intros H. apply list_elem_of_singleton in H as ->.
    vm_compute. split; discriminate. }
  destruct (Z.to_int z) as [d|d].
  - intros H. left. exact (Hz d H).
  - unfold NilZero.string_of_int.
    change (lit (String "-" (NilZero.string_of_uint d)))
      with (45 :: lit (NilZero.string_of_uint d)).
    intros H. apply elem_of_cons in H as [-> | H]; [by right|].
    left. exact (Hz d H).
Qed.

Lemma str_of_Z_nonempty (z : Z) : str_of_Z z <> [].
Proof.
  unfold str_of_Z. intros H. change [] with (lit EmptyString) in H.
  apply lit_inj in H.
  destruct (Z.to_int z) as [d|d]; [by destruct d | discriminate H].
Qed.

(** Two texts that agree after a separator which neither head contains
    agree on the heads and on the tails. *)
Lemma split_at_separator (sep : N) (x y a b : pystr) :
  sep ∉ x -> sep ∉ y -> x ++ sep :: a = y ++ sep :: b -> x = y /\ a = b.
Proof.
  revert y. induction x as [|c x IH]; intros [|d y] Hx Hy; simpl.
  - by intros [= ->].
  - intros [= <- _]. exfalso. apply Hy. left.
  - intros [= -> _]. exfalso. apply Hx. left.
  - intros [= -> H]. apply not_elem_of_cons in Hx as [_ Hx].
    apply not_elem_of_cons in Hy as [_ Hy].
    destruct (IH y Hx Hy H) as [-> ->]. done.
Qed.

Lemma path_join_relative (a b : pystr) :
  startswith [slash] b = false ->
  path_join a b = match last a with
                  | None => b
                  | Some c => if c =? slash then a ++ b else a ++ [slash] ++ b
                  end.
Proof. intros H. unfold path_join. by rewrite H. Qed.

Lemma attachment_filename_relative E (z : Z) (name : pystr) :
  startswith [slash] (attachment_filename E (VInt z) name) = false.
Proof.
  unfold attachment_filename, str. simpl.
  pose proof (str_of_Z_nonempty z) as Hne.
  pose proof (str_of_Z_chars z) as Hch.
  destruct (str_of_Z z) as [|c r]; [done|].
  specialize (Hch c (list_elem_of_here _ _)). simpl.
  destruct c as [|q]; [done|].
  destruct (Pos.eqb_spec 47 q) as [<- | ?]; [lia | done].
Qed.

(** X6. In one directory, two attachments get the same destination only if
    they have the same numeric id and the same sanitized name: distinct ids
    never collide, whatever the names. *)
Theorem attachment_paths_distinct (E : Env) (dir : pystr) (i j : Z)
    (name1 name2 : pystr) :
  path_join dir (attachment_filename E (VInt i) name1)
  = path_join dir (attachment_filename E (VInt j) name2) ->
  i = j /\ name1 = name2.
Proof.
  rewrite !path_join_relative by apply attachment_filename_relative.
  intros H.
  assert (Hf : attachment_filename E (VInt i) name1
               = attachment_filename E (VInt j) name2).
  { destruct (last dir) as [c|]; [|done].
    destruct (c =? slash); apply app_inv_head in H; [done|].
    by apply (app_inv_head [slash]) in H. }
  unfold attachment_filename in Hf. simpl in Hf.
  change (lit "_") with [95] in Hf. simpl in Hf.
  apply split_at_separator in Hf as [Hi Hn].
  - split; [by apply str_of_Z_inj | done].
  - intros Hc. apply str_of_Z_chars in Hc. lia.
  - intros Hc. apply str_of_Z_chars in Hc. lia.
Qed.

Lemma attachment_paths_distinct_witness :
  1%Z = 1%Z /\ lit "a.txt" = lit "a.txt".
Proof.
  apply (attachment_paths_distinct scenario_env (lit "knowledge_base/1_A/attachments")
           1 1 (lit "a.txt") (lit "a.txt")).
  reflexivity.
Defined.

(** The destination of an attachment in the bulk download is
    [attachments/<id>_<name>] under the folder of the article. *)
Lemma attachments_loop_destination E self folder_path att rest count :
  attachments_loop E self folder_path (att :: rest) count
  = (att_id <- py_get att (lit "id") VNone ;;
     name <- py_get att (lit "name") (VStr (lit "unknown")) ;;
     att_name <- sanitize_filename_val name ;;
     bump_total_attachments ;;;
     ok <- zoom (download_attachment E self att
                   (path_join (path_join folder_path (lit "attachments"))
                      (attachment_filename E att_id att_name))) ;;
     if ok then
       bump_successful_attachments ;;;
       attachments_loop E self folder_path rest (count + 1)
     else attachments_loop E self folder_path rest count).
Proof. reflexivity. Qed.

(** ** API client *)

Lemma validate_connection_run E self st :
  validate_connection E self st
  = (inr (match http E (trace st) (Get (base_url self ++ lit "/agents/me") (headers self) []) with
          | Some r => (status_code r =? 200)%Z
          | None => false
          end),
     add_trace [Get (base_url self ++ lit "/agents/me") (headers self) []] st).
Proof.
  unfold validate_connection, try_except, bind, requests_get.
  destruct (http E (trace st) _) as [r|]; [|reflexivity].
  destruct (status_code r =? 200)%Z; [reflexivity|].
  by destruct (status_code r =? 403)%Z.
Qed.

(** X7. The connection check never raises and makes exactly one request,
    to [/agents/me]; it answers [True] exactly when that request got a
    response of status 200.  A transport failure, like any other status, gives
    [False]. *)
Theorem validate_connection_total (E : Env) (self : Extractor) (st : State) :
  let probe := Get (base_url self ++ lit "/agents/me") (headers self) [] in
  exists ok,
    validate_connection E self st = (inr ok, add_trace [probe] st)
    /\ (ok = true <-> exists r, http E (trace st) probe = Some r
                                /\ status_code r = 200%Z).
Proof.
  intros probe. rewrite validate_connection_run. fold probe.
  eexists. split; [reflexivity|].
  destruct (http E (trace st) probe) as [r|].
  - split.
    + intros H. exists r. split; [done|]. by apply Z.eqb_eq.
    + intros (r' & [= <-] & H). by apply Z.eqb_eq.
  - split; [done|]. by intros (r' & [=] & _).
Qed.

Lemma get_article_details_failure_run E self article_id st :
  (http E (trace st) (detail_request E self article_id) = None
   \/ exists r, http E (trace st) (detail_request E self article_id) = Some r
                /\ status_code r <> 200%Z) ->
  get_article_details E self article_id st
  = (inr VNone, add_trace [detail_request E self article_id] st).
Proof.
  intros H. unfold get_article_details, try_except, bind, requests_get.
  fold (detail_request E self article_id).
  destruct H as [-> | (r & -> & Hs)]; [reflexivity|].
  apply Z.eqb_neq in Hs. by rewrite Hs.
Qed.

(** X8. When the request of the detail fails in transport, or is answered
    by a status other than 200, [get_article_details] returns [None]; it has
    made that one request and nothing else. *)
Theorem get_article_details_failure_is_None (E : Env) (self : Extractor)
    (article_id : PyVal) (st : State) :
  (http E (trace st) (detail_request E self article_id) = None
   \/ exists r, http E (trace st) (detail_request E self article_id) = Some r
                /\ status_code r <> 200%Z) ->
  get_article_details E self article_id st
  = (inr VNone, add_trace [detail_request E self article_id] st).
Proof.
  intros [H | (r & Hr & Hs)]; apply get_article_details_failure_run.
  - by left.
  - right. by exists r.
Qed.

Lemma get_article_details_failure_is_None_witness :
  get_article_details scenario_env kb (VInt 2) empty_world
  = (inr VNone, add_trace [detail_request scenario_env kb (VInt 2)] empty_world).
Proof.
  apply get_article_details_failure_is_None.
  right. eexists. split; [reflexivity|]. vm_compute. discriminate.
Defined.

(** X9. What escapes [get_article_details]: only a response of status 200
    can make it raise, either by a body that is not JSON, when the installed
    [requests] does not count the decoding error as a [RequestException], or
    by a JSON body that is not an object ([AttributeError]). *)
Theorem get_article_details_escapes (E : Env) (self : Extractor)
    (article_id : PyVal) (st st' : State) (e : Exc) :
  get_article_details E self article_id st = (inl e, st') ->
  st' = add_trace [detail_request E self article_id] st
  /\ exists r, http E (trace st) (detail_request E self article_id) = Some r
     /\ status_code r = 200%Z
     /\ ((e = JSONDecodeError /\ json_body r = None
          /\ json_error_is_request_exception E = false)
         \/ (e = AttributeError
             /\ exists j, json_body r = Some j /\ forall d, j <> VDict d)).
Proof.
  unfold get_article_details, try_except, bind, requests_get.
  fold (detail_request E self article_id).
  destruct (http E (trace st) _) as [r|]; [|done].
  destruct (Z.eqb_spec (status_code r) 200) as [Hs|Hs]; [|done].
  unfold response_json. destruct (json_body r) as [j|] eqn:Hj.
  - destruct j; simpl; try done;
      intros [= <- <-]; (split; [done|]); exists r; repeat split; try done;
      right; (split; [done|]); eexists; (split; [done|]); done.
  - simpl. destruct (json_error_is_request_exception E) eqn:HE; [done|].
    intros [= <- <-]. split; [done|]. exists r. repeat split; try done. by left.
Qed.

Lemma get_article_details_escapes_witness :
  let E := old_requests (fun _ _ => Some {| status_code := 200; json_body := None; content := [] |}) in
  add_trace [detail_request E kb (VInt 1)] empty_world
  = add_trace [detail_request E kb (VInt 1)] empty_world
  /\ exists r, http E (trace empty_world) (detail_request E kb (VInt 1)) = Some r
     /\ status_code r = 200%Z
     /\ ((JSONDecodeError = JSONDecodeError /\ json_body r = None
          /\ json_error_is_request_exception E = false)
         \/ (JSONDecodeError = AttributeError
             /\ exists j, json_body r = Some j /\ forall d, j <> VDict d)).
Proof.
  intros E.
  apply (get_article_details_escapes E kb (VInt 1) empty_world).
  reflexivity.
Defined.

Section PaginationErrors.

Variable E : Env.
Variable self : Extractor.
Variables folder_id category_id : PyVal.

Lemma get_articles_loop_full (pages : nat -> list PyVal) (m : nat) :
  forall (p : nat) (acc : list PyVal) (st : State) (fuel : nat),
    (forall i, (p <= i < p + m)%nat -> serves E self folder_id category_id pages i) ->
    (forall i, (p <= i < p + m)%nat -> length (pages i) = 100%nat) ->
    get_articles_loop E self (m + fuel) folder_id category_id acc (Z.of_nat p) st
    = get_articles_loop E self fuel folder_id category_id
        (acc ++ concat (map pages (seq p m))) (Z.of_nat (p + m))
        (add_trace (map (page_request self folder_id category_id) (seq p m)) st).
Proof.
  induction m as [|m IH]; intros p acc st fuel Hserve Hfull.
  - simpl. rewrite app_nil_r, add_trace_nil. by replace (p + 0)%nat with p by lia.
  - change (S m + fuel)%nat with (S (m + fuel)).
    rewrite (get_articles_loop_step E self folder_id category_id pages)
      by (apply Hserve; lia).
    rewrite (Hfull p) by lia. change (Z.of_nat 100 <? 100)%Z with false.
    cbv iota. replace (Z.of_nat p + 1)%Z with (Z.of_nat (S p)) by lia.
    rewrite (IH (S p)).
    + rewrite add_trace_app, <- app_assoc.
      by replace (S p + m)%nat with (p + S m)%nat by lia.
    + intros i Hi. apply Hserve. lia.
    + intros i Hi. apply Hfull. lia.
Qed.

End PaginationErrors.

(** X10. A page that is answered by a status other than 200 ends the
    listing without an error: after [k] full pages, [get_articles] returns
    the articles of those [k] pages, and the failed request is its last. *)
Theorem get_articles_error_page_truncates (E : Env) (self : Extractor)
    (folder_id category_id : PyVal) (pages : nat -> list PyVal) (k fuel : nat)
    (st : State) (r : Response) :
  (forall i, (1 <= i <= k)%nat -> serves E self folder_id category_id pages i) ->
  (forall i, (1 <= i <= k)%nat -> length (pages i) = 100%nat) ->
  http E (trace st ++ map (page_request self folder_id category_id) (seq 1 k))
    (page_request self folder_id category_id (S k)) = Some r ->
  status_code r <> 200%Z ->
  (k < fuel)%nat ->
  get_articles E self fuel folder_id category_id st
  = (inr (Some (concat (map pages (seq 1 k)))),
     add_trace (map (page_request self folder_id category_id) (seq 1 (S k))) st).
Proof.
  intros Hserve Hfull Hr Hs Hfuel. unfold get_articles.
  replace fuel with (k + S (fuel - S k))%nat by lia.
  change 1%Z with (Z.of_nat 1).
  rewrite (get_articles_loop_full E self folder_id category_id pages k 1)
    by (intros i Hi; first [apply Hserve | apply Hfull]; lia).
  cbn [get_articles_loop]. unfold bind, requests_get.
  fold (page_request self folder_id category_id (1 + k)).
  cbn [trace add_trace]. change (1 + k)%nat with (S k). rewrite Hr.
  apply Z.eqb_neq in Hs. rewrite Hs.
  rewrite seq_S, map_app. unfold add_trace, record. simpl.
  rewrite <- app_assoc. by destruct (status_code r =? 403)%Z.
Qed.

Lemma get_articles_error_page_truncates_witness :
  get_articles (plain_env (page_then (Some server_error))) kb 2 (VInt 5) VNone empty_world
  = (inr (Some (concat (map two_pages (seq 1 1)))),
     add_trace (map (page_request kb (VInt 5) VNone) (seq 1 2)) empty_world).
Proof.
  apply (get_articles_error_page_truncates
           (plain_env (page_then (Some server_error))) kb (VInt 5) VNone two_pages 1 2
           empty_world server_error).
  - intros i Hi history. assert (i = 1)%nat as -> by lia.
    eexists; eexists; repeat split; reflexivity.
  - intros i Hi. assert (i = 1)%nat as -> by lia. reflexivity.
  - reflexivity.
  - vm_compute. discriminate.
  - lia.
Defined.

(** X11. [get_articles] has no handler of its own: when the request of a
    page fails in transport after [k] full pages, [RequestException] is
    raised and the articles of the [k] pages are not returned. *)
Theorem get_articles_transport_failure_loses_pages (E : Env) (self : Extractor)
    (folder_id category_id : PyVal) (pages : nat -> list PyVal) (k fuel : nat)
    (st : State) :
  (forall i, (1 <= i <= k)%nat -> serves E self folder_id category_id pages i) ->
  (forall i, (1 <= i <= k)%nat -> length (pages i) = 100%nat) ->
  http E (trace st ++ map (page_request self folder_id category_id) (seq 1 k))
    (page_request self folder_id category_id (S k)) = None ->
  (k < fuel)%nat ->
  get_articles E self fuel folder_id category_id st
  = (inl RequestException,
     add_trace (map (page_request self folder_id category_id) (seq 1 (S k))) st).
Proof.
  intros Hserve Hfull Hr Hfuel. unfold get_articles.
  replace fuel with (k + S (fuel - S k))%nat by lia.
  change 1%Z with (Z.of_nat 1).
  rewrite (get_articles_loop_full E self folder_id category_id pages k 1)
    by (intros i Hi; first [apply Hserve | apply Hfull]; lia).
  cbn [get_articles_loop]. unfold bind, requests_get.
  fold (page_request self folder_id category_id (1 + k)).
  cbn [trace add_trace]. change (1 + k)%nat with (S k). rewrite Hr.
  rewrite seq_S, map_app. unfold add_trace, record. simpl.
  by rewrite <- app_assoc.
Qed.

Lemma get_articles_transport_failure_loses_pages_witness :
  get_articles (plain_env (page_then None)) kb 2 (VInt 5) VNone empty_world
  = (inl RequestException,
     add_trace (map (page_request kb (VInt 5) VNone) (seq 1 2)) empty_world).
Proof.
  apply (get_articles_transport_failure_loses_pages
           (plain_env (page_then None)) kb (VInt 5) VNone two_pages 1 2 empty_world).
  - intros i Hi history. assert (i = 1)%nat as -> by lia.
    eexists; eexists; repeat split; reflexivity.
  - intros i Hi. assert (i = 1)%nat as -> by lia. reflexivity.
  - reflexivity.
  - lia.
Defined.

(** ** Attachment downloader *)

Lemma open_w_inr_full E path st u st' :
  open_w E path st = (inr u, st') ->
  st' = {| trace := trace st ++ [OpenW path]; dirs := dirs st;
           files := <[path := []]> (files st) |}.
Proof.
  unfold open_w.
  match goal with |- context [if ?b then _ else _] => destruct b end; [done|].
  by intros [= _ <-].
Qed.

Lemma write_inr_full E path data st u st' :
  write E path data st = (inr u, st') ->
  st' = {| trace := trace st ++ [WriteFile path data]; dirs := dirs st;
           files := <[path := data]> (files st) |}.
Proof.
  unfold write.
  match goal with |- context [if ?b then _ else _] => destruct b end; [done|].
  by intros [= _ <-].
Qed.

(** The body of [download_attachment] once the address [u] is known. *)
Lemma download_attachment_with_url E self d (u : pystr) path st :
  dict_get d (lit "attachment_url") = Some (VStr u) -> u <> [] ->
  download_attachment E self (VDict d) path st
  = try_except
      (response <- requests_get E (attachment_target E self u) (file_headers self) [] ;;
       raise_for_status response ;;;
       makedirs E (dirname path) ;;;
       open_w E path ;;;
       write E path (content response) ;;;
       ret true)
      (is_request_exception E) (fun _ => ret false) st.
Proof.
  intros Hu Hne. unfold download_attachment, try_except.
  rewrite (bind_run _ _ st (VStr u) st) by (simpl; by rewrite Hu).
  cbn [truthy]. rewrite bool_decide_eq_false_2 by done. reflexivity.
Qed.

Lemma download_attachment_no_url_run E self d path st :
  match dict_get d (lit "attachment_url") with
  | Some v => truthy v = false
  | None => True
  end ->
  download_attachment E self (VDict d) path st = (inr false, st).
Proof.
  intros H. unfold download_attachment, try_except, bind. simpl.
  destruct (dict_get d (lit "attachment_url")) as [v|]; [|reflexivity].
  by rewrite H.
Qed.

(** X12. An attachment without [attachment_url], or with an empty one, is
    not downloaded: the result is [False], no request is made and nothing is
    touched. *)
Theorem download_attachment_without_url (E : Env) (self : Extractor)
    (d : list (pystr * PyVal)) (download_path : pystr) (st : State) :
  match dict_get d (lit "attachment_url") with
  | Some v => truthy v = false
  | None => True
  end ->
  download_attachment E self (VDict d) download_path st = (inr false, st).
Proof.
  intros H. rewrite download_attachment_no_url_run; [reflexivity|].
  destruct (dict_get d (lit "attachment_url")); [exact H | exact I].
Qed.

Lemma download_attachment_without_url_witness :
  download_attachment scenario_env kb (VDict [(lit "id", VInt 7)])
    (lit "attachments/7_f.txt") empty_world
  = (inr false, empty_world).
Proof.
  apply download_attachment_without_url. exact I.
Defined.

(** X13. The request of an attachment is the first thing a download does,
    and for an extractor built by [__init__] its headers are the
    [Authorization] header alone: [Content-Type] is left out, the credentials
    go with the request, to whatever address the attachment names. *)
Theorem download_attachment_sends_credentials_only (E : Env) (b64 : pystr -> pystr)
    (domain_name api_key : pystr) (d : list (pystr * PyVal)) (u : pystr)
    (download_path : pystr) (st : State) :
  dict_get d (lit "attachment_url") = Some (VStr u) -> u <> [] ->
  exists ops,
    trace (snd (download_attachment E (init b64 domain_name api_key) (VDict d)
                  download_path st))
    = trace st
      ++ Get (attachment_target E (init b64 domain_name api_key) u)
           [(lit "Authorization", lit "Basic " ++ b64 (api_key ++ lit ":X"))] []
      :: ops.
Proof.
  intros Hu Hne. rewrite (download_attachment_with_url _ _ _ u) by done.
  rewrite try_except_state. unfold bind at 1. unfold requests_get at 1.
  assert (Hh : file_headers (init b64 domain_name api_key)
               = [(lit "Authorization", lit "Basic " ++ b64 (api_key ++ lit ":X"))]).
  { unfold file_headers, init. cbn [headers]. 
    rewrite filter_cons_True by (cbn [fst]; intros H; apply lit_inj in H; discriminate H).
    rewrite filter_cons_False by (cbn [fst]; intros H; by apply H).
    reflexivity. }
  rewrite Hh.
  destruct (http E (trace st) _) as [r|]; [|by exists []].
  set (st1 := record _ st).
  assert (Hgrow : forall (m : M State bool),
             (exists ops, trace (snd (m st1)) = trace st1 ++ ops) ->
             exists ops, trace (snd (m st1)) = trace st ++ Get
               (attachment_target E (init b64 domain_name api_key) u)
               [(lit "Authorization", lit "Basic " ++ b64 (api_key ++ lit ":X"))] [] :: ops).
  { intros m [ops Hops]. exists ops. rewrite Hops. unfold st1, record. simpl.
    by rewrite <- app_assoc. }
  apply Hgrow.
  unfold bind, raise_for_status.
  destruct ((400 <=? status_code r)%Z && (status_code r <? 600)%Z); [by exists []; rewrite app_nil_r|].
  simpl. 
  destruct (makedirs E (dirname download_path) st1) as [[e|[]] s2] eqn:Hm.
  { exists [Makedirs (dirname download_path)]. revert Hm. unfold makedirs.
    match goal with |- context [if ?b then _ else _] => destruct b end; by intros [= _ <-]. }
  apply makedirs_inr in Hm as [_ ->].
  destruct (open_w E download_path _) as [[e|[]] s3] eqn:Ho.
  { exists [Makedirs (dirname download_path); OpenW download_path]. revert Ho. unfold open_w.
    match goal with |- context [if ?b then _ else _] => destruct b end; intros [= _ <-];
    simpl; by rewrite <- app_assoc. }
  apply open_w_inr_full in Ho as ->. cbn [trace].
  exists [Makedirs (dirname download_path); OpenW download_path;
          WriteFile download_path (content r)].
  unfold write. cbn [trace].
  match goal with |- context [if ?b then _ else _] => destruct b end;
    simpl; by rewrite <- !app_assoc.
Qed.

Lemma download_attachment_sends_credentials_only_witness :
  exists ops,
    trace (snd (download_attachment scenario_env (init (fun s => s) (lit "acme") (lit "key"))
                  attachment_f (lit "attachments/7_f.txt") empty_world))
    = trace empty_world
      ++ Get (attachment_target scenario_env (init (fun s => s) (lit "acme") (lit "key"))
                (lit "https://files.example/f.txt"))
           [(lit "Authorization", lit "Basic " ++ (fun s => s) (lit "key" ++ lit ":X"))] []
      :: ops.
Proof.
  apply (download_attachment_sends_credentials_only scenario_env (fun s => s)
           (lit "acme") (lit "key") _ (lit "https://files.example/f.txt")).
  - reflexivity.
  - discriminate.
Defined.

Lemma store_response_inr E path r st b st' :
  store_response E path r st = (inr b, st') ->
  b = true
  /\ dirname path <> []
  /\ files st' = <[path := content r]> (<[path := []]> (files st))
  /\ dirs st' = dirs st ∪ list_to_set (ancestors (dirname path)).
Proof.
  unfold store_response. intros H.
  apply bind_inr in H as ([] & s1 & Hm & H).
  apply bind_inr in H as ([] & s2 & Ho & H).
  apply bind_inr in H as ([] & s3 & Hw & H).
  injection H as <- <-.
  apply makedirs_inr in Hm as [Hd ->].
  apply open_w_inr_full in Ho as ->.
  apply write_inr_full in Hw as ->. done.
Qed.

Lemma store_response_inl E path r st e st' :
  store_response E path r st = (inl e, st') -> e = OSError.
Proof.
  unfold store_response, bind, makedirs, open_w, write.
  repeat match goal with
         | |- context [if ?b then _ else _] => destruct b; simpl
         end; by intros [= <- _].
Qed.

Lemma download_attachment_cases E self attachment path st b st' :
  download_attachment E self attachment path st = (inr b, st') ->
  (b = false /\ keeps_fs st st')
  \/ exists d u r,
       attachment = VDict d
       /\ dict_get d (lit "attachment_url") = Some (VStr u)
       /\ http E (trace st) (attachment_request E self u) = Some r
       /\ store_response E path r (record (attachment_request E self u) st)
          = (inr b, st').
Proof.
  destruct attachment as [| | | | |d]; try done.
  destruct (dict_get d (lit "attachment_url")) as [v|] eqn:Hv.
  2:{ rewrite download_attachment_no_url_run by (by rewrite Hv).
      intros [= <- <-]. by left. }
  destruct (truthy v) eqn:Ht.
  2:{ rewrite download_attachment_no_url_run by (by rewrite Hv).
      intros [= <- <-]. by left. }
  destruct v as [| | |u| |];
    try (unfold download_attachment, try_except, bind; simpl; rewrite Hv;
         cbn [truthy] in *; rewrite ?Ht; simpl; done).
  assert (Hu : u <> []).
  { intros ->. by vm_compute in Ht. }
  rewrite (download_attachment_with_url _ _ _ u) by done.
  unfold try_except, bind at 1, requests_get.
  fold (attachment_request E self u).
  destruct (http E (trace st) (attachment_request E self u)) as [r|] eqn:Hr.
  2:{ simpl. intros [= <- <-]. by left. }
  unfold bind at 1, raise_for_status.
  destruct ((400 <=? status_code r)%Z && (status_code r <? 600)%Z).
  { simpl. intros [= <- <-]. by left. }
  unfold ret at 1. cbv iota beta.
  fold (store_response E path r).
  destruct (store_response E path r _) as [[e|b'] s1] eqn:Hs.
  - apply store_response_inl in Hs as ->. done.
  - intros [= <- <-]. right. by exists d, u, r.
Qed.

(** X14. A download that returns [True] has fetched the address of the
    attachment, the file at the destination holds the content of the
    response, and the directory of the destination exists. *)
Theorem download_attachment_success_stores_content (E : Env) (self : Extractor)
    (attachment : PyVal) (download_path : pystr) (st st' : State) :
  download_attachment E self attachment download_path st = (inr true, st') ->
  exists d u r,
    attachment = VDict d
    /\ dict_get d (lit "attachment_url") = Some (VStr u)
    /\ http E (trace st) (attachment_request E self u) = Some r
    /\ files st' !! download_path = Some (content r)
    /\ dirname download_path ∈ dirs st'.
Proof.
  intros H. apply download_attachment_cases in H as [[? _] | (d & u & r & Ha & Hu & Hr & H)];
    [done|].
  apply store_response_inr in H as (_ & Hd & Hf & Hdirs).
  exists d, u, r. repeat split; try done.
  - rewrite Hf. apply lookup_insert_eq.
  - rewrite Hdirs. apply elem_of_union_r, elem_of_list_to_set. by apply ancestors_self.
Qed.

Lemma download_attachment_success_stores_content_witness :
  exists d u r,
    attachment_f = VDict d
    /\ dict_get d (lit "attachment_url") = Some (VStr u)
    /\ http scenario_env (trace empty_world) (attachment_request scenario_env kb u) = Some r
    /\ files (snd (download_attachment scenario_env kb attachment_f
                     (lit "knowledge_base/1_A/attachments/7_f.txt") empty_world))
         !! lit "knowledge_base/1_A/attachments/7_f.txt" = Some (content r)
    /\ dirname (lit "knowledge_base/1_A/attachments/7_f.txt")
       ∈ dirs (snd (download_attachment scenario_env kb attachment_f
                      (lit "knowledge_base/1_A/attachments/7_f.txt") empty_world)).
Proof.
  apply (download_attachment_success_stores_content scenario_env kb attachment_f
           (lit "knowledge_base/1_A/attachments/7_f.txt") empty_world).
  vm_compute. reflexivity.
Defined.

(** X15. A destination without directory part makes the download raise
    [OSError]: the attachment has been requested, then [os.makedirs] is
    called on the empty path; the error is not a [RequestException], so it
    escapes, and no file is written. *)
Theorem download_attachment_bare_filename_raises (E : Env) (self : Extractor)
    (d : list (pystr * PyVal)) (u : pystr) (r : Response) (download_path : pystr)
    (st : State) :
  dict_get d (lit "attachment_url") = Some (VStr u) -> u <> [] ->
  http E (trace st) (attachment_request E self u) = Some r ->
  (status_code r < 400 \/ 600 <= status_code r)%Z ->
  dirname download_path = [] ->
  download_attachment E self (VDict d) download_path st
  = (inl OSError, add_trace [attachment_request E self u; Makedirs []] st).
Proof.
  intros Hu Hne Hr Hs Hd. rewrite (download_attachment_with_url _ _ _ u) by done.
  unfold try_except, bind at 1, requests_get.
  fold (attachment_request E self u). rewrite Hr.
  unfold bind at 1, raise_for_status.
  replace ((400 <=? status_code r)%Z && (status_code r <? 600)%Z) with false
    by (symmetry; apply andb_false_iff;
        destruct Hs; [left; apply Z.leb_gt; lia | right; apply Z.ltb_ge; lia]).
  unfold ret at 1. cbv iota beta. unfold bind at 1, makedirs. rewrite Hd.
  rewrite bool_decide_eq_true_2 by done. rewrite orb_true_r. simpl.
  unfold record, add_trace. simpl. by rewrite <- app_assoc.
Qed.

Lemma download_attachment_bare_filename_raises_witness :
  download_attachment scenario_env kb attachment_f (lit "7_f.txt") empty_world
  = (inl OSError,
     add_trace [attachment_request scenario_env kb (lit "https://files.example/f.txt");
                Makedirs []] empty_world).
Proof.
  apply (download_attachment_bare_filename_raises scenario_env kb _
           (lit "https://files.example/f.txt")
           {| status_code := 200; json_body := None; content := lit "data" |}).
  - reflexivity.
  - discriminate.
  - reflexivity.
  - left. simpl. lia.
  - reflexivity.
Defined.

(** ** Per-article folder *)

(** X16. When [create_article_folder] returns, the folder it returns and
    its [attachments] subfolder exist, no directory has been removed and no
    file has been touched. *)
Theorem create_article_folder_postcondition (E : Env)
    (article : PyVal) (base_directory : pystr) (st st' : State) (folder_path : pystr) :
  create_article_folder E article base_directory st = (inr folder_path, st') ->
  folder_path ∈ dirs st'
  /\ path_join folder_path (lit "attachments") ∈ dirs st'
  /\ dirs st ⊆ dirs st'
  /\ files st' = files st.
Proof.
  intros H.
  apply create_article_folder_inr in H
    as (article_id & title & article_title & _ & _ & _ & _ & Hne & ->).
  cbn [dirs files]. repeat split.
  - apply elem_of_union_l, elem_of_union_r, elem_of_list_to_set. by apply ancestors_self.
  - apply elem_of_union_r, elem_of_list_to_set, ancestors_self.
    by apply path_join_nonempty.
  - set_solver.
Qed.

Lemma create_article_folder_postcondition_witness :
  let st' := snd (create_article_folder scenario_env stub_A (lit "knowledge_base")
                    empty_world) in
  lit "knowledge_base/1_A" ∈ dirs st'
  /\ path_join (lit "knowledge_base/1_A") (lit "attachments") ∈ dirs st'
  /\ dirs empty_world ⊆ dirs st'
  /\ files st' = files empty_world.
Proof.
  apply (create_article_folder_postcondition scenario_env stub_A
           (lit "knowledge_base") empty_world).
  vm_compute. reflexivity.
Defined.

Lemma dirname_child (base name : pystr) :
  base <> [] -> last base <> Some slash -> slash ∉ name ->
  dirname (base ++ [slash] ++ name) = base.
Proof.
  intros Hb Hl Hn. unfold dirname.
  rewrite !reverse_app. rewrite <- app_assoc.
  rewrite drop_while_app_all.
  2:{ apply forallb_forall. intros x Hx. apply list_elem_of_In in Hx.
      rewrite elem_of_reverse in Hx. apply negb_true_iff.
      apply N.eqb_neq. intros ->. by apply Hn. }
  change (reverse [slash]) with [slash]. cbn [app drop_while].
  rewrite N.eqb_refl. cbn [negb].
  change (slash :: reverse base) with ([slash] ++ reverse base).
  rewrite reverse_app, reverse_involutive. change (reverse [slash]) with [slash].
  rewrite reverse_app. change (reverse [slash]) with [slash].
  cbn [app drop_while]. rewrite N.eqb_refl.
  rewrite drop_while_fixed.
  - rewrite reverse_involutive. by destruct base.
  - destruct (reverse base) as [|c r] eqn:Hr; [done|].
    apply N.eqb_neq. intros ->. apply Hl.
    rewrite <- (reverse_involutive base), Hr, last_reverse. done.
Qed.

(** X17. For an article with an integer id, the folder is a direct child
    of the base directory whatever the title is: a title cannot lead out of
    the base directory.  (The base directory is not empty and does not end
    with a slash.) *)
Theorem create_article_folder_direct_child (E : Env)
    (d : list (pystr * PyVal)) (z : Z) (base_directory : pystr) (st st' : State)
    (folder_path : pystr) :
  dict_get d (lit "id") = Some (VInt z) ->
  base_directory <> [] -> last base_directory <> Some slash ->
  create_article_folder E (VDict d) base_directory st = (inr folder_path, st') ->
  dirname folder_path = base_directory.
Proof.
  intros Hid Hb Hl H.
  apply create_article_folder_inr in H
    as (article_id & title & article_title & H1 & _ & H3 & -> & _ & _).
  simpl in H1. rewrite Hid in H1. injection H1 as <-.
  fold (attachment_filename E (VInt z) article_title).
  rewrite path_join_relative by apply attachment_filename_relative.
  destruct (last base_directory) as [c|] eqn:Hc.
  2:{ apply last_None in Hc. done. }
  destruct (N.eqb_spec c slash) as [-> | Hcs]; [done|].
  apply dirname_child; [done | by rewrite Hc |].
  unfold attachment_filename, str. simpl. change (lit "_") with [95].
  destruct title; try done. injection H3 as <-.
  intros Hin. apply elem_of_app in Hin as [Hin | Hin].
  - apply str_of_Z_chars in Hin. unfold slash in Hin. lia.
  - apply elem_of_cons in Hin as [Hin | Hin]; [done|].
    apply sanitize_filename_valid in Hin. apply Hin.
    rewrite invalid_chars_eq. unfold slash. set_solver.
Qed.

Lemma create_article_folder_direct_child_witness :
  dirname (lit "knowledge_base/1_.._.._etc") = lit "knowledge_base".
Proof.
  apply (create_article_folder_direct_child scenario_env
           [(lit "id", VInt 1); (lit "title", VStr (lit "../../etc"))] 1
           (lit "knowledge_base") empty_world
           (snd (create_article_folder scenario_env
                   (VDict [(lit "id", VInt 1); (lit "title", VStr (lit "../../etc"))])
                   (lit "knowledge_base") empty_world))).
  - reflexivity.
  - discriminate.
  - vm_compute. discriminate.
  - vm_compute. reflexivity.
Defined.

(** ** Article materializer *)

(** X18. For a stub that is a record, [download_article_content] never
    raises, and it returns either [True] with a detail that is not empty, or
    [False] with [None]. *)
Theorem download_article_content_contract (E : Env) (self : Extractor)
    (a : list (pystr * PyVal)) (folder_path : pystr)
    (save_pdf save_html save_text : bool) (st : State) :
  exists ok detailed_article st',
    download_article_content E self (VDict a) folder_path save_pdf save_html save_text st
    = (inr (ok, detailed_article), st')
    /\ (if ok then truthy detailed_article = true else detailed_article = VNone).
Proof.
  unfold download_article_content, try_except.
  match goal with |- context [match ?b st with _ => _ end] =>
    destruct (b st) as [[e|[ok d]] s1] eqn:Hb end.
  - simpl. by exists false, VNone, s1.
  - exists ok, d, s1. split; [done|].
    apply bind_inr in Hb as (article_id & s2 & _ & Hb).
    apply bind_inr in Hb as (detail & s3 & _ & Hb).
    destruct (truthy detail) eqn:Ht; cbn [negb] in Hb.
    + apply bind_inr in Hb as (body & s4 & _ & Hb).
      apply bind_inr in Hb as (? & s5 & _ & Hb).
      apply bind_inr in Hb as (? & s6 & _ & Hb).
      apply bind_inr in Hb as (? & s7 & _ & Hb).
      apply bind_inr in Hb as (? & s8 & _ & Hb).
      by injection Hb as <- <- <-.
    + by injection Hb as <- <- <-.
Qed.

Lemma save_metadata_block_inr E d id folder st u st' :
  save_metadata_block E d id folder st = (inr u, st') ->
  exists metadata s,
    extract_article_metadata E d s = (inr metadata, s)
    /\ files st' !! article_file E folder id "_metadata.json"
       = Some (json_dumps E metadata).
Proof.
  unfold save_metadata_block. intros H.
  apply bind_inr in H as ([] & s1 & Ho & H).
  apply bind_inr in H as (m & s2 & Hm & H).
  apply write_inr in H as [Hf _].
  assert (s2 = s1) as ->.
  { pose proof (extract_article_metadata_eq E d s1) as Hr. by rewrite Hm in Hr. }
  exists m, s1. split; [done|]. rewrite Hf. apply lookup_insert_eq.
Qed.

(** X19. When [download_article_content] returns [True], the metadata
    file of the article holds the JSON text of the metadata record that
    [extract_article_metadata] gives for the detail. *)
Theorem download_article_content_success_writes_metadata (E : Env) (self : Extractor)
    (article : PyVal) (folder_path : pystr) (save_pdf save_html save_text : bool)
    (st st' : State) (detailed_article : PyVal) :
  download_article_content E self article folder_path save_pdf save_html save_text st
  = (inr (true, detailed_article), st') ->
  exists article_id metadata s,
    py_getitem article (lit "id") st = (inr article_id, st)
    /\ extract_article_metadata E detailed_article s = (inr metadata, s)
    /\ files st' !! article_file E folder_path article_id "_metadata.json"
       = Some (json_dumps E metadata).
Proof.
  unfold download_article_content, try_except.
  match goal with |- context [match ?b st with _ => _ end] =>
    destruct (b st) as [[e|[ok d]] s1] eqn:Hb end; [done|].
  intros [= -> -> ->].
  apply bind_inr in Hb as (article_id & s2 & Hid & Hb).
  assert (s2 = st) as ->.
  { pose proof (respects_py_getitem eq article (lit "id") st) as Hr.
    by rewrite Hid in Hr. }
  apply bind_inr in Hb as (detail & s3 & _ & Hb).
  destruct (truthy detail) eqn:Ht; cbn [negb] in Hb; [|done].
  apply bind_inr in Hb as (body & s4 & _ & Hb).
  apply bind_inr in Hb as (? & s5 & _ & Hb).
  apply bind_inr in Hb as (? & s6 & _ & Hb).
  apply bind_inr in Hb as (? & s7 & _ & Hb).
  apply bind_inr in Hb as (? & s8 & Hm & Hb).
  injection Hb as <- <-.
  apply save_metadata_block_inr in Hm as (m & s & Hm & Hf).
  by exists article_id, m, s.
Qed.

Lemma download_article_content_success_writes_metadata_witness :
  let st' := snd (download_article_content scenario_env kb (VDict stub_C) folder_C
                    true true true world_with_folder_C) in
  exists article_id metadata s,
    py_getitem (VDict stub_C) (lit "id") world_with_folder_C
    = (inr article_id, world_with_folder_C)
    /\ extract_article_metadata scenario_env (VDict detail_C) s = (inr metadata, s)
    /\ files st' !! article_file scenario_env folder_C article_id "_metadata.json"
       = Some (json_dumps scenario_env metadata).
Proof.
  apply (download_article_content_success_writes_metadata scenario_env kb
           (VDict stub_C) folder_C true true true world_with_folder_C).
  vm_compute. reflexivity.
Defined.

(** ** Nothing is ever removed *)

#[global] Instance fs_grows_preorder : PreOrder fs_grows.
Proof.
  split.
  - intros st. split; [done | auto].
  - intros a b c [Hd1 Hf1] [Hd2 Hf2]. split; [set_solver | auto].
Qed.

#[global] Instance on_world_preorder {L : Type} (R : State -> State -> Prop)
  `{!PreOrder R} : PreOrder (@on_world L R).
Proof.
  split.
  - intros s. unfold on_world. reflexivity.
  - intros a b c. unfold on_world. intros. by etrans.
Qed.

Lemma keeps_fs_grows st st' : keeps_fs st st' -> fs_grows st st'.
Proof. intros [Hf Hd]. split; [by rewrite Hd | by rewrite Hf]. Qed.

Lemma eq_grows (st st' : State) : st = st' -> fs_grows st st'.
Proof. intros ->. reflexivity. Qed.

Lemma respects_zoom {L A} (R : State -> State -> Prop) (m : M State A) :
  respects R m -> respects (@on_world L R) (zoom m).
Proof.
  intros Hm s. unfold zoom, on_world. specialize (Hm (snd s)).
  by destruct (m (snd s)) as [r st'].
Qed.

Lemma respects_get_local {L} (R : State -> State -> Prop) `{!PreOrder R} :
  respects (@on_world L R) get_local.
Proof. intros s. unfold on_world. simpl. reflexivity. Qed.

Lemma respects_set_local {L} (R : State -> State -> Prop) `{!PreOrder R} (l : L) :
  respects (@on_world L R) (set_local l).
Proof. intros s. unfold on_world. simpl. reflexivity. Qed.

Section Grows.

Variable E : Env.
Variable self : Extractor.

Lemma requests_get_grows url hdrs params :
  respects fs_grows (requests_get E url hdrs params).
Proof. apply (respects_weaken keeps_fs); [apply keeps_fs_grows | apply requests_get_fs]. Qed.

Lemma clock_strftime_grows fmt : respects fs_grows (clock_strftime E fmt).
Proof. apply (respects_weaken eq); [apply eq_grows | apply clock_strftime_eq]. Qed.

Lemma clock_isoformat_grows : respects fs_grows (clock_isoformat E).
Proof. apply (respects_weaken eq); [apply eq_grows | apply clock_isoformat_eq]. Qed.

Lemma makedirs_grows path : respects fs_grows (makedirs E path).
Proof.
  intros st. unfold makedirs.
  match goal with |- context [if ?b then _ else _] => destruct b end;
    simpl; split; simpl; auto; set_solver.
Qed.

Lemma insert_grows (files : gmap pystr pystr) path data p :
  is_Some (files !! p) -> is_Some (<[path := data]> files !! p).
Proof.
  intros H. destruct (decide (path = p)) as [->|Hne].
  - rewrite lookup_insert_eq. by eexists.
  - by rewrite lookup_insert_ne.
Qed.

Lemma open_w_grows path : respects fs_grows (open_w E path).
Proof.
  intros st. unfold open_w.
  match goal with |- context [if ?b then _ else _] => destruct b end;
    simpl; split; simpl; auto using insert_grows.
Qed.

Lemma write_grows path data : respects fs_grows (write E path data).
Proof.
  intros st. unfold write.
  match goal with |- context [if ?b then _ else _] => destruct b end;
    simpl; split; simpl; auto using insert_grows.
Qed.

Lemma write_pdf_grows path html : respects fs_grows (write_pdf E path html).
Proof.
  intros st. unfold write_pdf.
  destruct (pdf_render E (trace st) html); [|by split].
  match goal with |- context [if ?b then _ else _] => destruct b end;
    simpl; split; simpl; auto using insert_grows.
Qed.

End Grows.

#[global] Hint Resolve requests_get_grows clock_strftime_grows clock_isoformat_grows
  makedirs_grows open_w_grows write_grows write_pdf_grows
  respects_get_local respects_set_local : respects.

Section GrowsProgram.

Variable E : Env.
Variable self : Extractor.

Lemma get_article_details_grows article_id :
  respects fs_grows (get_article_details E self article_id).
Proof. unfold get_article_details. respects_tac. Qed.

Lemma download_attachment_grows attachment path :
  respects fs_grows (download_attachment E self attachment path).
Proof. unfold download_attachment. respects_tac. Qed.

Lemma create_article_folder_grows article base :
  respects fs_grows (create_article_folder E article base).
Proof. unfold create_article_folder. respects_tac. Qed.

Lemma create_html_document_grows article content for_pdf :
  respects fs_grows (create_html_document E self article content for_pdf).
Proof.
  apply (respects_weaken eq); [apply eq_grows | apply create_html_document_eq].
Qed.

Lemma extract_article_metadata_grows article :
  respects fs_grows (extract_article_metadata E article).
Proof.
  apply (respects_weaken eq); [apply eq_grows | apply extract_article_metadata_eq].
Qed.

Lemma create_pdf_document_grows article content path :
  respects fs_grows (create_pdf_document E self article content path).
Proof.
  unfold create_pdf_document. respects_tac. apply create_html_document_grows.
Qed.

Lemma download_article_content_grows article folder save_pdf save_html save_text :
  respects fs_grows
    (download_article_content E self article folder save_pdf save_html save_text).
Proof.
  unfold download_article_content, save_pdf_block, save_html_block, save_text_block,
    save_metadata_block.
  respects_tac;
    first [apply get_article_details_grows | apply create_pdf_document_grows
          | apply create_html_document_grows | apply extract_article_metadata_grows].
Qed.

Lemma bump_grows (m : M (Counters * State) unit) :
  (m = bump_successful_articles \/ m = bump_total_attachments
   \/ m = bump_successful_attachments) ->
  respects (on_world fs_grows) m.
Proof.
  intros [-> | [-> | ->]]; intros s; unfold on_world; simpl; reflexivity.
Qed.

Lemma attachments_loop_grows folder attachments count :
  respects (on_world fs_grows) (attachments_loop E self folder attachments count).
Proof.
  revert count. induction attachments as [|att rest IH]; intros count; simpl.
  - respects_tac.
  - refine (respects_bind _ _ _ _ _); [respects_tac | intros att_id].
    refine (respects_bind _ _ _ _ _); [respects_tac | intros name].
    refine (respects_bind _ _ _ _ _); [respects_tac | intros att_name].
    refine (respects_bind _ _ _ _ _); [apply bump_grows; tauto | intros _].
    refine (respects_bind _ _ _ _ _);
      [apply respects_zoom, download_attachment_grows | intros ok].
    destruct ok; [|apply IH].
    refine (respects_bind _ _ _ _ _); [apply bump_grows; tauto | intros _]. apply IH.
Qed.

Lemma process_article_grows base download_attachments save_pdf save_html save_text
    article :
  respects (on_world fs_grows)
    (process_article E self base download_attachments save_pdf save_html save_text
       article).
Proof.
  unfold process_article.
  refine (respects_bind _ _ _ _ _); [respects_tac | intros article_id].
  refine (respects_bind _ _ _ _ _); [respects_tac | intros article_title].
  refine (respects_try _ _ _ _ _ _); [|intros; respects_tac].
  refine (respects_bind _ _ _ _ _);
    [apply respects_zoom, create_article_folder_grows | intros folder].
  refine (respects_bind _ _ _ _ _);
    [apply respects_zoom, download_article_content_grows | intros [ok d]].
  destruct ok; [|respects_tac].
  refine (respects_bind _ _ _ _ _); [apply bump_grows; tauto | intros _].
  destruct (download_attachments && truthy d); [|respects_tac].
  refine (respects_bind _ _ _ _ _); [respects_tac | intros attachments].
  refine (respects_bind _ _ _ _ _); [|intros; respects_tac].
  destruct (truthy attachments); [|respects_tac].
  refine (respects_bind _ _ _ _ _); [respects_tac | intros _].
  refine (respects_bind _ _ _ _ _); [respects_tac | intros atts].
  refine (respects_bind _ _ _ _ _); [apply attachments_loop_grows | intros; respects_tac].
Qed.

Lemma download_articles_and_attachments_grows articles base download_attachments
    save_pdf save_html save_text :
  respects fs_grows
    (download_articles_and_attachments E self articles base download_attachments
       save_pdf save_html save_text).
Proof.
  intros st. unfold download_articles_and_attachments.
  match goal with |- context [map_m ?f ?xs ?s] =>
    pose proof (respects_map_m (on_world fs_grows) f xs
                  (process_article_grows base download_attachments save_pdf save_html
                     save_text) s) as Hr;
    destruct (map_m f xs s) as [[e|articles'] [c st']]
  end; exact Hr.
Qed.

End GrowsProgram.

(** X20. The bulk download only adds: every directory that existed before
    exists after, and every file that existed before is still a file (its
    content may have been rewritten), whatever fails on the way. *)
Theorem bulk_download_never_removes (E : Env) (self : Extractor)
    (articles : list PyVal) (base_download_dir : pystr)
    (download_attachments save_pdf save_html save_text : bool) (st : State) :
  let st' := snd (download_articles_and_attachments E self articles base_download_dir
                    download_attachments save_pdf save_html save_text st) in
  dirs st ⊆ dirs st'
  /\ forall p, is_Some (files st !! p) -> is_Some (files st' !! p).
Proof. apply download_articles_and_attachments_grows. Qed.

Section GrowsMain.

Variable E : Env.
Variable self : Extractor.

Lemma validate_connection_grows : respects fs_grows (validate_connection E self).
Proof. unfold validate_connection. respects_tac. Qed.

Lemma get_categories_grows : respects fs_grows (get_categories E self).
Proof. unfold get_categories. respects_tac. Qed.

Lemma get_folders_grows category_id : respects fs_grows (get_folders E self category_id).
Proof. unfold get_folders. respects_tac. Qed.

Lemma get_articles_loop_grows fuel folder_id category_id articles page :
  respects fs_grows (get_articles_loop E self fuel folder_id category_id articles page).
Proof.
  revert articles page. induction fuel as [|fuel IH]; intros articles page; simpl.
  - respects_tac.
  - refine (respects_bind _ _ _ _ _); [respects_tac | intros response].
    destruct (status_code response =? 200)%Z; [|respects_tac].
    refine (respects_bind _ _ _ _ _); [respects_tac | intros j].
    refine (respects_bind _ _ _ _ _); [respects_tac | intros batch].
    refine (respects_bind _ _ _ _ _); [respects_tac | intros items].
    refine (respects_bind _ _ _ _ _); [respects_tac | intros n].
    destruct (n <? 100)%Z; [respects_tac | apply IH].
Qed.

Lemma export_filename_grows filename extension :
  respects fs_grows (export_filename E filename extension).
Proof. unfold export_filename. destruct filename; respects_tac. Qed.

Lemma export_to_json_grows articles filename :
  respects fs_grows (export_to_json E articles filename).
Proof. unfold export_to_json. respects_tac. apply export_filename_grows. Qed.

Lemma export_to_excel_grows to_excel articles filename :
  respects fs_grows (export_to_excel E to_excel articles filename).
Proof.
  unfold export_to_excel.
  refine (respects_bind _ _ _ _ _); [apply export_filename_grows | intros name].
  destruct (to_excel articles); respects_tac.
Qed.

Lemma collect_fieldnames_grows articles fieldnames :
  respects fs_grows (collect_fieldnames articles fieldnames).
Proof.
  revert fieldnames. induction articles as [|a rest IH]; intros fieldnames; simpl.
  - respects_tac.
  - refine (respects_bind _ _ _ _ _); [respects_tac | intros ks]. apply IH.
Qed.

Lemma export_to_csv_grows articles filename :
  respects fs_grows (export_to_csv E articles filename).
Proof.
  unfold export_to_csv, dict_to_list.
  refine (respects_bind _ _ _ _ _); [destruct filename; respects_tac | intros name].
  destruct articles as [|a rest]; [respects_tac|].
  refine (respects_bind _ _ _ _ _); [apply collect_fieldnames_grows | intros names].
  respects_tac.
Qed.

Lemma articles_with_status_grows n articles :
  respects fs_grows (articles_with_status n articles).
Proof.
  induction articles as [|a rest IH]; simpl; [respects_tac|].
  refine (respects_bind _ _ _ _ _); [respects_tac | intros status].
  refine (respects_bind _ _ _ _ _); [apply IH | intros selected]. respects_tac.
Qed.

Lemma generate_summary_report_grows articles :
  respects fs_grows (generate_summary_report E articles).
Proof.
  unfold generate_summary_report.
  refine (respects_bind _ _ _ _ _); [apply articles_with_status_grows | intros ?].
  refine (respects_bind _ _ _ _ _); [apply articles_with_status_grows | intros ?].
  respects_tac.
Qed.

Lemma table_row_grows (k1 k2 k3 k4 : string) record :
  respects fs_grows (table_row k1 k2 k3 k4 record).
Proof. unfold table_row. respects_tac. Qed.

Lemma main_folders_grows fuel folders all_articles :
  respects fs_grows (main_folders E self fuel folders all_articles).
Proof.
  revert all_articles. induction folders as [|folder rest IH]; intros all_articles; simpl.
  - respects_tac.
  - refine (respects_bind _ _ _ _ _); [respects_tac | intros folder_id].
    refine (respects_bind _ _ _ _ _); [apply get_articles_loop_grows | intros [articles|]];
      [|respects_tac].
    refine (respects_bind _ _ _ _ _);
      [refine (respects_map_m _ _ _ _); intros; apply table_row_grows | intros data].
    refine (respects_bind _ _ _ _ _); [respects_tac | intros name].
    refine (respects_bind _ _ _ _ _); [unfold display_table; respects_tac | intros _].
    apply IH.
Qed.

Lemma main_categories_grows fuel categories all_articles :
  respects fs_grows (main_categories E self fuel categories all_articles).
Proof.
  revert all_articles.
  induction categories as [|category rest IH]; intros all_articles; simpl.
  - respects_tac.
  - refine (respects_bind _ _ _ _ _); [respects_tac | intros cat_id].
    refine (respects_bind _ _ _ _ _); [apply get_folders_grows | intros folders].
    refine (respects_bind _ _ _ _ _); [respects_tac | intros fs].
    refine (respects_bind _ _ _ _ _);
      [refine (respects_map_m _ _ _ _); intros; apply table_row_grows | intros data].
    refine (respects_bind _ _ _ _ _); [respects_tac | intros name].
    refine (respects_bind _ _ _ _ _); [unfold display_table; respects_tac | intros _].
    refine (respects_bind _ _ _ _ _); [|intros [all|]; [apply IH | respects_tac]].
    destruct (truthy folders); [apply main_folders_grows|].
    refine (respects_bind _ _ _ _ _); [apply get_articles_loop_grows | intros [articles|]];
      [|respects_tac].
    refine (respects_bind _ _ _ _ _);
      [refine (respects_map_m _ _ _ _); intros; apply table_row_grows | intros data2].
    respects_tac. unfold display_table. respects_tac.
Qed.

End GrowsMain.

Lemma main_grows E b64 to_excel api_key fuel :
  respects fs_grows (main E b64 to_excel api_key fuel).
Proof.
  unfold main.
  refine (respects_bind _ _ _ _ _); [apply validate_connection_grows | intros connected].
  destruct (negb connected); [respects_tac|].
  refine (respects_bind _ _ _ _ _); [apply get_categories_grows | intros categories].
  refine (respects_bind _ _ _ _ _); [respects_tac | intros cs].
  refine (respects_bind _ _ _ _ _);
    [refine (respects_map_m _ _ _ _); intros; apply table_row_grows | intros data].
  refine (respects_bind _ _ _ _ _); [unfold display_table; respects_tac | intros _].
  refine (respects_bind _ _ _ _ _); [apply main_categories_grows | intros [all|]];
    [|respects_tac].
  destruct all as [|a rest]; [respects_tac|].
  refine (respects_bind _ _ _ _ _); [apply export_to_json_grows | intros ?].
  refine (respects_bind _ _ _ _ _); [apply export_to_csv_grows | intros ?].
  refine (respects_bind _ _ _ _ _); [apply export_to_excel_grows | intros ?].
  refine (respects_bind _ _ _ _ _); [apply generate_summary_report_grows | intros ?].
  refine (respects_bind _ _ _ _ _);
    [apply download_articles_and_attachments_grows | intros ?].
  respects_tac.
Qed.

(** X21. The same holds for a whole run of [main], with its exports and
    its bulk download: no directory and no file disappears. *)
Theorem main_never_removes (E : Env) (b64 : pystr -> pystr)
    (to_excel : list PyVal -> option pystr) (api_key : pystr) (fuel : nat)
    (st : State) :
  let st' := snd (main E b64 to_excel api_key fuel st) in
  dirs st ⊆ dirs st'
  /\ forall p, is_Some (files st !! p) -> is_Some (files st' !! p).
Proof. apply main_grows. Qed.

(** ** The run of [main] *)

(** X22. When the connection check does not get a response of status 200,
    [main] returns at once: the check is its only request and nothing is
    written. *)
Theorem main_stops_when_connection_fails (E : Env) (b64 : pystr -> pystr)
    (to_excel : list PyVal -> option pystr) (api_key : pystr) (fuel : nat)
    (st : State) :
  (forall r, http E (trace st) (probe b64 api_key) = Some r -> status_code r <> 200%Z) ->
  main E b64 to_excel api_key fuel st = (inr (Some tt), add_trace [probe b64 api_key] st).
Proof.
  intros H. unfold main.
  rewrite (bind_run _ _ st false (add_trace [probe b64 api_key] st)); [done|].
  rewrite validate_connection_run. fold (probe b64 api_key). f_equal. f_equal.
  destruct (http E (trace st) (probe b64 api_key)) as [r|]; [|done].
  apply Z.eqb_neq. by apply H.
Qed.

Lemma main_stops_when_connection_fails_witness :
  main (plain_env (fun _ _ => Some server_error)) (fun s => s) (fun _ => None)
    (lit "key") 5 empty_world
  = (inr (Some tt), add_trace [probe (fun s => s) (lit "key")] empty_world).
Proof.
  apply main_stops_when_connection_fails.
  intros r [= <-]. vm_compute. discriminate.
Defined.

(** X23. When the connection check succeeds and the list of categories
    is answered by a status other than 200 and 403, [get_categories] gives
    [None] and [main] raises [TypeError] on its first loop over the
    categories, after these two requests. *)
Theorem main_categories_error_raises_TypeError (E : Env) (b64 : pystr -> pystr)
    (to_excel : list PyVal -> option pystr) (api_key : pystr) (fuel : nat)
    (st : State) (r1 r2 : Response) :
  http E (trace st) (probe b64 api_key) = Some r1 ->
  status_code r1 = 200%Z ->
  http E (trace st ++ [probe b64 api_key]) (categories_request b64 api_key) = Some r2 ->
  status_code r2 <> 200%Z -> status_code r2 <> 403%Z ->
  main E b64 to_excel api_key fuel st
  = (inl TypeError, add_trace [probe b64 api_key; categories_request b64 api_key] st).
Proof.
  intros H1 Hs1 H2 Hs2 Hs3. unfold main.
  rewrite (bind_run _ _ st true (add_trace [probe b64 api_key] st)).
  2:{ rewrite validate_connection_run. fold (probe b64 api_key).
      by rewrite H1, Hs1. }
  cbn [negb].
  rewrite (bind_run _ _ _ VNone
             (add_trace [probe b64 api_key; categories_request b64 api_key] st)).
  2:{ unfold get_categories, bind, requests_get.
      fold (categories_request b64 api_key). cbn [trace add_trace]. rewrite H2.
      apply Z.eqb_neq in Hs2, Hs3. rewrite Hs2, Hs3.
      unfold ret, record, add_trace. simpl. by rewrite <- app_assoc. }
  reflexivity.
Qed.

Lemma main_categories_error_raises_TypeError_witness :
  main (plain_env (probe_ok_then server_error)) (fun s => s) (fun _ => None)
    (lit "key") 5 empty_world
  = (inl TypeError,
     add_trace [probe (fun s => s) (lit "key");
                categories_request (fun s => s) (lit "key")] empty_world).
Proof.
  apply (main_categories_error_raises_TypeError _ _ _ _ _ _
           (json_response (VDict [])) server_error).
  - reflexivity.
  - reflexivity.
  - reflexivity.
  - vm_compute. discriminate.
  - vm_compute. discriminate.
Defined.

(** ** Exports and report *)

Lemma export_filename_run E filename extension st :
  export_filename E filename extension st
  = (inr (export_name E st filename extension), st).
Proof.
  unfold export_filename, export_name. destruct filename as [f|]; [|reflexivity].
  by case_bool_decide.
Qed.

(** X24. The CSV export of an empty list returns the name of the file but
    does not create it: no operation is made at all. *)
Theorem export_to_csv_empty_writes_nothing (E : Env) (filename : option pystr)
    (st : State) :
  export_to_csv E [] filename st = (inr (export_name E st filename ".csv"), st).
Proof.
  unfold export_to_csv.
  rewrite (bind_run _ _ st (export_name E st filename ".csv") st); [done|].
  unfold export_name. destruct filename as [f|]; [|reflexivity].
  by case_bool_decide.
Qed.

(** X25. The JSON export writes its file for every list, the empty one
    included: when the file system does not fail and the file can be created,
    the export returns the name, and the file holds the JSON text of the
    list. *)
Theorem export_to_json_writes_the_list (E : Env) (articles : list PyVal)
    (filename : option pystr) (st : State) :
  let name := export_name E st filename ".json" in
  (forall history op, fs_fault E history op = false) ->
  can_create st name = true ->
  exists st',
    export_to_json E articles filename st = (inr name, st')
    /\ files st' = <[name := json_dumps E (VList articles)]> (files st)
    /\ dirs st' = dirs st
    /\ trace st' = trace st ++ [OpenW name; WriteFile name (json_dumps E (VList articles))].
Proof.
  intros name Hfault Hcan. unfold export_to_json.
  rewrite (bind_run _ _ st name st) by apply export_filename_run.
  unfold bind, open_w, write. rewrite Hfault, Hcan. simpl. rewrite Hfault. simpl.
  eexists. split; [reflexivity|]. simpl. repeat split.
  - apply insert_insert_eq.
  - by rewrite <- app_assoc.
Qed.

Lemma export_to_json_writes_the_list_witness :
  let name := export_name scenario_env empty_world (Some (lit "kb.json")) ".json" in
  exists st',
    export_to_json scenario_env [] (Some (lit "kb.json")) empty_world = (inr name, st')
    /\ files st' = <[name := json_dumps scenario_env (VList [])]> (files empty_world)
    /\ dirs st' = dirs empty_world
    /\ trace st' = trace empty_world
                   ++ [OpenW name; WriteFile name (json_dumps scenario_env (VList []))].
Proof.
  apply (export_to_json_writes_the_list scenario_env [] (Some (lit "kb.json"))
           empty_world).
  - reflexivity.
  - refine (bool_decide_eq_true_1 _ _). vm_compute. reflexivity.
Defined.

Lemma articles_with_status_run {S : Type} (n : Z) (records : list (list (pystr * PyVal)))
    (s : S) :
  exists selected,
    articles_with_status n (map VDict records) s = (inr selected, s)
    /\ length selected = count_status n records.
Proof.
  induction records as [|d rest (selected & Hrun & Hlen)]; simpl.
  - by exists [].
  - unfold bind at 1. simpl. unfold bind at 1. rewrite Hrun. simpl.
    eexists. split; [reflexivity|].
    unfold count_status in *. cbn [filter list_filter].
    destruct (dict_get d (lit "status")) as [v|];
      (destruct (py_eq_int _ n) eqn:Hv;
       [rewrite decide_True by done | rewrite decide_False by (by intros ?)];
       simpl; by rewrite Hlen).
Qed.

Lemma count_status_disjoint (records : list (list (pystr * PyVal))) :
  (count_status 1 records + count_status 2 records <= length records)%nat.
Proof.
  unfold count_status. induction records as [|d rest IH]; simpl; [lia|].
  rewrite !filter_cons.
  set (v := match dict_get d (lit "status") with Some v => v | None => VNone end).
  assert (Hv : py_eq_int v 1 = true -> py_eq_int v 2 = true -> False).
  { destruct v as [|[]|z| | |]; simpl; try done.
    intros H1 H2. apply Z.eqb_eq in H1, H2. lia. }
  repeat case_decide; simpl; try lia. exfalso. by apply Hv.
Qed.

(** X26. The summary report of a list of records counts all of them,
    those of status 1 as published and those of status 2 as draft; the two
    counts together never exceed the total (records of another status, or of
    none, are in neither). *)
Theorem generate_summary_report_counts (E : Env)
    (records : list (list (pystr * PyVal))) (st : State) :
  exists report,
    generate_summary_report E (map VDict records) st = (inr report, st)
    /\ report_count report "total_articles"
       = Some (VInt (Z.of_nat (length records)))
    /\ report_count report "published_articles"
       = Some (VInt (Z.of_nat (count_status 1 records)))
    /\ report_count report "draft_articles"
       = Some (VInt (Z.of_nat (count_status 2 records)))
    /\ (count_status 1 records + count_status 2 records <= length records)%nat.
Proof.
  unfold generate_summary_report.
  destruct (articles_with_status_run 1 records st) as (published & Hp & Hlp).
  destruct (articles_with_status_run 2 records st) as (draft & Hd & Hld).
  rewrite (bind_run _ _ st published st Hp).
  rewrite (bind_run _ _ st draft st Hd).
  eexists. split; [reflexivity|].
  rewrite length_map, Hlp, Hld.
  repeat split; try reflexivity. apply count_status_disjoint.
Qed.

(** ** Attachments of all articles *)

Lemma get_article_details_no_details E self article_id st :
  no_details E ->
  get_article_details E self article_id st
  = (inr VNone, add_trace [detail_request E self article_id] st).
Proof.
  intros H. apply get_article_details_failure_run.
  specialize (H (trace st) (detail_request E self article_id)).
  destruct (http E (trace st) _) as [r|]; [right; by exists r | by left].
Qed.

Lemma download_all_attachments_loop_no_details E self normpath base articles c st :
  no_details E ->
  keeps_fs st (snd (snd (download_all_attachments_loop E self normpath base articles
                           (c, st)))).
Proof.
  intros H. revert c st. induction articles as [|article rest IH]; intros c st.
  - simpl. reflexivity.
  - cbn [download_all_attachments_loop]. unfold bind at 1.
    pose proof (respects_py_getitem eq article (lit "id") (c, st)) as H1.
    destruct (py_getitem article (lit "id") (c, st)) as [[e|article_id] s1];
      simpl in H1; subst s1; [reflexivity|].
    unfold bind at 1.
    match goal with |- context [py_get article ?k ?dflt (c, st)] =>
      pose proof (respects_py_get eq article k dflt (c, st)) as H2;
      destruct (py_get article k dflt (c, st)) as [[e|title] s2]
    end; simpl in H2; subst s2; [reflexivity|].
    unfold bind at 1.
    pose proof (respects_sanitize_filename_val eq title (c, st)) as H3.
    destruct (sanitize_filename_val title (c, st)) as [[e|article_title] s3];
      simpl in H3; subst s3; [reflexivity|].
    unfold bind at 1, zoom at 1. cbn [snd fst].
    rewrite get_article_details_no_details by done.
    unfold bind at 1. cbn [truthy negb]. unfold ret at 1.
    etrans; [|apply IH]. done.
Qed.

(** X27. [download_all_attachments] skips an article whose detail it
    cannot fetch before it creates anything: when no detail can be fetched,
    no directory is created and no file is written, for any list of
    articles. *)
Theorem download_all_attachments_skips_missing_details (E : Env) (self : Extractor)
    (normpath : pystr -> pystr) (articles : list PyVal) (base_download_dir : pystr)
    (st : State) :
  no_details E ->
  let st' := snd (download_all_attachments E self normpath articles base_download_dir st) in
  files st' = files st /\ dirs st' = dirs st.
Proof.
  intros H. unfold download_all_attachments.
  pose proof (download_all_attachments_loop_no_details E self normpath
                base_download_dir articles (0, 0)%Z st H) as Hk.
  destruct (download_all_attachments_loop E self normpath base_download_dir articles _)
    as [r [c st1]].
  exact Hk.
Qed.

Lemma download_all_attachments_skips_missing_details_witness :
  let st' := snd (download_all_attachments (plain_env (fun _ _ => Some server_error)) kb
                    (fun p => p) [stub_A; stub_B] (lit "attachments") empty_world) in
  files st' = files empty_world /\ dirs st' = dirs empty_world.
Proof.
  apply (download_all_attachments_skips_missing_details
           (plain_env (fun _ _ => Some server_error)) kb (fun p => p) [stub_A; stub_B]
           (lit "attachments") empty_world).
  intros history op. simpl. discriminate.
Defined.

(** ** Annotation of the stubs *)

Lemma dict_get_set_other (d : list (pystr * PyVal)) k k' v :
  k <> k' -> dict_get (dict_set d k' v) k = dict_get d k.
Proof.
  intros Hne. induction d as [|[k0 v0] d IH]; simpl.
  - by rewrite bool_decide_eq_false_2 by (by intros ?).
  - case_bool_decide as H0; simpl.
    + subst k0. by rewrite !bool_decide_eq_false_2 by (by intros ?).
    + case_bool_decide; [done | apply IH].
Qed.

Lemma annotated_refl d : annotated d (VDict d).
Proof. by exists d. Qed.

Lemma annotated_setitem {S : Type} d article k v (s s' : S) article' :
  k ∈ annotation_keys ->
  annotated d article ->
  py_setitem article k v s = (inr article', s') ->
  annotated d article'.
Proof.
  intros Hk (d' & -> & Hd). simpl. intros [= <- _].
  exists (dict_set d' k v). split; [done|]. intros k0 Hk0.
  rewrite dict_get_set_other by (intros ->; by apply Hk0). by apply Hd.
Qed.

Lemma process_article_annotated E self base download_attachments save_pdf save_html
    save_text d s article' s' :
  process_article E self base download_attachments save_pdf save_html save_text
    (VDict d) s = (inr article', s') ->
  annotated d article'.
Proof.
  unfold process_article. intros H.
  apply bind_inr in H as (article_id & s1 & _ & H).
  apply bind_inr in H as (article_title & s2 & _ & H).
  unfold try_except in H.
  match type of H with context [match ?b s2 with _ => _ end] =>
    destruct (b s2) as [[e|a] s3] eqn:Hb end.
  { simpl in H. injection H as <- _. apply annotated_refl. }
  injection H as -> _.
  apply bind_inr in Hb as (folder & s4 & _ & Hb).
  apply bind_inr in Hb as ([ok detail] & s5 & _ & Hb).
  destruct ok; [|injection Hb as <- _; apply annotated_refl].
  apply bind_inr in Hb as (? & s6 & _ & Hb).
  destruct (download_attachments && truthy detail);
    [|injection Hb as <- _; apply annotated_refl].
  apply bind_inr in Hb as (attachments & s7 & _ & Hb).
  apply bind_inr in Hb as (count & s8 & _ & Hb).
  apply bind_inr in Hb as (n & s9 & _ & Hb).
  apply bind_inr in Hb as (a1 & s10 & H1 & Hb).
  apply bind_inr in Hb as (a2 & s11 & H2 & Hb).
  apply bind_inr in Hb as (a3 & s12 & H3 & Hb).
  assert (Hin : forall k, k ∈ annotation_keys <-> In k annotation_keys)
    by (intros; apply list_elem_of_In).
  eapply annotated_setitem; [| |exact Hb]; [apply Hin; simpl; tauto|].
  eapply annotated_setitem; [| |exact H3]; [apply Hin; simpl; tauto|].
  eapply annotated_setitem; [| |exact H2]; [apply Hin; simpl; tauto|].
  eapply annotated_setitem; [| |exact H1]; [apply Hin; simpl; tauto|].
  apply annotated_refl.
Qed.

Lemma map_m_annotated {S : Type} (f : PyVal -> M S PyVal) :
  (forall d s a s', f (VDict d) s = (inr a, s') -> annotated d a) ->
  forall records s articles' s',
    map_m f (map VDict records) s = (inr articles', s') ->
    Forall2 annotated records articles'.
Proof.
  intros Hf. induction records as [|d rest IH]; intros s articles' s'; simpl.
  - intros [= <- _]. constructor.
  - intros H. apply bind_inr in H as (a & s1 & Ha & H).
    apply bind_inr in H as (ys & s2 & Hys & H). injection H as <- _.
    constructor; [by eapply Hf | by eapply IH].
Qed.

(** X28. The stubs come out of the bulk download as the records they
    were, apart from the four fields of the annotation ([has_attachments],
    [attachment_count], [attachments_downloaded], [local_folder]): every other
    field has the value it had. *)
Theorem bulk_download_only_annotates (E : Env) (self : Extractor)
    (records : list (list (pystr * PyVal))) (base_download_dir : pystr)
    (download_attachments save_pdf save_html save_text : bool) (st st' : State)
    (summary : RunSummary) (articles' : list PyVal) :
  download_articles_and_attachments E self (map VDict records) base_download_dir
    download_attachments save_pdf save_html save_text st
  = (inr (summary, articles'), st') ->
  Forall2 annotated records articles'.
Proof.
  unfold download_articles_and_attachments.
  match goal with |- context [map_m ?f ?xs ?s] =>
    destruct (map_m f xs s) as [[e|ys] [c s1]] eqn:Hm end; [done|].
  intros [= _ <- _].
  refine (map_m_annotated _ _ records _ _ _ Hm).
  intros d s a s'. apply process_article_annotated.
Qed.

Lemma bulk_download_only_annotates_witness :
  Forall2 annotated
    [ [(lit "id", VInt 1); (lit "title", VStr (lit "A"))];
      [(lit "id", VInt 2); (lit "title", VStr (lit "B"))] ]
    (match fst scenario_run with
     | inr (_, articles') => articles'
     | inl _ => []
     end).
Proof.
  apply (bulk_download_only_annotates scenario_env kb
           [ [(lit "id", VInt 1); (lit "title", VStr (lit "A"))];
             [(lit "id", VInt 2); (lit "title", VStr (lit "B"))] ]
           (lit "knowledge_base") true true true true empty_world
           (snd scenario_run)
           (match summary_of (fst scenario_run) with
            | Some s => s
            | None => {| total_articles := 0; successful_articles := 0;
                         total_attachments := 0; successful_attachments := 0;
                         download_directory := [] |}
            end)).
  vm_compute. reflexivity.
Defined.
